(** * Stock_Summary: trade extraction and portfolio aggregation

    A shallow embedding of [src/models/trade_model.py], [src/core/parser.py]
    and the aggregation loop of [src/integrations/sheets_ledger.py], together
    with the part of the Python runtime these functions rely on (text as
    sequences of code points, [float], [round], [re], [datetime.strptime]).

    Python's [float] is IEEE 754 binary64, which is what Rocq's primitive
    floats are, so arithmetic is modelled by [PrimFloat] itself. *)

From Stdlib Require Import ZArith NArith List Bool Lia String Ascii Floats.
From Stdlib Require Import Permutation Sorted.
Import ListNotations.

Set Implicit Arguments.

(* ================================================================== *)
(** * Text: Python [str] as a sequence of Unicode code points *)
(* ================================================================== *)

Module Text.

Definition char := N.
Definition str := list char.

Definition char_eqb : char -> char -> bool := N.eqb.

Fixpoint str_eqb (a b : str) : bool :=
  match a, b with
  | [], [] => true
  | x :: a', y :: b' => char_eqb x y && str_eqb a' b'
  | _, _ => false
  end.

(** Literals are written as UTF-8 string constants and decoded to code
    points. *)
Fixpoint utf8_decode (bs : list N) : str :=
  match bs with
  | [] => []
  | b0 :: t0 =>
    if (b0 <? 128)%N then b0 :: utf8_decode t0 else
    match t0 with
    | [] => []
    | b1 :: t1 =>
      if (b0 <? 224)%N then ((b0 mod 32) * 64 + b1 mod 64)%N :: utf8_decode t1 else
      match t1 with
      | [] => []
      | b2 :: t2 =>
        if (b0 <? 240)%N
        then ((b0 mod 16) * 4096 + (b1 mod 64) * 64 + b2 mod 64)%N :: utf8_decode t2
        else
        match t2 with
        | [] => []
        | b3 :: t3 =>
          ((b0 mod 8) * 262144 + (b1 mod 64) * 4096 + (b2 mod 64) * 64 + b3 mod 64)%N
            :: utf8_decode t3
        end
      end
    end
  end.

Definition lit (s : string) : str :=
  utf8_decode (map N_of_ascii (list_ascii_of_string s)).

Definition in_range (lo hi c : N) : bool := ((lo <=? c) && (c <=? hi))%N.

(** [str.isspace] for one character; the same set is matched by [\s] in a
    [str] pattern. *)
Definition isspace (c : char) : bool :=
  in_range 9 13 c || in_range 28 32 c || (c =? 133)%N || (c =? 160)%N
  || (c =? 5760)%N || in_range 8192 8202 c || (c =? 8232)%N || (c =? 8233)%N
  || (c =? 8239)%N || (c =? 8287)%N || (c =? 12288)%N.

(** Code points of the digit zero of every decimal system (category Nd);
    the nine following code points are its digits one to nine. *)
Definition decimal_zeros : list N :=
  [ 48; 1632; 1776; 1984; 2406; 2534; 2662; 2790; 2918; 3046; 3174; 3302;
    3430; 3558; 3664; 3792; 3872; 4160; 4240; 6112; 6160; 6470; 6608; 6784;
    6800; 6992; 7088; 7232; 7248; 42528; 43216; 43264; 43472; 43504; 43600;
    44016; 65296; 66720; 68912; 69734; 69872; 69942; 70096; 70384; 70736;
    70864; 71248; 71360; 71472; 71904; 72016; 72784; 73040; 73120; 92768;
    92864; 93008; 120782; 120792; 120802; 120812; 120822; 123200; 123632;
    125264; 130032 ]%N.

Fixpoint decimal_in (zs : list N) (c : char) : option N :=
  match zs with
  | [] => None
  | z :: zs' => if in_range z (z + 9) c then Some (c - z)%N else decimal_in zs' c
  end.

(** [unicodedata.decimal]: the value of a decimal digit, in any script. *)
Definition decimal (c : char) : option N := decimal_in decimal_zeros c.

(** [str.isdecimal] for one character; the set matched by [\d]. *)
Definition isdecimal (c : char) : bool :=
  match decimal c with Some _ => true | None => false end.

(** [str.strip()] *)
Fixpoint lstrip (s : str) : str :=
  match s with
  | c :: s' => if isspace c then lstrip s' else s
  | [] => []
  end.

Definition rstrip (s : str) : str := rev (lstrip (rev s)).
Definition strip (s : str) : str := rstrip (lstrip s).

(** [s.replace(",", "")] *)
Definition comma : char := 44%N.
Definition remove_commas (s : str) : str :=
  filter (fun c => negb (char_eqb c comma)) s.

Fixpoint startswith (p s : str) : bool :=
  match p, s with
  | [], _ => true
  | x :: p', y :: s' => char_eqb x y && startswith p' s'
  | _ :: _, [] => false
  end.

(** [p in s] *)
Fixpoint contains (p s : str) : bool :=
  startswith p s ||
  match s with
  | [] => false
  | _ :: s' => contains p s'
  end.

(** [s.zfill(width)] *)
Definition zfill (width : nat) (s : str) : str :=
  let pad := repeat 48%N (width - List.length s) in
  match s with
  | c :: s' => if (c =? 43)%N || (c =? 45)%N then c :: pad ++ s' else pad ++ s
  | [] => pad
  end.

(** Lexicographic order on code points, the order of [sorted] on [str]. *)
Fixpoint str_ltb (a b : str) : bool :=
  match a, b with
  | _, [] => false
  | [], _ :: _ => true
  | x :: a', y :: b' => (x <? y)%N || ((x =? y)%N && str_ltb a' b')
  end.

(** [str.upper()] maps each character through the Unicode full upper-case
    mapping (Unicode 14.0, as in CPython 3.11).  [upper_runs] lists the
    one-to-one mappings as arithmetic runs [(first, last, stride, image of
    first)]; [upper_special] lists the characters whose image has several
    code points. *)
Definition upper_runs : list (N * N * N * N) :=
  [
    (97, 122, 1, 65); (181, 181, 1, 924); (224, 246, 1, 192); (248, 254, 1,
    216); (255, 255, 1, 376); (257, 303, 2, 256); (305, 305, 1, 73); (307,
    311, 2, 306); (314, 328, 2, 313); (331, 375, 2, 330); (378, 382, 2,
    377); (383, 383, 1, 83); (384, 384, 1, 579); (387, 389, 2, 386); (392,
    392, 1, 391); (396, 396, 1, 395); (402, 402, 1, 401); (405, 405, 1,
    502); (409, 409, 1, 408); (410, 410, 1, 573); (414, 414, 1, 544); (417,
    421, 2, 416); (424, 424, 1, 423); (429, 429, 1, 428); (432, 432, 1,
    431); (436, 438, 2, 435); (441, 441, 1, 440); (445, 445, 1, 444); (447,
    447, 1, 503); (453, 453, 1, 452); (454, 454, 1, 452); (456, 456, 1,
    455); (457, 457, 1, 455); (459, 459, 1, 458); (460, 460, 1, 458); (462,
    476, 2, 461); (477, 477, 1, 398); (479, 495, 2, 478); (498, 498, 1,
    497); (499, 499, 1, 497); (501, 501, 1, 500); (505, 543, 2, 504); (547,
    563, 2, 546); (572, 572, 1, 571); (575, 576, 1, 11390); (578, 578, 1,
    577); (583, 591, 2, 582); (592, 592, 1, 11375); (593, 593, 1, 11373);
    (594, 594, 1, 11376); (595, 595, 1, 385); (596, 596, 1, 390); (598, 599,
    1, 393); (601, 601, 1, 399); (603, 603, 1, 400); (604, 604, 1, 42923);
    (608, 608, 1, 403); (609, 609, 1, 42924); (611, 611, 1, 404); (613, 613,
    1, 42893); (614, 614, 1, 42922); (616, 616, 1, 407); (617, 617, 1, 406);
    (618, 618, 1, 42926); (619, 619, 1, 11362); (620, 620, 1, 42925); (623,
    623, 1, 412); (625, 625, 1, 11374); (626, 626, 1, 413); (629, 629, 1,
    415); (637, 637, 1, 11364); (640, 640, 1, 422); (642, 642, 1, 42949);
    (643, 643, 1, 425); (647, 647, 1, 42929); (648, 648, 1, 430); (649, 649,
    1, 580); (650, 651, 1, 433); (652, 652, 1, 581); (658, 658, 1, 439);
    (669, 669, 1, 42930); (670, 670, 1, 42928); (837, 837, 1, 921); (881,
    883, 2, 880); (887, 887, 1, 886); (891, 893, 1, 1021); (940, 940, 1,
    902); (941, 943, 1, 904); (945, 961, 1, 913); (962, 962, 1, 931); (963,
    971, 1, 931); (972, 972, 1, 908); (973, 974, 1, 910); (976, 976, 1,
    914); (977, 977, 1, 920); (981, 981, 1, 934); (982, 982, 1, 928); (983,
    983, 1, 975); (985, 1007, 2, 984); (1008, 1008, 1, 922); (1009, 1009, 1,
    929); (1010, 1010, 1, 1017); (1011, 1011, 1, 895); (1013, 1013, 1, 917);
    (1016, 1016, 1, 1015); (1019, 1019, 1, 1018); (1072, 1103, 1, 1040);
    (1104, 1119, 1, 1024); (1121, 1153, 2, 1120); (1163, 1215, 2, 1162);
    (1218, 1230, 2, 1217); (1231, 1231, 1, 1216); (1233, 1327, 2, 1232);
    (1377, 1414, 1, 1329); (4304, 4346, 1, 7312); (4349, 4351, 1, 7357);
    (5112, 5117, 1, 5104); (7296, 7296, 1, 1042); (7297, 7297, 1, 1044);
    (7298, 7298, 1, 1054); (7299, 7300, 1, 1057); (7301, 7301, 1, 1058);
    (7302, 7302, 1, 1066); (7303, 7303, 1, 1122); (7304, 7304, 1, 42570);
    (7545, 7545, 1, 42877); (7549, 7549, 1, 11363); (7566, 7566, 1, 42950);
    (7681, 7829, 2, 7680); (7835, 7835, 1, 7776); (7841, 7935, 2, 7840);
    (7936, 7943, 1, 7944); (7952, 7957, 1, 7960); (7968, 7975, 1, 7976);
    (7984, 7991, 1, 7992); (8000, 8005, 1, 8008); (8017, 8023, 2, 8025);
    (8032, 8039, 1, 8040); (8048, 8049, 1, 8122); (8050, 8053, 1, 8136);
    (8054, 8055, 1, 8154); (8056, 8057, 1, 8184); (8058, 8059, 1, 8170);
    (8060, 8061, 1, 8186); (8112, 8113, 1, 8120); (8126, 8126, 1, 921);
    (8144, 8145, 1, 8152); (8160, 8161, 1, 8168); (8165, 8165, 1, 8172);
    (8526, 8526, 1, 8498); (8560, 8575, 1, 8544); (8580, 8580, 1, 8579);
    (9424, 9449, 1, 9398); (11312, 11359, 1, 11264); (11361, 11361, 1,
    11360); (11365, 11365, 1, 570); (11366, 11366, 1, 574); (11368, 11372,
    2, 11367); (11379, 11379, 1, 11378); (11382, 11382, 1, 11381); (11393,
    11491, 2, 11392); (11500, 11502, 2, 11499); (11507, 11507, 1, 11506);
    (11520, 11557, 1, 4256); (11559, 11559, 1, 4295); (11565, 11565, 1,
    4301); (42561, 42605, 2, 42560); (42625, 42651, 2, 42624); (42787,
    42799, 2, 42786); (42803, 42863, 2, 42802); (42874, 42876, 2, 42873);
    (42879, 42887, 2, 42878); (42892, 42892, 1, 42891); (42897, 42899, 2,
    42896); (42900, 42900, 1, 42948); (42903, 42921, 2, 42902); (42933,
    42947, 2, 42932); (42952, 42954, 2, 42951); (42961, 42961, 1, 42960);
    (42967, 42969, 2, 42966); (42998, 42998, 1, 42997); (43859, 43859, 1,
    42931); (43888, 43967, 1, 5024); (65345, 65370, 1, 65313); (66600,
    66639, 1, 66560); (66776, 66811, 1, 66736); (66967, 66977, 1, 66928);
    (66979, 66993, 1, 66940); (66995, 67001, 1, 66956); (67003, 67004, 1,
    66964); (68800, 68850, 1, 68736); (71872, 71903, 1, 71840); (93792,
    93823, 1, 93760); (125218, 125251, 1, 125184)
  ]%N.

Definition upper_special : list (N * list N) :=
  [
    (223, [83; 83]); (329, [700; 78]); (496, [74; 780]); (912, [921; 776;
    769]); (944, [933; 776; 769]); (1415, [1333; 1362]); (7830, [72; 817]);
    (7831, [84; 776]); (7832, [87; 778]); (7833, [89; 778]); (7834, [65;
    702]); (8016, [933; 787]); (8018, [933; 787; 768]); (8020, [933; 787;
    769]); (8022, [933; 787; 834]); (8064, [7944; 921]); (8065, [7945;
    921]); (8066, [7946; 921]); (8067, [7947; 921]); (8068, [7948; 921]);
    (8069, [7949; 921]); (8070, [7950; 921]); (8071, [7951; 921]); (8072,
    [7944; 921]); (8073, [7945; 921]); (8074, [7946; 921]); (8075, [7947;
    921]); (8076, [7948; 921]); (8077, [7949; 921]); (8078, [7950; 921]);
    (8079, [7951; 921]); (8080, [7976; 921]); (8081, [7977; 921]); (8082,
    [7978; 921]); (8083, [7979; 921]); (8084, [7980; 921]); (8085, [7981;
    921]); (8086, [7982; 921]); (8087, [7983; 921]); (8088, [7976; 921]);
    (8089, [7977; 921]); (8090, [7978; 921]); (8091, [7979; 921]); (8092,
    [7980; 921]); (8093, [7981; 921]); (8094, [7982; 921]); (8095, [7983;
    921]); (8096, [8040; 921]); (8097, [8041; 921]); (8098, [8042; 921]);
    (8099, [8043; 921]); (8100, [8044; 921]); (8101, [8045; 921]); (8102,
    [8046; 921]); (8103, [8047; 921]); (8104, [8040; 921]); (8105, [8041;
    921]); (8106, [8042; 921]); (8107, [8043; 921]); (8108, [8044; 921]);
    (8109, [8045; 921]); (8110, [8046; 921]); (8111, [8047; 921]); (8114,
    [8122; 921]); (8115, [913; 921]); (8116, [902; 921]); (8118, [913;
    834]); (8119, [913; 834; 921]); (8124, [913; 921]); (8130, [8138; 921]);
    (8131, [919; 921]); (8132, [905; 921]); (8134, [919; 834]); (8135, [919;
    834; 921]); (8140, [919; 921]); (8146, [921; 776; 768]); (8147, [921;
    776; 769]); (8150, [921; 834]); (8151, [921; 776; 834]); (8162, [933;
    776; 768]); (8163, [933; 776; 769]); (8164, [929; 787]); (8166, [933;
    834]); (8167, [933; 776; 834]); (8178, [8186; 921]); (8179, [937; 921]);
    (8180, [911; 921]); (8182, [937; 834]); (8183, [937; 834; 921]); (8188,
    [937; 921]); (64256, [70; 70]); (64257, [70; 73]); (64258, [70; 76]);
    (64259, [70; 70; 73]); (64260, [70; 70; 76]); (64261, [83; 84]); (64262,
    [83; 84]); (64275, [1348; 1350]); (64276, [1348; 1333]); (64277, [1348;
    1339]); (64278, [1358; 1350]); (64279, [1348; 1341])
  ]%N.

Fixpoint upper_in_special (t : list (N * list N)) (c : char) : option str :=
  match t with
  | [] => None
  | (k, u) :: t' => if (k =? c)%N then Some u else upper_in_special t' c
  end.

Fixpoint upper_in_runs (t : list (N * N * N * N)) (c : char) : char :=
  match t with
  | [] => c
  | (lo, hi, stride, ulo) :: t' =>
    if in_range lo hi c && ((c - lo) mod stride =? 0)%N
    then (ulo + (c - lo))%N
    else upper_in_runs t' c
  end.

Definition upper_char (c : char) : str :=
  match upper_in_special upper_special c with
  | Some u => u
  | None => [upper_in_runs upper_runs c]
  end.

Definition upper (s : str) : str := flat_map upper_char s.

End Text.

(* ================================================================== *)
(** * The Python runtime used by the program *)
(* ================================================================== *)

Module Py.
Import Text.

(** ** Exceptions

    Only the classes the program can meet are distinguished: [ValueError]
    ([float], [strptime], [datetime]), pydantic's [ValidationError] (a
    subclass of [ValueError]), [IndexError], and any other subclass of
    [Exception] (what the HTML parser may raise). *)
Inductive exn : Type :=
| ValueError
| ValidationError
| IndexError
| OtherException.

(** [isinstance(e, (ValueError, IndexError))] *)
Definition is_ValueError_or_IndexError (e : exn) : bool :=
  match e with
  | ValueError | ValidationError | IndexError => true
  | OtherException => false
  end.

(** [isinstance(e, Exception)] *)
Definition is_Exception (e : exn) : bool := true.

Inductive result (A : Type) : Type :=
| Ok (a : A)
| Raise (e : exn).
Arguments Ok {A} a.
Arguments Raise {A} e.

Definition bind {A B} (m : result A) (k : A -> result B) : result B :=
  match m with
  | Ok a => k a
  | Raise e => Raise e
  end.

(** [try: m  except <handles>: h] *)
Definition try_except {A} (m : result A) (handles : exn -> bool)
    (h : exn -> result A) : result A :=
  match m with
  | Ok a => Ok a
  | Raise e => if handles e then h e else Raise e
  end.

Declare Scope py_scope.
Delimit Scope py_scope with py.
Notation "x <- m ;; k" := (bind m (fun x => k))
  (at level 61, m at next level, right associativity) : py_scope.

(** ** [float] *)

Definition float := PrimFloat.float.

(** [x > 0], [x != 0] and [x == 0] on floats *)
Definition gt0 (x : float) : bool := PrimFloat.ltb PrimFloat.zero x.
Definition ne0 (x : float) : bool := negb (PrimFloat.eqb x PrimFloat.zero).
Definition eq0 (x : float) : bool := PrimFloat.eqb x PrimFloat.zero.

(** The double nearest to [n / d] (ties to even), for [0 <= n].  The
    quotient is computed to 64 bits or more with a sticky bit, and rounded by
    the Standard Library's binary64 rounding. *)
Definition float_of_ratio (n : Z) (d : positive) : float :=
  if (n <=? 0)%Z then PrimFloat.zero else
  let k := Z.max 0 (64 + Z.log2 (Zpos d) - Z.log2 n) in
  let num := (n * 2 ^ k)%Z in
  let q := (num / Zpos d)%Z in
  let sticky := if (num mod Zpos d =? 0)%Z then 0%Z else 1%Z in
  SF2Prim (binary_normalize prec emax (2 * q + sticky) (- (k + 1)) false).

Definition with_sign (neg : bool) (x : float) : float :=
  if neg then PrimFloat.opp x else x.

(** [float(s)] for a [str]: characters are first brought to ASCII (Unicode
    spaces become a blank, Unicode decimal digits the ASCII digit; at any
    other non-ASCII character the text is cut and ends in a question mark),
    single underscores between digits are dropped, ASCII blanks are stripped
    at both ends, and what remains must be a decimal literal, [inf],
    [infinity] or [nan], optionally signed. *)
Fixpoint transform_decimal_and_space (s : str) : str :=
  match s with
  | [] => []
  | c :: s' =>
    if (c <? 127)%N then c :: transform_decimal_and_space s'
    else if isspace c then 32%N :: transform_decimal_and_space s'
    else match decimal c with
         | Some d => (48 + d)%N :: transform_decimal_and_space s'
         | None => [63%N]
         end
  end.

Definition is_ascii_digit (c : char) : bool := in_range 48 57 c.
Definition underscore : char := 95%N.

(** Underscores are allowed only after a digit and before a digit. *)
Fixpoint drop_underscores (prev : char) (s : str) : option str :=
  match s with
  | [] => if char_eqb prev underscore then None else Some []
  | c :: s' =>
    if char_eqb c underscore then
      if is_ascii_digit prev then drop_underscores c s' else None
    else if char_eqb prev underscore && negb (is_ascii_digit c) then None
    else option_map (cons c) (drop_underscores c s')
  end.

Definition ascii_isspace (c : char) : bool := in_range 9 13 c || (c =? 32)%N.

Fixpoint ascii_lstrip (s : str) : str :=
  match s with
  | c :: s' => if ascii_isspace c then ascii_lstrip s' else s
  | [] => []
  end.

Definition ascii_strip (s : str) : str :=
  rev (ascii_lstrip (rev (ascii_lstrip s))).

Definition ascii_lower (c : char) : char :=
  if in_range 65 90 c then (c + 32)%N else c.

Fixpoint span_digits (s : str) : list Z * str :=
  match s with
  | c :: s' =>
    if is_ascii_digit c
    then let '(ds, r) := span_digits s' in (Z.of_N (c - 48) :: ds, r)
    else ([], s)
  | [] => ([], [])
  end.

Definition digits_value (ds : list Z) : Z :=
  fold_left (fun acc d => (10 * acc + d)%Z) ds 0%Z.

Definition read_sign (s : str) : bool * str :=
  match s with
  | c :: s' =>
    if (c =? 45)%N then (true, s')
    else if (c =? 43)%N then (false, s')
    else (false, s)
  | [] => (false, [])
  end.

(** The exponent part [e[+-]digits]; without digits it is not part of the
    literal and is left unread. *)
Definition read_exponent (s : str) : Z * str :=
  match s with
  | c :: s' =>
    if (ascii_lower c =? 101)%N then
      let '(neg, s'') := read_sign s' in
      match span_digits s'' with
      | ([], _) => (0%Z, s)
      | (ds, r) => ((if neg then - digits_value ds else digits_value ds)%Z, r)
      end
    else (0%Z, s)
  | [] => (0%Z, [])
  end.

Definition parse_inf_or_nan (s : str) : option float :=
  let l := map ascii_lower s in
  if str_eqb l (lit "inf") || str_eqb l (lit "infinity") then Some PrimFloat.infinity
  else if str_eqb l (lit "nan") then Some PrimFloat.nan
  else None.

Definition parse_decimal (s : str) : option float :=
  let '(ip, r1) := span_digits s in
  let '(fp, r2) :=
    match r1 with
    | c :: r1' => if (c =? 46)%N then span_digits r1' else ([], r1)
    | [] => ([], [])
    end in
  match ip ++ fp with
  | [] => None
  | ds =>
    let '(e, r3) := read_exponent r2 in
    match r3 with
    | _ :: _ => None
    | [] =>
      let m := digits_value ds in
      let e10 := (e - Z.of_nat (List.length fp))%Z in
      Some (if (0 <=? e10)%Z
            then float_of_ratio (m * 10 ^ e10) 1
            else float_of_ratio m (Z.to_pos (10 ^ (- e10))))
    end
  end.

Definition string_to_double (s : str) : option float :=
  let '(neg, body) := read_sign s in
  match parse_inf_or_nan body with
  | Some x => Some (with_sign neg x)
  | None => option_map (with_sign neg) (parse_decimal body)
  end.

Definition float_of_str (s : str) : result float :=
  match drop_underscores 0%N (transform_decimal_and_space s) with
  | None => Raise ValueError
  | Some t =>
    match string_to_double (ascii_strip t) with
    | Some x => Ok x
    | None => Raise ValueError
    end
  end.

(** ** [round(x, 2)]

    The exact value of [x], rounded half-even to two decimals, and the double
    nearest to that decimal; infinities and NaN round to themselves. *)
Definition round_half_even (n : Z) (d : positive) : Z :=
  let q := (n / Zpos d)%Z in
  let r := (n mod Zpos d)%Z in
  match (2 * r ?= Zpos d)%Z with
  | Lt => q
  | Gt => (q + 1)%Z
  | Eq => if Z.even q then q else (q + 1)%Z
  end.

Definition round2 (x : float) : float :=
  match Prim2SF x with
  | S754_finite s m e =>
    let n := if (0 <=? e)%Z
             then (100 * Zpos m * 2 ^ e)%Z
             else round_half_even (100 * Zpos m) (Z.to_pos (2 ^ (- e))) in
    with_sign s (float_of_ratio n 100)
  | _ => x
  end.

(** ** [int(s)] on the text matched by a [strptime] directive: decimal
    digits of any script, possibly after blanks. *)
Fixpoint decimals_value (s : str) (acc : Z) : option Z :=
  match s with
  | [] => Some acc
  | c :: s' =>
    match decimal c with
    | Some d => decimals_value s' (10 * acc + Z.of_N d)%Z
    | None => None
    end
  end.

Definition int_of_str (s : str) : result Z :=
  match strip s with
  | [] => Raise ValueError
  | t => match decimals_value t 0%Z with
         | Some n => Ok n
         | None => Raise ValueError
         end
  end.

End Py.

(* ================================================================== *)
(** * Regular expressions: the part of [re] the program uses *)
(* ================================================================== *)

Module Re.
Import Text.

(** Patterns, with the backtracking semantics of [re]: alternatives are
    tried left to right, repetition is greedy, and the first way of matching
    that lets the rest of the pattern match is taken.  Repetition is only
    needed on sets of characters.  Groups are numbered in the order in which
    they close, which in the patterns below is the order in which they open. *)
Inductive regex : Type :=
| Eps
| Chr (p : char -> bool)
| Seq (a b : regex)
| Alt (a b : regex)
| Rep (lo : nat) (hi : option nat) (p : char -> bool)
| Grp (a : regex)
| Bol
| Eol.

Section Engine.
Variable R : Type.

(** Greedy [p{lo,hi}] at position [i] before the text [s]. *)
Fixpoint rep (p : char -> bool) (lo : nat) (hi : option nat) (i : nat)
    (s : str) (k : nat -> str -> option R) : option R :=
  let stop := match lo with O => k i s | S _ => None end in
  match hi with
  | Some O => stop
  | _ =>
    match s with
    | c :: s' =>
      if p c then
        match rep p (pred lo) (option_map pred hi) (S i) s' k with
        | Some r => Some r
        | None => stop
        end
      else stop
    | [] => stop
    end
  end.

Fixpoint run (r : regex) (i : nat) (s : str) (caps : list str)
    (k : nat -> str -> list str -> option R) : option R :=
  match r with
  | Eps => k i s caps
  | Chr p =>
    match s with
    | c :: s' => if p c then k (S i) s' caps else None
    | [] => None
    end
  | Seq a b => run a i s caps (fun i1 s1 c1 => run b i1 s1 c1 k)
  | Alt a b =>
    match run a i s caps k with
    | Some x => Some x
    | None => run b i s caps k
    end
  | Rep lo hi p => rep p lo hi i s (fun i1 s1 => k i1 s1 caps)
  | Grp a => run a i s caps (fun i1 s1 c1 => k i1 s1 (c1 ++ [firstn (i1 - i) s]))
  | Bol => match i with O => k i s caps | S _ => None end
  | Eol =>
    match s with
    | [] => k i s caps
    | [c] => if (c =? 10)%N then k i s caps else None
    | _ => None
    end
  end.
End Engine.

(** What a run of a pattern can hand to its continuation: [Matches r i s c
    i' s' c'] when [r] matches, at position [i] before the text [s] and with
    the groups [c] closed so far, a prefix of [s] that ends at position [i']
    before [s'], with the groups [c'] closed. *)
Inductive Matches : regex -> nat -> str -> list str -> nat -> str -> list str -> Prop :=
| M_Eps : forall i s c, Matches Eps i s c i s c
| M_Chr : forall p x i s c, p x = true -> Matches (Chr p) i (x :: s) c (S i) s c
| M_Seq : forall a b i s c i1 s1 c1 i2 s2 c2,
    Matches a i s c i1 s1 c1 -> Matches b i1 s1 c1 i2 s2 c2 ->
    Matches (Seq a b) i s c i2 s2 c2
| M_AltL : forall a b i s c i1 s1 c1,
    Matches a i s c i1 s1 c1 -> Matches (Alt a b) i s c i1 s1 c1
| M_AltR : forall a b i s c i1 s1 c1,
    Matches b i s c i1 s1 c1 -> Matches (Alt a b) i s c i1 s1 c1
| M_Rep : forall p lo hi i cs s c,
    forallb p cs = true -> lo <= List.length cs ->
    (forall h, hi = Some h -> List.length cs <= h) ->
    Matches (Rep lo hi p) i (cs ++ s) c (i + List.length cs) s c
| M_Grp : forall a i s c i1 s1 c1,
    Matches a i s c i1 s1 c1 ->
    Matches (Grp a) i s c i1 s1 (c1 ++ [firstn (i1 - i) s])
| M_Bol : forall s c, Matches Bol 0 s c 0 s c
| M_Eol : forall i s c, s = [] \/ s = [10%N] -> Matches Eol i s c i s c.

(** A match: the position where it ends and the text of its groups. *)
Definition found : Type := nat * list str.

Definition accept (i : nat) (_ : str) (caps : list str) : option found :=
  Some (i, caps).

(** [re.match(r, s)] *)
Definition match_ (r : regex) (s : str) : option found := run r 0 s [] accept.

(** [re.search(r, s)]: the match at the leftmost position that has one. *)
Fixpoint search_from (r : regex) (i : nat) (s : str) : option found :=
  match run r i s [] accept with
  | Some m => Some m
  | None =>
    match s with
    | [] => None
    | _ :: s' => search_from r (S i) s'
    end
  end.

Definition search (r : regex) (s : str) : option found := search_from r 0 s.

(** [m.group(n)], for [n >= 1]: a group that took no part in the match is
    absent; every group of the patterns below takes part in every match. *)
Definition group (m : found) (n : nat) : str := nth (pred n) (snd m) [].

(** ** Building patterns *)

Fixpoint seq (rs : list regex) : regex :=
  match rs with
  | [] => Eps
  | [r] => r
  | r :: rs' => Seq r (seq rs')
  end.

Fixpoint alt (rs : list regex) : regex :=
  match rs with
  | [] => Eps
  | [r] => r
  | r :: rs' => Alt r (alt rs')
  end.

Definition just (c : string) : char -> bool :=
  fun x => match lit c with [y] => char_eqb x y | _ => false end.

Definition between (lo hi : string) : char -> bool :=
  fun x => match lit lo, lit hi with
           | [l], [h] => in_range l h x
           | _, _ => false
           end.

Definition either (p q : char -> bool) : char -> bool := fun x => p x || q x.

(** A literal text, matched exactly. *)
Definition text (s : string) : regex := seq (map (fun c => Chr (char_eqb c)) (lit s)).

(** A character of a pattern under [re.IGNORECASE]: a letter matches both of
    its cases and, for i, k and s, the characters that fold to them (dotted
    capital I and dotless i, the Kelvin sign, long s). *)
Definition ignorecase (c : char) : char -> bool :=
  fun x =>
    let l := Py.ascii_lower c in
    if in_range 97 122 l then
      (x =? l)%N || (x =? l - 32)%N
      || ((l =? 105)%N && ((x =? 304)%N || (x =? 305)%N))
      || ((l =? 107)%N && (x =? 8490)%N)
      || ((l =? 115)%N && (x =? 383)%N)
    else (x =? c)%N.

(** A literal text under [re.IGNORECASE]. *)
Definition text_i (s : string) : regex := seq (map (fun c => Chr (ignorecase c)) (lit s)).

(** [[A-Z0-9]] under [re.IGNORECASE] *)
Definition upper_alnum_i : char -> bool :=
  fun x => in_range 65 90 x || in_range 97 122 x || in_range 48 57 x
           || (x =? 304)%N || (x =? 305)%N || (x =? 383)%N || (x =? 8490)%N.

Definition star (p : char -> bool) : regex := Rep 0 None p.
Definition plus (p : char -> bool) : regex := Rep 1 None p.
Definition opt (p : char -> bool) : regex := Rep 0 (Some 1) p.

(** [\d], [\s] and [.] *)
Definition digit : char -> bool := isdecimal.
Definition space : char -> bool := isspace.
Definition anychar : char -> bool := fun x => negb (x =? 10)%N.

(** A pattern without groups. *)
Fixpoint groupless (r : regex) : bool :=
  match r with
  | Grp _ => false
  | Seq a b | Alt a b => groupless a && groupless b
  | _ => true
  end.


(** The characters that match the pattern character [c] under
    [re.IGNORECASE]. *)
Definition folds (c : char) : list char :=
  let l := Py.ascii_lower c in
  if in_range 97 122 l then
    [l; (l - 32)%N]
    ++ (if (l =? 105)%N then [304%N; 305%N] else [])
    ++ (if (l =? 107)%N then [8490%N] else [])
    ++ (if (l =? 115)%N then [383%N] else [])
  else [c].

End Re.

(* ================================================================== *)
(** * [datetime] *)
(* ================================================================== *)

Module Datetime.
Import Text Py Re.

Record datetime : Type := mk_datetime {
  year : Z; month : Z; day : Z; hour : Z; minute : Z; second : Z
}.

Definition is_leap (y : Z) : bool :=
  ((y mod 4 =? 0) && (negb (y mod 100 =? 0) || (y mod 400 =? 0)))%Z.

Definition days_in_month (y m : Z) : Z :=
  if (m =? 2)%Z then (if is_leap y then 29 else 28)%Z
  else if ((m =? 4) || (m =? 6) || (m =? 9) || (m =? 11))%Z then 30%Z
  else 31%Z.

(** [datetime(y, m, d, H, M, S)] *)
Definition make (y m d H M S : Z) : result datetime :=
  if ((1 <=? y) && (y <=? 9999) && (1 <=? m) && (m <=? 12)
      && (1 <=? d) && (d <=? days_in_month y m)
      && (0 <=? H) && (H <=? 23) && (0 <=? M) && (M <=? 59)
      && (0 <=? S) && (S <=? 59))%Z
  then Ok (mk_datetime y m d H M S)
  else Raise ValueError.

(** The pattern [_strptime] builds for the format ["%Y-%m-%d %H:%M:%S"]:
    [(\d\d\d\d)-(1[0-2]|0[1-9]|[1-9])-(3[0-1]|[1-2]\d|0[1-9]|[1-9]| [1-9])\s+]
    [(2[0-3]|[0-1]\d|\d):([0-5]\d|\d):(6[0-1]|[0-5]\d|\d)] *)
Definition format_regex : regex :=
  seq [ Grp (seq [Chr digit; Chr digit; Chr digit; Chr digit]);
        text "-";
        Grp (alt [ seq [text "1"; Chr (between "0" "2")];
                   seq [text "0"; Chr (between "1" "9")];
                   Chr (between "1" "9") ]);
        text "-";
        Grp (alt [ seq [text "3"; Chr (between "0" "1")];
                   seq [Chr (between "1" "2"); Chr digit];
                   seq [text "0"; Chr (between "1" "9")];
                   Chr (between "1" "9");
                   seq [text " "; Chr (between "1" "9")] ]);
        plus space;
        Grp (alt [ seq [text "2"; Chr (between "0" "3")];
                   seq [Chr (between "0" "1"); Chr digit];
                   Chr digit ]);
        text ":";
        Grp (alt [ seq [Chr (between "0" "5"); Chr digit]; Chr digit ]);
        text ":";
        Grp (alt [ seq [text "6"; Chr (between "0" "1")];
                   seq [Chr (between "0" "5"); Chr digit];
                   Chr digit ]) ].

(** [datetime.strptime(data_string, "%Y-%m-%d %H:%M:%S")] *)
Definition strptime (data_string : str) : result datetime :=
  match match_ format_regex data_string with
  | None => Raise ValueError
  | Some m =>
    if negb (Nat.eqb (List.length data_string) (fst m)) then Raise ValueError else
    (y <- int_of_str (group m 1) ;;
     mo <- int_of_str (group m 2) ;;
     dd <- int_of_str (group m 3) ;;
     H <- int_of_str (group m 4) ;;
     M <- int_of_str (group m 5) ;;
     S <- int_of_str (group m 6) ;;
     make y mo dd H M S)%py
  end.

End Datetime.

(* ================================================================== *)
(** * [src/models/trade_model.py] *)
(* ================================================================== *)

Module TradeModel.
Import Text Py Datetime.

(** A constructed [Trade]. *)
Record Trade : Type := mk_Trade {
  symbol : str;
  stock_name : option str;
  side : str;
  quantity : float;
  price : float;
  date : datetime;
  total_amount : option float;
  broker : option str;
  order_id : option str
}.

(** The keyword arguments of [Trade(...)]; [None] for an optional field is
    the field not being supplied. *)
Record kwargs : Type := mk_kwargs {
  kw_symbol : str;
  kw_stock_name : option str;
  kw_side : str;
  kw_quantity : float;
  kw_price : float;
  kw_date : option datetime;
  kw_total_amount : option float;
  kw_broker : option str;
  kw_order_id : option str
}.

Section Model.
(** Whether [from pydantic import BaseModel, Field] succeeds; when it does
    not, the module defines its own [BaseModel] and [Field], and [Field]
    drops the [gt=0] constraints. *)
Variable pydantic : bool.
(** [datetime.now()] at construction. *)
Variable now : datetime.

(** [BaseModel.__init__]: pydantic validates [quantity] and [price]
    against [gt=0] and raises [ValidationError]; the fallback class stores
    what it is given.  Defaults fill the fields not supplied. *)
Definition BaseModel_init (data : kwargs) : result Trade :=
  if pydantic && negb (gt0 (kw_quantity data) && gt0 (kw_price data))
  then Raise ValidationError
  else Ok {| symbol := kw_symbol data;
             stock_name := kw_stock_name data;
             side := kw_side data;
             quantity := kw_quantity data;
             price := kw_price data;
             date := match kw_date data with Some t => t | None => now end;
             total_amount := kw_total_amount data;
             broker := match kw_broker data with
                       | Some b => Some b
                       | None => Some (lit "Unknown")
                       end;
             order_id := kw_order_id data |}.

(** [Trade.__init__] *)
Definition Trade_init (data : kwargs) : result Trade :=
  (self <- BaseModel_init data ;;
   Ok (match total_amount self with
       | None =>
         {| symbol := symbol self;
            stock_name := stock_name self;
            side := side self;
            quantity := quantity self;
            price := price self;
            date := date self;
            total_amount := Some (round2 (PrimFloat.mul (quantity self) (price self)));
            broker := broker self;
            order_id := order_id self |}
       | Some _ => self
       end))%py.
End Model.

End TradeModel.

(* ================================================================== *)
(** * [src/core/parser.py] *)
(* ================================================================== *)

Module TradeParser.
Import Text Py Re Datetime TradeModel.

(** [REGEX_PATTERNS], all searched with [re.IGNORECASE]. *)
Definition pattern_symbol : regex :=
  seq [ alt [text_i "Symbol"; text_i "Ticker"; text_i "Stock"]; text_i ":";
        star space; Grp (plus upper_alnum_i) ].

Definition pattern_side : regex :=
  seq [ alt [text_i "Action"; text_i "Side"; text_i "Type"]; text_i ":";
        star space;
        Grp (alt [text_i "BUY"; text_i "SELL"; text_i "Buy"; text_i "Sell"]) ].

Definition pattern_quantity : regex :=
  seq [ alt [text_i "Quantity"; text_i "Qty"; text_i "Shares"]; text_i ":";
        star space; Grp (plus (either digit (either (just ",") (just ".")))) ].

Definition pattern_price : regex :=
  seq [ alt [text_i "Price"; text_i "Cost"]; text_i ":";
        star space; opt (just "$");
        Grp (plus (either digit (either (just ",") (just ".")))) ].

Definition pattern_order_id : regex :=
  seq [ alt [text_i "Order ID"; text_i "Ref"]; text_i ":";
        star space; Grp (plus (either upper_alnum_i (just "-"))) ].

(** [(\d{4})年(\d{1,2})月(\d{1,2})日] *)
Definition pattern_date : regex :=
  seq [ Grp (Rep 4 (Some 4) digit); text "年";
        Grp (Rep 1 (Some 2) digit); text "月";
        Grp (Rep 1 (Some 2) digit); text "日" ].

(** [^\d+\.?\d*$] *)
Definition pattern_number : regex :=
  seq [ Bol; plus digit; opt (just "."); star digit; Eol ].

(** The pattern of [re.match] on the first cell: [(\d+)] and then a second
    group, of any characters but a newline, as many as there are. *)
Definition pattern_code_name : regex :=
  seq [ Grp (plus digit); Grp (star anychar) ].

(** [l[i]] *)
Definition index (l : list str) (i : nat) : result str :=
  match nth_error l i with
  | Some x => Ok x
  | None => Raise IndexError
  end.

(** A [for] loop whose body may raise. *)
Fixpoint for_each {A S : Type} (body : S -> A -> result S) (l : list A) (s : S)
    : result S :=
  match l with
  | [] => Ok s
  | a :: l' => (s' <- body s a ;; for_each body l' s')%py
  end.

Definition is_match (m : option found) : bool :=
  match m with Some _ => true | None => false end.

Section Parser.
Variable pydantic : bool.
Variable now : datetime.
(** [BeautifulSoup(html_body, "html.parser").find_all("tr")], each row
    given by the texts [get_text(strip=True)] of its [td] and [th] cells;
    the HTML parser is not part of the program and may raise. *)
Variable find_all_tr : str -> result (list (list str)).

(** The text a pattern of [REGEX_PATTERNS] extracts: [group(1).strip()]. *)
Definition extract (pattern : regex) (text : str) : option str :=
  match search pattern text with
  | Some m => Some (strip (group m 1))
  | None => None
  end.

Definition _parse_regex (text : str) : result (option Trade) :=
  try_except
    (match extract pattern_symbol text, extract pattern_side text,
           extract pattern_quantity text, extract pattern_price text with
     | Some e_symbol, Some e_side, Some e_quantity, Some e_price =>
       (q <- float_of_str (remove_commas e_quantity) ;;
        p <- float_of_str (remove_commas e_price) ;;
        t <- Trade_init pydantic now
               {| kw_symbol := upper e_symbol;
                  kw_stock_name := None;
                  kw_side := upper e_side;
                  kw_quantity := q;
                  kw_price := p;
                  kw_date := None;
                  kw_total_amount := None;
                  kw_broker := None;
                  kw_order_id := extract pattern_order_id text |} ;;
        Ok (Some t))%py
     | _, _, _, _ => Ok None
     end)
    is_Exception (fun _ => Ok None).

Definition non_data_markers : list str :=
  [lit "股票名稱"; lit "以上資料"; lit "重要提示"].

(** The body of the loop over the rows: [trades] are the records appended
    so far, [cols] the cells of the row. *)
Definition fubon_row (report_date : str) (trades : list Trade)
    (cols : list str) : result (list Trade) :=
  if Nat.ltb (List.length cols) 7 then Ok trades else
  let texts := cols in
  (t0 <- index texts 0 ;;
   if existsb (fun kw => contains kw t0) non_data_markers then Ok trades else
   t2 <- index texts 2 ;;
   let qty_raw := remove_commas t2 in
   t3 <- index texts 3 ;;
   let price_raw := remove_commas t3 in
   if negb (is_match (match_ pattern_number qty_raw))
      || negb (is_match (match_ pattern_number price_raw))
   then Ok trades
   else
     try_except
       (symbol_full <- index texts 0 ;;
        let '(symbol, stock_name) :=
          match match_ pattern_code_name symbol_full with
          | Some m => (group m 1, strip (group m 2))
          | None => (symbol_full, [])
          end in
        t1 <- index texts 1 ;;
        let side := if contains (lit "賣") t1 then lit "SELL" else lit "BUY" in
        qty <- float_of_str qty_raw ;;
        price <- float_of_str price_raw ;;
        order_id <- index texts 5 ;;
        trade_time <- index texts 6 ;;
        full_ts <- strptime (report_date ++ lit " " ++ trade_time) ;;
        t <- Trade_init pydantic now
               {| kw_symbol := symbol;
                  kw_stock_name := Some stock_name;
                  kw_side := side;
                  kw_quantity := qty;
                  kw_price := price;
                  kw_date := Some full_ts;
                  kw_total_amount := None;
                  kw_broker := Some (lit "Fubon Securities (富邦證券)");
                  kw_order_id := Some order_id |} ;;
        Ok (trades ++ [t]))
       is_ValueError_or_IndexError (fun _ => Ok trades))%py.

Definition _parse_fubon_report (subject html_body : str) : result (list Trade) :=
  try_except
    (match search pattern_date subject with
     | None => Ok []
     | Some date_match =>
       let report_date :=
         group date_match 1 ++ lit "-" ++ zfill 2 (group date_match 2)
         ++ lit "-" ++ zfill 2 (group date_match 3) in
       (rows <- find_all_tr html_body ;;
        for_each (fubon_row report_date) rows [])%py
     end)
    is_Exception (fun _ => Ok []).

Definition parse (subject body : str) : result (list Trade) :=
  if contains (lit "富邦證券") subject
  then _parse_fubon_report subject body
  else (trade <- _parse_regex body ;;
        Ok (match trade with Some t => [t] | None => [] end))%py.
End Parser.

(** ** The rows of a report, as the specification describes them *)

Definition cell (cols : list str) (i : nat) : str := nth i cols [].

Definition is_ok {A : Type} (r : result A) : bool :=
  match r with Ok _ => true | Raise _ => false end.

Definition value_or {A : Type} (default : A) (r : result A) : A :=
  match r with Ok a => a | Raise _ => default end.

(** Step 3: a row with fewer than seven cells, or whose first cell holds a
    marker of a row that is not data. *)
Definition too_short (cols : list str) : bool := Nat.ltb (List.length cols) 7.

Definition has_marker (cols : list str) : bool :=
  existsb (fun kw => contains kw (cell cols 0)) non_data_markers.

(** Step 4: a cell that is a number, thousands separators apart. *)
Definition numeric (c : str) : bool :=
  is_match (match_ pattern_number (remove_commas c)).

(** The rows that are skipped as not being trades. *)
Definition invalid_row (cols : list str) : bool :=
  too_short cols || has_marker cols
  || negb (numeric (cell cols 2)) || negb (numeric (cell cols 3)).

(** Step 5: what the cells of a row mean. *)
Definition row_quantity (cols : list str) : result float :=
  float_of_str (remove_commas (cell cols 2)).

Definition row_price (cols : list str) : result float :=
  float_of_str (remove_commas (cell cols 3)).

Definition row_timestamp (report_date : str) (cols : list str) : result datetime :=
  strptime (report_date ++ lit " " ++ cell cols 6).

Definition code_and_name (first : str) : str * str :=
  match match_ pattern_code_name first with
  | Some m => (group m 1, strip (group m 2))
  | None => (first, [])
  end.

(** A valid data row: it is not skipped in steps 3 and 4, nothing fails in
    step 6 (its numbers and its time can be read), and its quantity and
    price pass the validation of the model, when there is one. *)
Definition valid_row (pydantic : bool) (report_date : str) (cols : list str) : bool :=
  negb (invalid_row cols)
  && is_ok (row_quantity cols) && is_ok (row_price cols)
  && is_ok (row_timestamp report_date cols)
  && (negb pydantic
      || (gt0 (value_or PrimFloat.zero (row_quantity cols))
          && gt0 (value_or PrimFloat.zero (row_price cols)))).

(** The record of a valid data row. *)
Definition record_of (report_date : str) (cols : list str) : Trade :=
  let q := value_or PrimFloat.zero (row_quantity cols) in
  let p := value_or PrimFloat.zero (row_price cols) in
  {| symbol := fst (code_and_name (cell cols 0));
     stock_name := Some (snd (code_and_name (cell cols 0)));
     side := if contains (lit "賣") (cell cols 1) then lit "SELL" else lit "BUY";
     quantity := q;
     price := p;
     date := value_or (mk_datetime 0 0 0 0 0 0) (row_timestamp report_date cols);
     total_amount := Some (round2 (PrimFloat.mul q p));
     broker := Some (lit "Fubon Securities (富邦證券)");
     order_id := Some (cell cols 5) |}.

(** A subject holds a date expression when some part of it reads as four
    digits, 年, one or two digits, 月, one or two digits, 日. *)
Definition has_date_expression (subject : str) : Prop :=
  exists pre y m d post : str,
    subject = pre ++ y ++ lit "年" ++ m ++ lit "月" ++ d ++ lit "日" ++ post
    /\ forallb isdecimal y = true /\ List.length y = 4
    /\ forallb isdecimal m = true /\ 1 <= List.length m <= 2
    /\ forallb isdecimal d = true /\ 1 <= List.length d <= 2.

(** A text begins with a date expression. *)
Definition begins_with_date (s : str) : Prop :=
  exists y m d post : str,
    s = y ++ lit "年" ++ m ++ lit "月" ++ d ++ lit "日" ++ post
    /\ forallb isdecimal y = true /\ List.length y = 4
    /\ forallb isdecimal m = true /\ 1 <= List.length m <= 2
    /\ forallb isdecimal d = true /\ 1 <= List.length d <= 2.


(** Step 1: the date of the report, from the match of the date pattern. *)
Definition report_date_of (date_match : found) : str :=
  group date_match 1 ++ lit "-" ++ zfill 2 (group date_match 2)
  ++ lit "-" ++ zfill 2 (group date_match 3).

(** ** The text the regular expressions locate, for the single-trade
    extractor *)

(** The four required fields, when all are found. *)
Definition located (text : str) : option (str * str * str * str) :=
  match extract pattern_symbol text, extract pattern_side text,
        extract pattern_quantity text, extract pattern_price text with
  | Some sy, Some sd, Some q, Some p => Some (sy, sd, q, p)
  | _, _, _, _ => None
  end.

(** The quantity and the price, when both parse. *)
Definition parsed_numbers (q p : str) : option (float * float) :=
  match float_of_str (remove_commas q), float_of_str (remove_commas p) with
  | Ok x, Ok y => Some (x, y)
  | _, _ => None
  end.

(** The record the located fields describe. *)
Definition record_of_fields (now : datetime) (text sy sd : str) (q p : float) : Trade :=
  {| symbol := upper sy;
     stock_name := None;
     side := upper sd;
     quantity := q;
     price := p;
     date := now;
     total_amount := Some (round2 (PrimFloat.mul q p));
     broker := Some (lit "Unknown");
     order_id := extract pattern_order_id text |}.

End TradeParser.

(* ================================================================== *)
(** * [src/integrations/sheets_ledger.py]: [update_portfolio_summary] *)
(* ================================================================== *)

Module SheetsLedger.
Import Text Py TradeParser.

(** The per-symbol dictionary of the aggregation loop. *)
Record position : Type := mk_position {
  name : str;
  buy_qty : float;
  buy_amt : float;
  sell_qty : float;
  sell_amt : float;
  realized_pl : float
}.

(** [portfolio]: a [dict] from code to position, in insertion order. *)
Definition portfolio : Type := list (str * position).

Fixpoint get (pf : portfolio) (code : str) : option position :=
  match pf with
  | [] => None
  | (c, d) :: pf' => if str_eqb c code then Some d else get pf' code
  end.

(** [portfolio[code] = d] *)
Fixpoint set (pf : portfolio) (code : str) (d : position) : portfolio :=
  match pf with
  | [] => [(code, d)]
  | (c, d0) :: pf' =>
    if str_eqb c code then (c, d) :: pf' else (c, d0) :: set pf' code d
  end.

Definition keys (pf : portfolio) : list str := map fst pf.

(** The state of the loop: [portfolio] and [total_realized_pl]. *)
Definition state : Type := (portfolio * float)%type.

Definition zero : float := PrimFloat.zero.

(** The columns of the sheet. *)
Record columns : Type := mk_columns {
  idx_time : nat;
  idx_code : nat;
  idx_name : nat;
  idx_action : nat;
  idx_qty : nat;
  idx_price : nat;
  idx_amt : nat
}.

(** [headers.index(name)], for a [name in headers] *)
Fixpoint position_of (headers : list str) (nm : str) : option nat :=
  match headers with
  | [] => None
  | h :: hs =>
    if str_eqb h nm then Some O else option_map S (position_of hs nm)
  end.

Fixpoint find_col (headers : list str) (possible_names : list str)
    (default_idx : nat) : nat :=
  match possible_names with
  | [] => default_idx
  | nm :: rest =>
    match position_of headers nm with
    | Some i => i
    | None => find_col headers rest default_idx
    end
  end.

Definition resolve_columns (headers : list str) : columns :=
  {| idx_time := find_col headers [lit "Trade Time"; lit "Date"] 0;
     idx_code := find_col headers [lit "Stock Code"; lit "Stock Symbol"; lit "Symbol"] 1;
     idx_name := find_col headers [lit "Stock Name"; lit "Name"] 2;
     idx_action := find_col headers [lit "Action"; lit "Side"] 3;
     idx_qty := find_col headers [lit "Shares"; lit "Quantity"] 4;
     idx_price := find_col headers [lit "Unit Price"; lit "Price"] 5;
     idx_amt := find_col headers [lit "Total Amount"; lit "Amount"] 6 |}.

Definition fresh (nm : str) : position :=
  {| name := nm; buy_qty := zero; buy_amt := zero;
     sell_qty := zero; sell_amt := zero; realized_pl := zero |}.

Definition is_buy (action : str) : bool :=
  contains (lit "BUY") action || contains (lit "買") action.

Definition is_sell (action : str) : bool :=
  contains (lit "SELL") action || contains (lit "賣") action.

(** [d["buy_amt"] / d["buy_qty"] if d["buy_qty"] > 0 else 0] *)
Definition avg_buy_of (d : position) : float :=
  if gt0 (buy_qty d) then PrimFloat.div (buy_amt d) (buy_qty d) else zero.

(** [amt / qty if qty > 0 else 0] *)
Definition sale_price (qty amt : float) : float :=
  if gt0 qty then PrimFloat.div amt qty else zero.

(** The profit a sale adds. *)
Definition sale_profit (d : position) (qty amt : float) : float :=
  PrimFloat.mul (PrimFloat.sub (sale_price qty amt) (avg_buy_of d)) qty.

(** What a row does to the position [d] of its code, once its numbers are
    read; the second component is what it adds to [total_realized_pl]. *)
Definition apply_action (action : str) (qty amt : float) (d : position)
    : position * option float :=
  if is_buy action then
    ({| name := name d;
        buy_qty := PrimFloat.add (buy_qty d) qty;
        buy_amt := PrimFloat.add (buy_amt d) amt;
        sell_qty := sell_qty d; sell_amt := sell_amt d;
        realized_pl := realized_pl d |}, None)
  else if is_sell action then
    let profit := sale_profit d qty amt in
    ({| name := name d;
        buy_qty := buy_qty d; buy_amt := buy_amt d;
        sell_qty := PrimFloat.add (sell_qty d) qty;
        sell_amt := PrimFloat.add (sell_amt d) amt;
        realized_pl := PrimFloat.add (realized_pl d) profit |}, Some profit)
  else (d, None).

Definition with_name (nm : str) (d : position) : position :=
  match nm with
  | [] => d
  | _ :: _ =>
    {| name := nm; buy_qty := buy_qty d; buy_amt := buy_amt d;
       sell_qty := sell_qty d; sell_amt := sell_amt d;
       realized_pl := realized_pl d |}
  end.

(** The two [float(str(row[i]).replace(",", ""))] under [try], [None] when
    the handler runs [continue]. *)
Definition read_numbers (ix : columns) (row : list str) : result (option (float * float)) :=
  try_except
    (q <- index row (idx_qty ix) ;;
     qty <- float_of_str (remove_commas q) ;;
     a <- index row (idx_amt ix) ;;
     amt <- float_of_str (remove_commas a) ;;
     Ok (Some (qty, amt)))%py
    is_Exception (fun _ => Ok None).

(** The body of the loop over [rows[1:]]. *)
Definition ledger_row (ix : columns) (st : state) (row : list str) : result state :=
  let '(pf, total_realized_pl) := st in
  if Nat.leb (List.length row)
       (Nat.max (idx_code ix) (Nat.max (idx_action ix) (Nat.max (idx_qty ix) (idx_amt ix))))
  then Ok st
  else
    (c <- index row (idx_code ix) ;;
     let code := strip c in
     n <- index row (idx_name ix) ;;
     let nm := strip n in
     a <- index row (idx_action ix) ;;
     let action := upper (strip a) in
     numbers <- read_numbers ix row ;;
     match numbers with
     | None => Ok st
     | Some (qty, amt) =>
       let d0 := match get pf code with Some d => d | None => fresh nm end in
       let '(d, profit) := apply_action action qty amt (with_name nm d0) in
       Ok (set pf code d,
           match profit with
           | Some p => PrimFloat.add total_realized_pl p
           | None => total_realized_pl
           end)
     end)%py.

(** The loop, from the empty portfolio. *)
Definition aggregate (ix : columns) (data_rows : list (list str)) : result state :=
  for_each (ledger_row ix) data_rows ([], zero).

(** A line of the holdings table; its two spreadsheet formulas (unrealized
    profit and its percentage) are texts that do not depend on the data and
    are left out. *)
Record summary_row : Type := mk_summary_row {
  row_code : str;
  row_name : str;
  net_qty : float;
  avg_buy : float;
  live_price : float;
  row_realized_pl : float
}.

(** [sorted(portfolio.keys())] *)
Fixpoint insert_sorted (k : str) (l : list str) : list str :=
  match l with
  | [] => [k]
  | x :: l' => if str_ltb x k then x :: insert_sorted k l' else k :: l
  end.

Definition sorted (l : list str) : list str := fold_right insert_sorted [] l.

Definition net_of (d : position) : float := PrimFloat.sub (buy_qty d) (sell_qty d).

Section Dashboard.
(** [self._get_yahoo_price], which asks a web service and answers 0.0 when
    it fails. *)
Variable _get_yahoo_price : str -> float.

(** The codes whose price is fetched: "anything we intend to show". *)
Definition codes_to_price (pf : portfolio) : list str :=
  filter (fun c => match get pf c with
                   | Some d => ne0 (net_of d) || ne0 (realized_pl d)
                   | None => false
                   end) (keys pf).

(** [prices.get(code, 0)] *)
Definition price_of (codes : list str) (code : str) : float :=
  if existsb (str_eqb code) codes then _get_yahoo_price code else zero.

Definition summary_rows (pf : portfolio) : list summary_row :=
  let codes := codes_to_price pf in
  flat_map
    (fun code =>
       match get pf code with
       | None => []
       | Some d =>
         let net := net_of d in
         let avg := avg_buy_of d in
         let live := price_of codes code in
         if gt0 net || ne0 (realized_pl d)
         then [ {| row_code := code; row_name := name d; net_qty := net;
                   avg_buy := avg; live_price := live;
                   row_realized_pl := realized_pl d |} ]
         else []
       end)
    (sorted (keys pf)).

(** The holdings table computed from the values of the sheet ([rows], the
    first being the headers); [None] when the function returns before
    drawing anything: fewer than two rows, or an exception, which the
    outer handler logs. *)
Definition update_portfolio_summary (rows : list (list str))
    : option (list summary_row) :=
  match rows with
  | headers :: ((_ :: _) as data_rows) =>
    match aggregate (resolve_columns headers) data_rows with
    | Ok (pf, _) => Some (summary_rows pf)
    | Raise _ => None
    end
  | _ => None
  end.
End Dashboard.

(** ** The rows of the sheet, as the aggregation reads them *)

Definition field (row : list str) (i : nat) : str := nth i row [].

Definition code_of (ix : columns) (row : list str) : str := strip (field row (idx_code ix)).
Definition name_of (ix : columns) (row : list str) : str := strip (field row (idx_name ix)).

(** The upper-cased action label of a row. *)
Definition action_of (ix : columns) (row : list str) : str :=
  upper (strip (field row (idx_action ix))).

(** Quantity and amount of a row, when both are numbers. *)
Definition numbers_of (ix : columns) (row : list str) : option (float * float) :=
  match float_of_str (remove_commas (field row (idx_qty ix))),
        float_of_str (remove_commas (field row (idx_amt ix))) with
  | Ok qty, Ok amt => Some (qty, amt)
  | _, _ => None
  end.

(** A row reaches the accounting when it has the columns the loop looks at
    and its numbers can be read. *)
Definition long_enough (ix : columns) (row : list str) : bool :=
  Nat.ltb (Nat.max (idx_code ix) (Nat.max (idx_action ix) (Nat.max (idx_qty ix) (idx_amt ix))))
          (List.length row)
  && Nat.ltb (idx_name ix) (List.length row).

(** A row the loop accounts as a sale, and one it accounts as a purchase. *)
Definition is_sell_row (ix : columns) (row : list str) : bool :=
  negb (is_buy (action_of ix row)) && is_sell (action_of ix row).

(** The position of a code, a code not yet met having the accumulators of
    a new position. *)
Definition position_at (pf : portfolio) (code : str) : position :=
  match get pf code with
  | Some d => d
  | None => fresh []
  end.

(** The five accumulators of a position. *)
Definition accumulators (d : position) : float * float * float * float * float :=
  (buy_qty d, buy_amt d, sell_qty d, sell_amt d, realized_pl d).

(** ** The figures of a code, from the rows alone

    What the specification says of a code once the rows [rows] are
    processed, computed from the rows and not from the dictionary of the
    loop.  Sums are float sums taken in the order of the rows, from 0.0. *)

(** Quantity and amount of a row that reaches the accounting of [code]. *)
Definition entry_of (ix : columns) (code : str) (row : list str)
    : option (float * float) :=
  if long_enough ix row && str_eqb (code_of ix row) code
  then numbers_of ix row
  else None.

(** The cumulative bought quantity and the cumulative bought amount. *)
Definition bought_step (ix : columns) (code : str) (acc : float * float)
    (row : list str) : float * float :=
  match entry_of ix code row with
  | Some (qty, amt) =>
    if is_buy (action_of ix row)
    then (PrimFloat.add (fst acc) qty, PrimFloat.add (snd acc) amt)
    else acc
  | None => acc
  end.

Definition cumulative_bought (ix : columns) (code : str) (rows : list (list str))
    : float * float :=
  fold_left (bought_step ix code) rows (zero, zero).

Definition cumulative_bought_quantity (ix : columns) (code : str)
    (rows : list (list str)) : float :=
  fst (cumulative_bought ix code rows).

Definition cumulative_bought_amount (ix : columns) (code : str)
    (rows : list (list str)) : float :=
  snd (cumulative_bought ix code rows).

(** The average buy cost after [rows]: cumulative bought amount divided by
    cumulative bought quantity when that quantity is greater than zero, and
    zero otherwise, which is the case of no bought quantity. *)
Definition average_buy_cost (ix : columns) (code : str) (rows : list (list str))
    : float :=
  if gt0 (cumulative_bought_quantity ix code rows)
  then PrimFloat.div (cumulative_bought_amount ix code rows)
                     (cumulative_bought_quantity ix code rows)
  else zero.

(** The realized profit: each sale adds (sale unit price - average buy cost
    at that point) * sale quantity, the point being the rows [seen] before
    the sale. *)
Definition realized_step (ix : columns) (code : str) (seen : list (list str))
    (acc : float) (row : list str) : float :=
  match entry_of ix code row with
  | Some (qty, amt) =>
    if is_sell_row ix row
    then PrimFloat.add acc
           (PrimFloat.mul
              (PrimFloat.sub (sale_price qty amt) (average_buy_cost ix code seen)) qty)
    else acc
  | None => acc
  end.

Fixpoint realized_profit_from (ix : columns) (code : str)
    (seen rest : list (list str)) (acc : float) : float :=
  match rest with
  | [] => acc
  | row :: rest' =>
    realized_profit_from ix code (seen ++ [row]) rest'
      (realized_step ix code seen acc row)
  end.

Definition realized_profit (ix : columns) (code : str) (rows : list (list str))
    : float :=
  realized_profit_from ix code [] rows zero.

End SheetsLedger.

(* ================================================================== *)
(** * Inputs of the worked examples *)
(* ================================================================== *)

Module Scenario.
Import Text Py Datetime TradeModel TradeParser SheetsLedger.
Local Open Scope string_scope.

(** A moment for [datetime.now()] in the examples. *)
Definition a_moment : datetime := mk_datetime 2026 1 20 8 0 0.

(** The report of the broker. *)
Definition report_subject : str := lit "富邦證券 ... 2026年1月19日".


Definition report_row : list str :=
  map lit ["2344華邦電"; "現賣"; "50"; "117.00"; "X"; "ABC123"; "09:40:05"].

Definition report_trade : Trade :=
  {| symbol := lit "2344";
     stock_name := Some (lit "華邦電");
     side := lit "SELL";
     quantity := 50%float;
     price := 117%float;
     date := mk_datetime 2026 1 19 9 40 5;
     total_amount := Some 5850%float;
     broker := Some (lit "Fubon Securities (富邦證券)");
     order_id := Some (lit "ABC123") |}.

(** A report with a header row, two data rows, a short row and a notice. *)
Definition report_table : list (list str) :=
  [ map lit ["股票名稱"; "交易類別"; "成交股數"; "成交單價"; "成交金額"; "委託書編號"; "成交時間"];
    report_row;
    map lit ["小計"; "50"];
    map lit ["2330台積電"; "現買"; "1,000"; "600.5"; "X"; "ABC124"; "09:41:07"];
    map lit ["以上資料僅供參考"; ""; ""; ""; ""; ""; ""] ].

(** A mail of the single-trade kind whose quantity is zero. *)
Definition zero_quantity_mail : str :=
  lit "Symbol: ABC Side: BUY Quantity: 0 Price: 5".

(** A mail of the single-trade kind. *)
Definition plain_mail : str :=
  lit "Ticker: abc  Action: sell  Shares: 1,000  Cost: $12.50  Ref: a-1".

(** The headers [_ensure_headers] writes, and rows as [append_trade]
    writes them. *)
Definition sheet_headers : list str :=
  map lit ["Trade Time"; "Stock Code"; "Stock Name"; "Action"; "Shares";
           "Unit Price"; "Total Amount"; "Order ID"; "Broker"].

Definition sheet_row (code action shares unit_price amount : string) : list str :=
  map lit ["2026-01-19 09:40:05"; code; "華邦電"; action; shares; unit_price;
           amount; "ABC123"; "Fubon"].

Definition default_columns : columns := resolve_columns sheet_headers.

(** One purchase and one sale of the same code. *)
Definition buy_then_sell : list (list str) :=
  [ sheet_row "2344" "BUY" "100" "10" "1000";
    sheet_row "2344" "SELL" "40" "15" "600" ].

(** A sale of more shares than were bought, at the purchase price. *)
Definition oversold : list (list str) :=
  [ sheet_row "2344" "BUY" "10" "100" "1000";
    sheet_row "2344" "SELL" "20" "100" "2000" ].

(** Two purchases at different prices and a sale, in two orders. *)
Definition buy_low : list str := sheet_row "2344" "BUY" "100" "10" "1000".
Definition buy_high : list str := sheet_row "2344" "BUY" "100" "20" "2000".
Definition sale : list str := sheet_row "2344" "SELL" "100" "15" "1500".

Definition sale_between : list (list str) := [buy_low; sale; buy_high].
Definition sale_last : list (list str) := [buy_low; buy_high; sale].

(** A row that is neither a purchase nor a sale. *)
Definition dividend_row : list str := sheet_row "2344" "DIVIDEND" "100" "1" "100".

End Scenario.

(* ================================================================== *)
(** * [src/integrations/sheets_ledger.py]: writing to the sheet *)
(* ================================================================== *)

Module Persistence.
Import Text Py Datetime TradeModel.

(** A value handed to the sheet in a row: a text, a number or [None]. *)
Inductive value : Type :=
| VStr (s : str)
| VNum (x : float)
| VNone.

(** The ledger and the worksheet behind it.  [cells] are the values of the
    worksheet, row by row, as the service returns them (texts); [faults]
    tells, for each coming request to the service, whether it fails and
    with what exception ([None]: it succeeds; past the end of the list
    requests succeed); [existing_order_ids] is the cache of the object, a
    set.  The object is taken to be connected ([self.sheet] is set). *)
Record ledger : Type := mk_ledger {
  cells : list (list str);
  faults : list (option exn);
  existing_order_ids : list str
}.

(** Membership in, and addition to, a [set] of texts. *)
Definition mem (x : str) (s : list str) : bool := existsb (str_eqb x) s.
Definition set_add (x : str) (s : list str) : list str :=
  if mem x s then s else s ++ [x].

(** One request to the service: it fails as [faults] tells, or acts on the
    cells. *)
Definition request {A : Type} (st : ledger)
    (act : list (list str) -> list (list str) * A) : ledger * result A :=
  match faults st with
  | Some e :: rest =>
    ({| cells := cells st; faults := rest;
        existing_order_ids := existing_order_ids st |}, Raise e)
  | ok =>
    let '(c, a) := act (cells st) in
    ({| cells := c; faults := tl ok;
        existing_order_ids := existing_order_ids st |}, Ok a)
  end.

(** The service leaves out the empty cells that end a row or a column. *)
Fixpoint trim (l : list str) : list str :=
  match l with
  | [] => []
  | x :: l' =>
    match trim l', x with
    | [], [] => []
    | t, _ => x :: t
    end
  end.

Definition expected_headers : list str :=
  [ lit "Trade Time"; lit "Stock Code"; lit "Stock Name"; lit "Action";
    lit "Shares"; lit "Unit Price"; lit "Total Amount"; lit "Order ID";
    lit "Broker" ].

Section Sheet.
(** [date.strftime("%Y-%m-%d %H:%M:%S")], a function of the C library. *)
Variable strftime : datetime -> str.
(** The text the sheet shows for a number it was sent. *)
Variable shown : float -> str.

Definition shown_value (v : value) : str :=
  match v with
  | VStr s => s
  | VNum x => shown x
  | VNone => []
  end.

(** [sheet.row_values(1)], [sheet.append_row(values)],
    [sheet.insert_row(values, index=1)], [sheet.col_values(8)] and
    [sheet.append_rows(rows)] *)
Definition row_values_1 (c : list (list str)) : list (list str) * list str :=
  (c, trim (hd [] c)).

Definition append_row (values : list value) (c : list (list str))
    : list (list str) * unit :=
  (c ++ [map shown_value values], tt).

Definition insert_row_1 (values : list value) (c : list (list str))
    : list (list str) * unit :=
  (map shown_value values :: c, tt).

Definition col_values_8 (c : list (list str)) : list (list str) * list str :=
  (c, trim (map (fun row => nth 7 row []) c)).

Definition append_rows (rows : list (list value)) (c : list (list str))
    : list (list str) * unit :=
  (c ++ map (map shown_value) rows, tt).

(** [_ensure_headers]: any exception is logged and dropped. *)
Definition _ensure_headers (st : ledger) : ledger :=
  let '(st1, existing_headers) := request st row_values_1 in
  match existing_headers with
  | Raise _ => st1
  | Ok [] => fst (request st1 (append_row (map VStr expected_headers)))
  | Ok (h :: _) =>
    if negb (str_eqb h (lit "Trade Time"))
    then fst (request st1 (insert_row_1 (map VStr expected_headers)))
    else st1
  end.

(** [set(val.strip() for val in all_ids[1:] if val.strip())] *)
Definition stripped_ids (all_ids : list str) : list str :=
  fold_left (fun s v => match strip v with
                        | [] => s
                        | id => set_add id s
                        end) (tl all_ids) [].

(** [_load_existing_ids]: an exception is logged and the cache is left as it
    was. *)
Definition _load_existing_ids (st : ledger) : ledger :=
  let '(st1, all_ids) := request st col_values_8 in
  match all_ids with
  | Raise _ => st1
  | Ok ids =>
    {| cells := cells st1; faults := faults st1;
       existing_order_ids := stripped_ids ids |}
  end.

(** [connect], from the point where the worksheet is found: the headers are
    ensured, then the cache is loaded. *)
Definition connect (st : ledger) : ledger :=
  _load_existing_ids (_ensure_headers st).

(** [trade.order_id] taken as a condition: an identifier that is not empty. *)
Definition has_order_id (t : Trade) : bool :=
  match order_id t with
  | Some (_ :: _) => true
  | _ => false
  end.

Definition stripped_order_id (t : Trade) : str :=
  match order_id t with
  | Some id => strip id
  | None => []
  end.

(** [trade.order_id and trade.order_id.strip() in self.existing_order_ids] *)
Definition is_duplicate (ids : list str) (t : Trade) : bool :=
  has_order_id t && mem (stripped_order_id t) ids.

(** The row written for a trade. *)
Definition row_of (t : Trade) : list value :=
  [ VStr (strftime (date t));
    VStr (symbol t);
    VStr (match stock_name t with Some (c :: n) => c :: n | _ => [] end);
    VStr (side t);
    VNum (quantity t);
    VNum (price t);
    match total_amount t with Some a => VNum a | None => VNone end;
    match order_id t with Some id => VStr id | None => VNone end;
    match broker t with Some b => VStr b | None => VNone end ].

(** [if trade.order_id: self.existing_order_ids.add(trade.order_id.strip())] *)
Definition remember (ids : list str) (t : Trade) : list str :=
  if has_order_id t then set_add (stripped_order_id t) ids else ids.

(** [append_trade]: [False] for a duplicate, [True] once the row is written;
    an exception of the service is raised again. *)
Definition append_trade (st : ledger) (t : Trade) : ledger * result bool :=
  if is_duplicate (existing_order_ids st) t then (st, Ok false)
  else
    let '(st1, r) := request st (append_row (row_of t)) in
    match r with
    | Raise e => (st1, Raise e)
    | Ok _ =>
      ({| cells := cells st1; faults := faults st1;
          existing_order_ids := remember (existing_order_ids st1) t |}, Ok true)
    end.

(** The loop of [batch_append_trades]: the rows to add and the cache. *)
Definition batch_step (acc : list (list value) * list str) (t : Trade)
    : list (list value) * list str :=
  let '(rows_to_add, ids) := acc in
  if is_duplicate ids t then acc
  else (rows_to_add ++ [row_of t], remember ids t).

(** [batch_append_trades]: the number of rows added. *)
Definition batch_append_trades (st : ledger) (trades : list Trade)
    : ledger * result nat :=
  let '(rows_to_add, ids) := fold_left batch_step trades ([], existing_order_ids st) in
  let st0 := {| cells := cells st; faults := faults st; existing_order_ids := ids |} in
  match rows_to_add with
  | [] => (st0, Ok 0)
  | _ :: _ =>
    let '(st1, r) := request st0 (append_rows rows_to_add) in
    match r with
    | Raise e => (st1, Raise e)
    | Ok _ => (st1, Ok (List.length rows_to_add))
    end
  end.

(** Calls of [append_trade] one after the other, as long as none raises;
    the results of the calls are collected. *)
Fixpoint append_each (st : ledger) (trades : list Trade) : ledger * result (list bool) :=
  match trades with
  | [] => (st, Ok [])
  | t :: rest =>
    let '(st1, r) := append_trade st t in
    match r with
    | Raise e => (st1, Raise e)
    | Ok b =>
      let '(st2, rs) := append_each st1 rest in
      (st2, match rs with Ok bs => Ok (b :: bs) | Raise e => Raise e end)
    end
  end.

End Sheet.

End Persistence.

(* ================================================================== *)
(** * A sheet and trades for the worked examples of the writes *)
(* ================================================================== *)

Module LedgerScenario.
Import Text Py Datetime TradeModel Persistence Scenario.

(** A rendering of dates and one of numbers, for the examples. *)
Definition stamp : datetime -> str := fun _ => lit "2026-01-19 09:40:05".
Definition plainly : float -> str := fun _ => lit "50".

(** A sheet with its headers, a cache still empty, a service that answers. *)
Definition fresh_sheet : ledger :=
  {| cells := [expected_headers]; faults := []; existing_order_ids := [] |}.

(** The same sheet when the service fails once and then answers. *)
Definition flaky_sheet : ledger :=
  {| cells := [expected_headers]; faults := [Some OtherException; None];
     existing_order_ids := [] |}.

(** A worksheet that holds two rows of trades and no headers. *)
Definition headless_sheet : ledger :=
  {| cells := buy_then_sell; faults := []; existing_order_ids := [] |}.

(** An empty worksheet. *)
Definition empty_sheet : ledger :=
  {| cells := []; faults := []; existing_order_ids := [] |}.

(** A trade of the single-trade kind without an order identifier. *)
Definition anonymous_trade : Trade :=
  {| symbol := lit "ABC"; stock_name := None; side := lit "SELL";
     quantity := 1000%float; price := 12.5%float; date := a_moment;
     total_amount := Some 12500%float; broker := Some (lit "Unknown");
     order_id := None |}.

(** A second trade of the report. *)
Definition other_trade : Trade :=
  {| symbol := lit "2330"; stock_name := Some (lit "台積電"); side := lit "BUY";
     quantity := 1000%float; price := 600.5%float;
     date := mk_datetime 2026 1 19 9 41 7;
     total_amount := Some 600500%float;
     broker := Some (lit "Fubon Securities (富邦證券)");
     order_id := Some (lit "ABC124") |}.

End LedgerScenario.

(* ================================================================== *)
(** * [src/integrations/sheets_ledger.py]: [_get_yahoo_price] *)
(* ================================================================== *)

Module Quotes.
Import Text Py.

(** The Python objects [response.json()] can give. *)
#[warnings="-register-all"]
Inductive json : Type :=
| JNull
| JBool (b : bool)
| JInt (n : Z)
| JFloat (x : float)
| JStr (s : str)
| JList (l : list json)
| JDict (d : list (str * json)).

(** The answer to [requests.get]: its status and what [.json()] gives, which
    may raise. *)
Record response : Type := mk_response {
  status_code : Z;
  json_body : result json
}.

Fixpoint lookup (d : list (str * json)) (key : str) : option json :=
  match d with
  | [] => None
  | (k, v) :: d' => if str_eqb k key then Some v else lookup d' key
  end.

(** [obj.get(key, default)]: only a [dict] has the method; what else raises
    ([AttributeError]) is caught with every other exception. *)
Definition dict_get (obj : json) (key : str) (default : json) : result json :=
  match obj with
  | JDict d => Ok (match lookup d key with Some v => v | None => default end)
  | _ => Raise OtherException
  end.

(** [obj[key]] for a text [key]: [KeyError] or [TypeError] when it fails. *)
Definition item (obj : json) (key : str) : result json :=
  match obj with
  | JDict d => match lookup d key with Some v => Ok v | None => Raise OtherException end
  | _ => Raise OtherException
  end.

(** [obj[0]] *)
Definition item0 (obj : json) : result json :=
  match obj with
  | JList (x :: _) => Ok x
  | JList [] => Raise IndexError
  | JStr (c :: _) => Ok (JStr [c])
  | JStr [] => Raise IndexError
  | _ => Raise OtherException
  end.

(** The truth value of an object. *)
Definition truthy (obj : json) : bool :=
  match obj with
  | JNull => false
  | JBool b => b
  | JInt n => negb (n =? 0)%Z
  | JFloat x => ne0 x
  | JStr s => match s with [] => false | _ => true end
  | JList l => match l with [] => false | _ => true end
  | JDict d => match d with [] => false | _ => true end
  end.

(** [obj > 0]: [TypeError] for what is not a number. *)
Definition positive (obj : json) : result bool :=
  match obj with
  | JBool b => Ok b
  | JInt n => Ok (0 <? n)%Z
  | JFloat x => Ok (gt0 x)
  | _ => Raise OtherException
  end.

(** [float(n)] for an [int]: the nearest double, [OverflowError] past the
    largest. *)
Definition float_of_int (n : Z) : result float :=
  let x := with_sign (n <? 0)%Z (float_of_ratio (Z.abs n) 1) in
  if PrimFloat.is_infinity x then Raise OtherException else Ok x.

(** [float(obj)] *)
Definition to_float (obj : json) : result float :=
  match obj with
  | JBool b => Ok (if b then PrimFloat.one else PrimFloat.zero)
  | JInt n => float_of_int n
  | JFloat x => Ok x
  | _ => Raise OtherException
  end.

Section Service.
(** [requests.get] on the chart address of a ticker. *)
Variable requests_get : str -> result response.

(** The body of the [try] for one ticker: the price it returns, [None] when
    it falls through. *)
Definition quote (ticker : str) : result (option float) :=
  (resp <- requests_get ticker ;;
   if (status_code resp =? 200)%Z then
     data <- json_body resp ;;
     chart <- dict_get data (lit "chart") (JDict []) ;;
     res <- dict_get chart (lit "result") JNull ;;
     if truthy res then
       chart' <- item data (lit "chart") ;;
       res' <- item chart' (lit "result") ;;
       first <- item0 res' ;;
       meta <- item first (lit "meta") ;;
       price <- dict_get meta (lit "regularMarketPrice") JNull ;;
       if truthy price then
         pos <- positive price ;;
         if pos then (x <- to_float price ;; Ok (Some x)) else Ok None
       else Ok None
     else Ok None
   else Ok None)%py.

(** The loop over the suffixes [".TW"] and [".TWO"]; an exception moves on
    to the next suffix. *)
Fixpoint first_quote (code : str) (suffixes : list str) : float :=
  match suffixes with
  | [] => PrimFloat.zero
  | suffix :: rest =>
    match quote (code ++ suffix) with
    | Ok (Some x) => x
    | _ => first_quote code rest
    end
  end.

Definition _get_yahoo_price (code : str) : float :=
  first_quote code [lit ".TW"; lit ".TWO"].

End Service.

End Quotes.

(* ================================================================== *)
(** * [src/main.py]: the run over the mails *)
(* ================================================================== *)

Module Main.
Import Text Py Datetime TradeModel TradeParser SheetsLedger Persistence.

(** A mail the scout yields, with the time at which it is parsed.  The
    generator of the scout logs its own exceptions and ends, so that what
    [main] sees of it is a list of mails. *)
Record mail : Type := mk_mail {
  parsed_at : datetime;
  subject : str;
  body : str
}.

(** What the run meets before it scans the mails: whether [EmailScout()]
    and [SheetsLedger()] find their variables (they end the program with
    [sys.exit(1)] otherwise), what [scout.test_connection()] returns, and
    the exception [connect] raises before it has its worksheet, if any. *)
Record environment : Type := mk_environment {
  scout_configured : bool;
  ledger_configured : bool;
  test_connection : bool;
  opening : option exn
}.

(** "All systems green": the program reaches the scan of the mails of a run
    that is no dry run. *)
Definition all_green (env : environment) : bool :=
  scout_configured env && ledger_configured env && test_connection env
  && match opening env with None => true | Some _ => false end.

(** How [main] ends: [sys.exit(1)], or [sys.exit(0)] after its report, with
    the counts of the report and the holdings table computed, if any. *)
Inductive outcome : Type :=
| Failed
| Finished (emails_processed trades_recorded : nat)
           (dashboard : option (list summary_row)).

(** [SheetsLedger()]: the cache is empty.  [sheet] holds the values of the
    worksheet [connect] finds, and [service] the faults of the requests to
    come. *)
Definition new_ledger (sheet : list (list str)) (service : list (option exn)) : ledger :=
  {| cells := sheet; faults := service; existing_order_ids := [] |}.

Section Run.
Variable pydantic : bool.
Variable find_all_tr : str -> result (list (list str)).
Variable strftime : datetime -> str.
Variable shown : float -> str.
Variable price : str -> float.
Variable env : environment.
Variable dry_run : bool.

(** [run_diagnostics]: [None] when it ends the program with [sys.exit(1)];
    the ledger is connected when it is no dry run. *)
Definition run_diagnostics (st : ledger) : option ledger :=
  if negb (test_connection env) then None
  else if dry_run then Some st
  else match opening env with
       | Some _ => None
       | None => Some (connect shown st)
       end.

(** The loop over the trades of one mail, when it is no dry run. *)
Fixpoint record_trades (st : ledger) (trades : list Trade) (trades_recorded : nat)
    : ledger * result nat :=
  match trades with
  | [] => (st, Ok trades_recorded)
  | t :: rest =>
    let '(st1, r) := append_trade strftime shown st t in
    match r with
    | Raise e => (st1, Raise e)
    | Ok _ => record_trades st1 rest (S trades_recorded)
    end
  end.

(** The loop over the mails. *)
Fixpoint scan (mails : list mail) (st : ledger) (emails_processed trades_recorded : nat)
    : ledger * result (nat * nat) :=
  match mails with
  | [] => (st, Ok (emails_processed, trades_recorded))
  | m :: rest =>
    match parse pydantic (parsed_at m) find_all_tr (subject m) (body m) with
    | Raise e => (st, Raise e)
    | Ok trades =>
      if dry_run then scan rest st (S emails_processed) trades_recorded
      else
        let '(st1, r) := record_trades st trades trades_recorded in
        match r with
        | Raise e => (st1, Raise e)
        | Ok n => scan rest st1 (S emails_processed) n
        end
    end
  end.

(** [ledger.update_portfolio_summary()] as far as the holdings table: the
    values of the sheet are asked for, and any exception is logged.  The
    requests that follow write to another worksheet. *)
Definition draw (st : ledger) : ledger * option (list summary_row) :=
  let '(st1, rows) := request st (fun c => (c, c)) in
  (st1, match rows with
        | Ok values => update_portfolio_summary price values
        | Raise _ => None
        end).

(** The "single-run logic" of [main]: the scan, the holdings table, the
    report. *)
Definition single_run (mails : list mail) (st : ledger) : ledger * outcome :=
  let '(st1, r) := scan mails st 0 0 in
  match r with
  | Raise _ => (st1, Failed)
  | Ok (emails_processed, trades_recorded) =>
    if negb dry_run && Nat.leb 0 trades_recorded
    then let '(st2, dashboard) := draw st1 in
         (st2, Finished emails_processed trades_recorded dashboard)
    else (st1, Finished emails_processed trades_recorded None)
  end.

(** [main]: the scout and the ledger are made, the diagnostics run, which
    connect the ledger, and the mails are scanned. *)
Definition main (mails : list mail) (sheet : list (list str))
    (service : list (option exn)) : ledger * outcome :=
  let st := new_ledger sheet service in
  if negb (scout_configured env && ledger_configured env) then (st, Failed)
  else
    match run_diagnostics st with
    | None => (st, Failed)
    | Some st0 => single_run mails st0
    end.

(** The trades of all the mails, in order. *)
Definition all_trades (mails : list mail) : list Trade :=
  flat_map (fun m => match parse pydantic (parsed_at m) find_all_tr (subject m) (body m) with
                     | Ok trades => trades
                     | Raise _ => []
                     end) mails.

End Run.

End Main.

(* ================================================================== *)
(** * Answers of the price service and mails for the worked examples *)
(* ================================================================== *)

Module RunScenario.
Import Text Py Datetime TradeModel Persistence Scenario Quotes Main.

(** The body of an answer with one chart, whose [meta] holds [meta]. *)
Definition chart_body (meta : list (str * json)) : json :=
  JDict [(lit "chart",
          JDict [(lit "result", JList [JDict [(lit "meta", JDict meta)]])])].

(** A service that knows one code, listed under [.TWO], and answers 404 for
    every other ticker. *)
Definition otc_only (ticker : str) : result response :=
  if str_eqb ticker (lit "6488.TWO")
  then Ok {| status_code := 200%Z;
             json_body := Ok (chart_body [(lit "currency", JStr (lit "TWD"));
                                          (lit "regularMarketPrice", JFloat 512.5%float)]) |}
  else Ok {| status_code := 404%Z; json_body := Raise ValueError |}.

(** A mail with the report of the broker, the rows of its table, and a
    price for every code. *)
Definition report_mail : mail :=
  {| parsed_at := a_moment; subject := report_subject; body := lit "<table>" |}.

Definition tables : str -> result (list (list str)) := fun _ => Ok report_table.

Definition flat_price : str -> float := fun _ => 120%float.

(** A start at which every check passes. *)
Definition green : environment :=
  {| scout_configured := true; ledger_configured := true;
     test_connection := true; opening := None |}.

End RunScenario.

(* ================================================================== *)
(** * Plain descriptions of texts, used to state what the patterns find *)
(* ================================================================== *)

Module Spans.
Import Text.

(** The longest prefix whose characters satisfy [p], and what follows it. *)
Fixpoint take_while (p : char -> bool) (s : str) : str :=
  match s with
  | c :: s' => if p c then c :: take_while p s' else []
  | [] => []
  end.

Fixpoint drop_while (p : char -> bool) (s : str) : str :=
  match s with
  | c :: s' => if p c then drop_while p s' else s
  | [] => []
  end.

(** The text up to the first newline. *)
Definition first_line (s : str) : str := take_while (fun c => negb (c =? 10)%N) s.

(** The order of [sorted] on texts, as a relation. *)
Definition code_lt (a b : str) : Prop := str_ltb a b = true.

Definition starts_with_digit (s : str) : bool :=
  match s with
  | c :: _ => isdecimal c
  | [] => false
  end.

End Spans.

(* ================================================================== *)
(** * Properties *)
(* ================================================================== *)

Import Text Py Re Datetime TradeModel TradeParser SheetsLedger Scenario Spans.
Import Persistence LedgerScenario.

(** ** Exceptions and loops *)

Lemma try_except_Exception {A} (m : result A) (a : A) :
  exists a', try_except m is_Exception (fun _ => Ok a) = Ok a'.
Proof. destruct m as [x|e]; simpl; eauto. Qed.

(** ** C7 *)

(** C7. For every subject and body, and whatever the HTML parser does with
    the body (it may raise), [parse] returns a list of trades: it never
    raises. *)
Theorem parse_never_raises :
  forall (pydantic : bool) (now : datetime)
         (find_all_tr : str -> result (list (list str)))
         (subject body : str),
    exists trades : list Trade,
      parse pydantic now find_all_tr subject body = Ok trades.
Proof.
  intros pydantic now find_all_tr subject body. unfold parse.
  destruct (contains (lit "富邦證券") subject).
  - unfold _parse_fubon_report. apply try_except_Exception.
  - unfold _parse_regex.
    match goal with
    | |- context [try_except ?m is_Exception ?h] =>
      destruct (try_except_Exception m None) as [o Ho]; rewrite Ho
    end.
    simpl. eauto.
Qed.

(** ** The regular expression engine is sound

    Whatever [run] returns, it returns from its continuation, called on a
    match of the pattern. *)

Lemma rep_sound {R} (p : char -> bool) (s : str) :
  forall (lo : nat) (hi : option nat) (i : nat)
         (k : nat -> str -> option R) (x : R),
    rep p lo hi i s k = Some x ->
    exists cs s', s = cs ++ s' /\ forallb p cs = true /\ lo <= List.length cs
                  /\ (forall h, hi = Some h -> List.length cs <= h)
                  /\ k (i + List.length cs) s' = Some x.
Proof.
  induction s as [|c s IH]; intros lo hi i k x H.
  - assert (Hstop : lo = 0 /\ k i [] = Some x).
    { destruct hi as [[|h]|]; destruct lo; simpl in H; try discriminate; auto. }
    destruct Hstop as [-> Hk].
    exists [], []. simpl. rewrite Nat.add_0_r.
    repeat split; auto. intros h _. lia.
  - assert (Hcases :
      (lo = 0 /\ k i (c :: s) = Some x)
      \/ (p c = true /\ hi <> Some 0
          /\ rep p (pred lo) (option_map pred hi) (S i) s k = Some x)).
    { destruct hi as [[|h]|]; simpl in H.
      - destruct lo; [left; auto | discriminate].
      - destruct (p c) eqn:Hp.
        + destruct (rep p (pred lo) (Some h) (S i) s k) eqn:Hr.
          * right. repeat split; auto; [discriminate|]. simpl. congruence.
          * destruct lo; [left; auto | discriminate].
        + destruct lo; [left; auto | discriminate].
      - destruct (p c) eqn:Hp.
        + destruct (rep p (pred lo) None (S i) s k) eqn:Hr.
          * right. repeat split; auto; [discriminate|]. simpl. congruence.
          * destruct lo; [left; auto | discriminate].
        + destruct lo; [left; auto | discriminate]. }
    destruct Hcases as [[-> Hk] | (Hp & Hhi & Hr)].
    + exists [], (c :: s). simpl. rewrite Nat.add_0_r.
      repeat split; auto. intros h _. lia.
    + apply IH in Hr. destruct Hr as (cs & s' & -> & Hall & Hlo & Hhi' & Hk).
      exists (c :: cs), s'. simpl. rewrite Hp, Hall.
      repeat split; auto.
      * lia.
      * intros h ->. destruct h as [|h]; [congruence|].
        specialize (Hhi' h eq_refl). lia.
      * rewrite <- Hk. f_equal. lia.
Qed.

Lemma run_sound {R} (r : regex) :
  forall (i : nat) (s : str) (c : list str)
         (k : nat -> str -> list str -> option R) (x : R),
    run r i s c k = Some x ->
    exists i' s' c', Matches r i s c i' s' c' /\ k i' s' c' = Some x.
Proof.
  induction r as [ | p | a IHa b IHb | a IHa b IHb | lo hi p | a IHa | | ];
    intros i s c k x H; simpl in H.
  - exists i, s, c. split; [constructor | exact H].
  - destruct s as [|y s]; [discriminate|].
    destruct (p y) eqn:Hp; [|discriminate].
    exists (S i), s, c. split; [constructor; exact Hp | exact H].
  - apply IHa in H. destruct H as (i1 & s1 & c1 & Ha & H).
    apply IHb in H. destruct H as (i2 & s2 & c2 & Hb & H).
    exists i2, s2, c2. split; [econstructor; eassumption | exact H].
  - destruct (run a i s c k) eqn:Ha.
    + inversion H; subst. apply IHa in Ha.
      destruct Ha as (i1 & s1 & c1 & Ha & Hk).
      exists i1, s1, c1. split; [apply M_AltL; exact Ha | exact Hk].
    + apply IHb in H. destruct H as (i1 & s1 & c1 & Hb & Hk).
      exists i1, s1, c1. split; [apply M_AltR; exact Hb | exact Hk].
  - apply rep_sound in H.
    destruct H as (cs & s' & -> & Hall & Hlo & Hhi & Hk).
    exists (i + List.length cs), s', c. split; [constructor; assumption | exact Hk].
  - apply IHa in H. destruct H as (i1 & s1 & c1 & Ha & Hk).
    exists i1, s1, (c1 ++ [firstn (i1 - i) s]).
    split; [constructor; exact Ha | exact Hk].
  - destruct i; [|discriminate].
    exists 0, s, c. split; [constructor | exact H].
  - assert (Hs : s = [] \/ s = [10%N]).
    { destruct s as [|y [|z s]]; auto; [|discriminate].
      destruct (N.eqb_spec y 10); [subst; auto | discriminate]. }
    assert (Hk : k i s c = Some x).
    { destruct Hs as [-> | ->]; exact H. }
    exists i, s, c. split; [constructor; exact Hs | exact Hk].
Qed.

(** A match consumes a prefix of the text and moves the position by its
    length. *)
Lemma Matches_prefix r i s c i' s' c' :
  Matches r i s c i' s' c' ->
  exists cs, s = cs ++ s' /\ i' = i + List.length cs.
Proof.
  induction 1.
  - exists []. simpl. split; [reflexivity | lia].
  - exists [x]. simpl. split; [reflexivity | lia].
  - destruct IHMatches1 as (cs1 & -> & ->).
    destruct IHMatches2 as (cs2 & -> & ->).
    exists (cs1 ++ cs2). rewrite <- app_assoc, length_app. split; [reflexivity | lia].
  - assumption.
  - assumption.
  - exists cs. split; reflexivity.
  - assumption.
  - exists []. simpl. split; reflexivity.
  - exists []. simpl. split; [reflexivity | lia].
Qed.

(** [search] finds its match at some position of the text. *)
Lemma search_from_sound (r : regex) (s : str) :
  forall (i : nat) (m : found),
    search_from r i s = Some m ->
    exists (j : nat) (pre rest : str),
      s = pre ++ rest /\ run r j rest [] accept = Some m.
Proof.
  induction s as [|c s IH]; intros i m H; simpl in H.
  - destruct (run r i [] [] accept) eqn:Hr; [|discriminate].
    inversion H; subst. exists i, [], []. auto.
  - destruct (run r i (c :: s) [] accept) eqn:Hr.
    + inversion H; subst. exists i, [], (c :: s). auto.
    + apply IH in H. destruct H as (j & pre & rest & -> & Hrun).
      exists j, (c :: pre), rest. auto.
Qed.

Lemma Matches_groupless r i s c i' s' c' :
  Matches r i s c i' s' c' -> groupless r = true -> c' = c.
Proof.
  induction 1; simpl; intros Hg; try reflexivity; try discriminate.
  - apply andb_prop in Hg. destruct Hg as [Ha Hb].
    rewrite (IHMatches2 Hb). apply IHMatches1; exact Ha.
  - apply andb_prop in Hg. destruct Hg as [Ha _]. apply IHMatches; exact Ha.
  - apply andb_prop in Hg. destruct Hg as [_ Hb]. apply IHMatches; exact Hb.
Qed.

(** The text of a group that closes a pattern. *)
Lemma Matches_Grp_text a i s c i' s' c' :
  Matches (Grp a) i s c i' s' c' -> groupless a = true ->
  exists cs, s = cs ++ s' /\ c' = c ++ [cs] /\ Matches a i s c i' s' c.
Proof.
  intros H Hg. inversion H; subst.
  match goal with Ha : Matches a _ _ _ _ _ _ |- _ =>
    pose proof (Matches_groupless Ha Hg) as ->;
    destruct (Matches_prefix Ha) as (cs & -> & ->); exists cs
  end.
  replace (i + List.length cs - i) with (List.length cs) by lia.
  rewrite firstn_app, Nat.sub_diag, firstn_all. simpl. rewrite app_nil_r.
  repeat split; auto.
Qed.

(** A pattern that spells a text, one set of characters for each of its
    characters. *)
Lemma Matches_spelled (f : char -> char -> bool) (l : str) :
  forall i s c i' s' c',
    Matches (seq (map (fun x => Chr (f x)) l)) i s c i' s' c' ->
    exists cs, s = cs ++ s' /\ Forall2 (fun x y => f x y = true) l cs.
Proof.
  induction l as [|x l IH]; intros i s c i' s' c' H.
  - simpl in H. inversion H; subst. exists []. split; [reflexivity | constructor].
  - destruct l as [|x' l].
    + simpl in H. inversion H; subst. exists [x0].
      split; [reflexivity | repeat constructor; assumption].
    + change (seq (map (fun x => Chr (f x)) (x :: x' :: l)))
        with (Seq (Chr (f x)) (seq (map (fun x => Chr (f x)) (x' :: l)))) in H.
      remember (seq (map (fun x => Chr (f x)) (x' :: l))) as tl eqn:Htl.
      inversion H as [ | | a b j t d i1 s1 c1 i2 s2 c2 H1 H2 | | | | | | ]; subst.
      inversion H1; subst.
      apply IH in H2. destruct H2 as (cs & -> & Hall).
      eexists (_ :: cs). split; [reflexivity | constructor; assumption].
Qed.

Lemma ignorecase_folds (c x : char) : ignorecase c x = true -> In x (folds c).
Proof.
  unfold ignorecase, folds.
  destruct (in_range 97 122 (ascii_lower c)).
  - intros H.
    repeat match type of H with
           | (_ || _) = true => apply orb_prop in H; destruct H as [H | H]
           | (_ && _) = true => apply andb_prop in H; destruct H as [? H]
           end;
      repeat match goal with
             | E : (_ =? _)%N = true |- _ => apply N.eqb_eq in E
             end;
      try match goal with
          | E : ascii_lower c = _ |- _ => rewrite E in *
          end;
      subst x; simpl; auto 6.
  - intros H. apply N.eqb_eq in H. subst. left. reflexivity.
Qed.

Lemma Matches_Seq_inv a b i s c i2 s2 c2 :
  Matches (Seq a b) i s c i2 s2 c2 ->
  exists i1 s1 c1, Matches a i s c i1 s1 c1 /\ Matches b i1 s1 c1 i2 s2 c2.
Proof. intros H. inversion H; subst. eauto. Qed.

(** The text a case-insensitive literal matched lists, character by
    character, one of the characters that fold to the literal's. *)
Lemma Matches_text_i (w : string) i s c i' s' c' :
  Matches (text_i w) i s c i' s' c' ->
  exists cs, s = cs ++ s' /\ Forall2 (fun x y => In y (folds x)) (lit w) cs.
Proof.
  intros H. unfold text_i in H. apply Matches_spelled in H.
  destruct H as (cs & -> & Hall). exists cs. split; [reflexivity|].
  induction Hall; constructor; auto using ignorecase_folds.
Qed.

Ltac spell_out :=
  repeat match goal with
         | H : Forall2 _ (_ :: _) _ |- _ => inversion H; subst; clear H
         | H : Forall2 _ [] _ |- _ => inversion H; subst; clear H
         end;
  repeat match goal with
         | H : In _ (folds _) |- _ => vm_compute in H
         end;
  repeat match goal with
         | H : _ \/ _ |- _ => destruct H as [H | H]
         | H : False |- _ => destruct H
         end;
  subst.

(** Whatever text the side pattern extracts, its upper case is [BUY] or
    [SELL]. *)
Lemma extracted_side_upper (text e : str) :
  extract pattern_side text = Some e ->
  upper e = lit "BUY" \/ upper e = lit "SELL".
Proof.
  unfold extract, search. intros H.
  destruct (search_from pattern_side 0 text) as [m|] eqn:Hs; [|discriminate].
  inversion H; subst e; clear H.
  apply search_from_sound in Hs. destruct Hs as (j & pre & rest & _ & Hrun).
  apply run_sound in Hrun. destruct Hrun as (i' & s' & c' & HM & Hacc).
  unfold accept in Hacc. inversion Hacc; subst m; clear Hacc.
  change pattern_side with
    (Seq (alt [text_i "Action"; text_i "Side"; text_i "Type"])
       (Seq (text_i ":")
          (Seq (star space)
             (Grp (Alt (text_i "BUY")
                     (Alt (text_i "SELL") (Alt (text_i "Buy") (text_i "Sell")))))))) in HM.
  apply Matches_Seq_inv in HM. destruct HM as (i1 & s1 & c1 & H1 & HM).
  apply Matches_groupless in H1; [subst c1 | reflexivity].
  apply Matches_Seq_inv in HM. destruct HM as (i2 & s2 & c2 & H2 & HM).
  apply Matches_groupless in H2; [subst c2 | reflexivity].
  apply Matches_Seq_inv in HM. destruct HM as (i3 & s3 & c3 & H3 & HM).
  apply Matches_groupless in H3; [subst c3 | reflexivity].
  apply Matches_Grp_text in HM; [|reflexivity].
  destruct HM as (cs & -> & -> & HM).
  unfold group. simpl.
  assert (Hcs : exists w, (w = "BUY" \/ w = "SELL" \/ w = "Buy" \/ w = "Sell")%string
                          /\ Forall2 (fun x y => In y (folds x)) (lit w) cs).
  { inversion HM as [ | | | a b ? ? ? ? ? ? HA | a b ? ? ? ? ? ? HB | | | | ]; subst.
    - apply Matches_text_i in HA. destruct HA as (cs' & E & F).
      apply app_inv_tail in E. subst. exists "BUY"%string. auto.
    - inversion HB as [ | | | a b ? ? ? ? ? ? HA | a b ? ? ? ? ? ? HB2 | | | | ]; subst.
      + apply Matches_text_i in HA. destruct HA as (cs' & E & F).
        apply app_inv_tail in E. subst. exists "SELL"%string. auto.
      + inversion HB2 as [ | | | a b ? ? ? ? ? ? HA | a b ? ? ? ? ? ? HB3 | | | | ]; subst.
        * apply Matches_text_i in HA. destruct HA as (cs' & E & F).
          apply app_inv_tail in E. subst. exists "Buy"%string. auto.
        * apply Matches_text_i in HB3. destruct HB3 as (cs' & E & F).
          apply app_inv_tail in E. subst. exists "Sell"%string. auto. }
  destruct Hcs as (w & Hw & F).
  destruct Hw as [-> | [-> | [-> | ->]]].
  - change (lit "BUY") with [66%N; 85%N; 89%N] in F.
    spell_out; vm_compute; auto.
  - change (lit "SELL") with [83%N; 69%N; 76%N; 76%N] in F.
    spell_out; vm_compute; auto.
  - change (lit "Buy") with [66%N; 117%N; 121%N] in F.
    spell_out; vm_compute; auto.
  - change (lit "Sell") with [83%N; 101%N; 108%N; 108%N] in F.
    spell_out; vm_compute; auto.
Qed.

(** ** C8 *)

Lemma Matches_Rep_inv p lo hi i s c i' s' c' :
  Matches (Rep lo hi p) i s c i' s' c' ->
  exists cs, s = cs ++ s' /\ c' = c /\ forallb p cs = true /\ lo <= List.length cs
             /\ (forall h, hi = Some h -> List.length cs <= h).
Proof. intros H. inversion H; subst. exists cs. auto. Qed.

Lemma Matches_Chr_inv p i s c i' s' c' :
  Matches (Chr p) i s c i' s' c' ->
  exists x, s = x :: s' /\ c' = c /\ p x = true.
Proof. intros H. inversion H; subst. eauto. Qed.

(** Where the date pattern matches, the text begins with a date
    expression. *)
Lemma run_date_sound (i : nat) (rest : str) (date_match : found) :
  run pattern_date i rest [] accept = Some date_match -> begins_with_date rest.
Proof.
  intros Hrun.
  apply run_sound in Hrun. destruct Hrun as (i' & s' & c' & HM & _).
  change pattern_date with
    (Seq (Grp (Rep 4 (Some 4) digit))
       (Seq (Chr (char_eqb 24180%N))
          (Seq (Grp (Rep 1 (Some 2) digit))
             (Seq (Chr (char_eqb 26376%N))
                (Seq (Grp (Rep 1 (Some 2) digit)) (Chr (char_eqb 26085%N))))))) in HM.
  apply Matches_Seq_inv in HM. destruct HM as (i1 & s1 & c1 & Hy & HM).
  apply Matches_Grp_text in Hy; [|reflexivity].
  destruct Hy as (y & -> & _ & Hy). apply Matches_Rep_inv in Hy.
  destruct Hy as (y' & Ey & _ & Hyd & Hy4 & Hy4').
  apply app_inv_tail in Ey. subst y'.
  apply Matches_Seq_inv in HM. destruct HM as (i2 & s2 & c2 & Hc & HM).
  apply Matches_Chr_inv in Hc. destruct Hc as (x1 & -> & _ & Hx1).
  apply N.eqb_eq in Hx1. subst x1.
  apply Matches_Seq_inv in HM. destruct HM as (i3 & s3 & c3 & Hm & HM).
  apply Matches_Grp_text in Hm; [|reflexivity].
  destruct Hm as (m & -> & _ & Hm). apply Matches_Rep_inv in Hm.
  destruct Hm as (m' & Em & _ & Hmd & Hm1 & Hm2).
  apply app_inv_tail in Em. subst m'.
  apply Matches_Seq_inv in HM. destruct HM as (i4 & s4 & c4 & Hc & HM).
  apply Matches_Chr_inv in Hc. destruct Hc as (x2 & -> & _ & Hx2).
  apply N.eqb_eq in Hx2. subst x2.
  apply Matches_Seq_inv in HM. destruct HM as (i5 & s5 & c5 & Hd & HM).
  apply Matches_Grp_text in Hd; [|reflexivity].
  destruct Hd as (d & -> & _ & Hd). apply Matches_Rep_inv in Hd.
  destruct Hd as (d' & Ed & _ & Hdd & Hd1 & Hd2).
  apply app_inv_tail in Ed. subst d'.
  apply Matches_Chr_inv in HM. destruct HM as (x3 & -> & _ & Hx3).
  apply N.eqb_eq in Hx3. subst x3.
  exists y, m, d, s'.
  specialize (Hy4' 4 eq_refl). specialize (Hm2 2 eq_refl). specialize (Hd2 2 eq_refl).
  repeat match goal with |- _ /\ _ => split end;
    try assumption; try lia; reflexivity.
Qed.

(** Where the date pattern finds a match, the subject holds a date
    expression. *)
Lemma search_date_sound (subject : str) (date_match : found) :
  search pattern_date subject = Some date_match -> has_date_expression subject.
Proof.
  unfold search. intros Hs.
  apply search_from_sound in Hs. destruct Hs as (j & pre & rest & -> & Hrun).
  apply run_date_sound in Hrun.
  destruct Hrun as (y & m & d & post & -> & H).
  exists pre, y, m, d, post. split; [reflexivity | exact H].
Qed.

(** C8. For a subject that holds no date expression (four digits, 年, one or
    two digits, 月, one or two digits, 日), the tabular extractor returns the
    empty list, whatever the body holds and whatever the HTML parser would
    do with it, and so does [parse] for a subject that carries the broker's
    name: no row gives a record. *)
Theorem no_date_no_records :
  forall (pydantic : bool) (now : datetime)
         (find_all_tr : str -> result (list (list str)))
         (subject body : str),
    ~ has_date_expression subject ->
    _parse_fubon_report pydantic now find_all_tr subject body = Ok []
    /\ (contains (lit "富邦證券") subject = true ->
        parse pydantic now find_all_tr subject body = Ok []).
Proof.
  intros pydantic now find_all_tr subject body Hnone.
  assert (H : _parse_fubon_report pydantic now find_all_tr subject body = Ok []).
  { unfold _parse_fubon_report.
    destruct (search pattern_date subject) as [m|] eqn:Hs; [|reflexivity].
    exfalso. apply Hnone. eapply search_date_sound. exact Hs. }
  split; [exact H|].
  intros Hmark. unfold parse. rewrite Hmark. exact H.
Qed.

(** A subject without the character 年 holds no date expression. *)
Lemma no_year_sign_no_date : ~ has_date_expression (lit "富邦證券 成交回報").
Proof.
  intros (pre & y & m & d & post & E & _).
  assert (Hin : In 24180%N (lit "富邦證券 成交回報")).
  { rewrite E. apply in_or_app. right. apply in_or_app. right. left. reflexivity. }
  vm_compute in Hin.
  repeat match goal with
         | H : _ \/ _ |- _ => destruct H as [H | H]
         | H : False |- _ => destruct H
         | H : _ = _ |- _ => discriminate H
         end.
Qed.

Lemma no_date_no_records_witness :
  ~ has_date_expression (lit "富邦證券 成交回報")
  /\ parse true (mk_datetime 2026 1 19 0 0 0) (fun _ => Ok [report_row])
       (lit "富邦證券 成交回報") (lit "<table></table>") = Ok [].
Proof.
  split; [exact no_year_sign_no_date|].
  apply (@no_date_no_records true (mk_datetime 2026 1 19 0 0 0)
           (fun _ => Ok [report_row])
           (lit "富邦證券 成交回報") (lit "<table></table>") no_year_sign_no_date).
  vm_compute; reflexivity.
Defined.

(** ** The tabular extractor, row by row *)

Lemma index_cell (cols : list str) (k : nat) :
  k < List.length cols -> index cols k = Ok (cell cols k).
Proof.
  intros H. unfold index, cell.
  destruct (nth_error cols k) as [x|] eqn:E.
  - erewrite nth_error_nth by exact E. reflexivity.
  - apply nth_error_None in E. lia.
Qed.

(** [float] and [strptime] raise nothing but [ValueError]. *)
Lemma float_of_str_raises (s : str) (e : exn) :
  float_of_str s = Raise e -> e = ValueError.
Proof.
  unfold float_of_str.
  destruct (drop_underscores 0%N (transform_decimal_and_space s)) as [t|];
    [destruct (string_to_double (ascii_strip t))|]; congruence.
Qed.

Lemma int_of_str_raises (s : str) (e : exn) :
  int_of_str s = Raise e -> e = ValueError.
Proof.
  unfold int_of_str.
  destruct (strip s) as [|c t]; [congruence|].
  destruct (decimals_value (c :: t) 0); congruence.
Qed.

Lemma strptime_raises (s : str) (e : exn) :
  strptime s = Raise e -> e = ValueError.
Proof.
  unfold strptime.
  destruct (match_ format_regex s) as [m|]; [|congruence].
  destruct (negb (Nat.eqb (List.length s) (fst m))); [congruence|].
  repeat match goal with
         | |- bind (int_of_str ?x) _ = Raise _ -> _ =>
           let E := fresh "E" in
           destruct (int_of_str x) eqn:E;
           [cbn [bind] | apply int_of_str_raises in E; cbn [bind]; congruence]
         end.
  unfold make.
  match goal with |- (if ?b then _ else _) = _ -> _ => destruct b end; congruence.
Qed.

(** The body of the loop appends the record of a valid row and leaves the
    list as it is for any other row; it does not raise. *)
Lemma fubon_row_spec (pydantic : bool) (now : datetime) (report_date : str)
    (trades : list Trade) (cols : list str) :
  fubon_row pydantic now report_date trades cols
  = Ok (trades ++ if valid_row pydantic report_date cols
                  then [record_of report_date cols] else []).
Proof.
  unfold fubon_row, valid_row, invalid_row, too_short.
  destruct (Nat.ltb (List.length cols) 7) eqn:Hlen.
  - simpl. rewrite app_nil_r. reflexivity.
  - apply Nat.ltb_ge in Hlen.
    rewrite !index_cell by lia. cbn [bind].
    unfold has_marker.
    destruct (existsb (fun kw => contains kw (cell cols 0)) non_data_markers).
    + simpl. rewrite app_nil_r. reflexivity.
    + unfold numeric.
      destruct (is_match (match_ pattern_number (remove_commas (cell cols 2))));
        [|simpl; rewrite app_nil_r; reflexivity].
      destruct (is_match (match_ pattern_number (remove_commas (cell cols 3))));
        [|simpl; rewrite app_nil_r; reflexivity].
      cbn [negb orb andb].
      unfold record_of, row_quantity, row_price, row_timestamp, code_and_name.
      destruct (float_of_str (remove_commas (cell cols 2))) as [q|e1] eqn:E1;
        [|apply float_of_str_raises in E1; subst e1].
      2:{ destruct (match_ pattern_code_name (cell cols 0));
            simpl; rewrite app_nil_r; reflexivity. }
      destruct (float_of_str (remove_commas (cell cols 3))) as [p|e2] eqn:E2;
        [|apply float_of_str_raises in E2; subst e2].
      2:{ destruct (match_ pattern_code_name (cell cols 0));
            simpl; rewrite app_nil_r; reflexivity. }
      destruct (strptime (report_date ++ lit " " ++ cell cols 6)) as [ts|e3] eqn:E3;
        [|apply strptime_raises in E3; subst e3].
      2:{ destruct (match_ pattern_code_name (cell cols 0));
            simpl; rewrite app_nil_r; reflexivity. }
      unfold Trade_init, BaseModel_init.
      destruct (match_ pattern_code_name (cell cols 0)) as [m|];
        cbn [bind kw_quantity kw_price is_ok value_or andb];
        destruct pydantic; cbn [andb negb orb];
        try (destruct (gt0 q && gt0 p); cbn [negb]);
        simpl; rewrite ?app_nil_r; reflexivity.
Qed.

(** The loop over the rows collects the records of the valid rows, in the
    order of the rows. *)
Lemma for_each_fubon_row (pydantic : bool) (now : datetime) (report_date : str)
    (rows : list (list str)) :
  forall trades,
    for_each (fubon_row pydantic now report_date) rows trades
    = Ok (trades ++ map (record_of report_date)
                        (filter (valid_row pydantic report_date) rows)).
Proof.
  induction rows as [|cols rows IH]; intros trades; simpl.
  - rewrite app_nil_r. reflexivity.
  - rewrite fubon_row_spec. cbn [bind]. rewrite IH.
    destruct (valid_row pydantic report_date cols); simpl.
    + rewrite <- app_assoc. reflexivity.
    + rewrite app_nil_r. reflexivity.
Qed.

(** The tabular extractor on a subject with a date and a body the HTML
    parser can read. *)
Lemma fubon_report_rows (pydantic : bool) (now : datetime)
    (find_all_tr : str -> result (list (list str)))
    (subject body : str) (date_match : found) (rows : list (list str)) :
  search pattern_date subject = Some date_match ->
  find_all_tr body = Ok rows ->
  _parse_fubon_report pydantic now find_all_tr subject body
  = Ok (map (record_of (report_date_of date_match))
            (filter (valid_row pydantic (report_date_of date_match)) rows)).
Proof.
  intros Hd Hr. unfold _parse_fubon_report. rewrite Hd, Hr. cbn [bind].
  fold (report_date_of date_match).
  rewrite for_each_fubon_row. reflexivity.
Qed.

(** ** C5 *)





(** ** C2 *)

(** *** The first date expression of a subject

    [re.search] takes the match that begins first: a pattern without [^]
    matches at a position as it does at the start of the text that is left,
    so that the date the extractor reads is the first date expression of the
    subject. *)













(** ** The single-trade extractor *)

(** What [_parse_regex] returns, in terms of the located fields. *)
Lemma _parse_regex_spec (pydantic : bool) (now : datetime) (text : str) :
  _parse_regex pydantic now text
  = Ok (match located text with
        | Some (sy, sd, q0, p0) =>
          match parsed_numbers q0 p0 with
          | Some (q, p) =>
            if pydantic && negb (gt0 q && gt0 p) then None
            else Some (record_of_fields now text sy sd q p)
          | None => None
          end
        | None => None
        end).
Proof.
  unfold _parse_regex, located, parsed_numbers.
  destruct (extract pattern_symbol text) as [sy|]; [|reflexivity].
  destruct (extract pattern_side text) as [sd|]; [|reflexivity].
  destruct (extract pattern_quantity text) as [q0|]; [|reflexivity].
  destruct (extract pattern_price text) as [p0|]; [|reflexivity].
  destruct (float_of_str (remove_commas q0)) as [q|e1]; [|reflexivity].
  destruct (float_of_str (remove_commas p0)) as [p|e2]; [|reflexivity].
  unfold Trade_init, BaseModel_init. cbn [bind kw_quantity kw_price].
  destruct (pydantic && negb (gt0 q && gt0 p)); reflexivity.
Qed.

Lemma located_side (text sy sd q0 p0 : str) :
  located text = Some (sy, sd, q0, p0) ->
  upper sd = lit "BUY" \/ upper sd = lit "SELL".
Proof.
  unfold located. intros H.
  destruct (extract pattern_symbol text); [|discriminate].
  destruct (extract pattern_side text) as [sd'|] eqn:Hs; [|discriminate].
  destruct (extract pattern_quantity text); [|discriminate].
  destruct (extract pattern_price text); [|discriminate].
  inversion H; subst. eapply extracted_side_upper; eassumption.
Qed.

(** ** C4 *)

(** C4, as the program has it.  The single-trade extractor returns a record
    exactly when the four fields are located, quantity and price parse once
    the thousands separators are removed, and, where pydantic validates the
    model, both are greater than zero; the record then carries the located
    symbol and side in upper case, the side being BUY or SELL, and the
    parsed numbers; in every other case the extractor returns no record, and
    it never raises. *)
Theorem regex_extractor_record_iff :
  forall (pydantic : bool) (now : datetime) (text : str),
    (forall t : Trade,
        _parse_regex pydantic now text = Ok (Some t) <->
        exists sy sd q0 p0 q p,
          located text = Some (sy, sd, q0, p0)
          /\ parsed_numbers q0 p0 = Some (q, p)
          /\ (pydantic = true -> gt0 q = true /\ gt0 p = true)
          /\ t = record_of_fields now text sy sd q p)
    /\ (forall t : Trade,
           _parse_regex pydantic now text = Ok (Some t) ->
           side t = lit "BUY" \/ side t = lit "SELL")
    /\ ((exists t : Trade, _parse_regex pydantic now text = Ok (Some t))
        \/ _parse_regex pydantic now text = Ok None).
Proof.
  intros pydantic now text. rewrite _parse_regex_spec.
  destruct (located text) as [[[[sy sd] q0] p0]|] eqn:Hloc.
  2:{ repeat split.
      - discriminate.
      - intros (sy & sd & q0 & p0 & q & p & H & _). discriminate.
      - discriminate.
      - right. reflexivity. }
  destruct (parsed_numbers q0 p0) as [[q p]|] eqn:Hnum.
  2:{ repeat split.
      - discriminate.
      - intros (sy' & sd' & q0' & p0' & q & p & H & H' & _).
        inversion H; subst. congruence.
      - discriminate.
      - right. reflexivity. }
  destruct (pydantic && negb (gt0 q && gt0 p)) eqn:Hval.
  - repeat split.
    + discriminate.
    + intros (sy' & sd' & q0' & p0' & q' & p' & H & H' & Hpos & _).
      inversion H; subst. rewrite Hnum in H'. inversion H'; subst.
      apply andb_prop in Hval. destruct Hval as [-> Hneg].
      destruct (Hpos eq_refl) as [Hq Hp]. rewrite Hq, Hp in Hneg. discriminate.
    + discriminate.
    + right. reflexivity.
  - repeat split.
    + intros H. inversion H; subst.
      exists sy, sd, q0, p0, q, p. repeat split; auto.
      * destruct pydantic; [|discriminate]. cbn [andb] in Hval.
        destruct (gt0 q); [reflexivity | discriminate].
      * destruct pydantic; [|discriminate]. cbn [andb] in Hval.
        destruct (gt0 q); [|discriminate]. destruct (gt0 p); [reflexivity | discriminate].
    + intros (sy' & sd' & q0' & p0' & q' & p' & H & H' & _ & ->).
      inversion H; subst. rewrite Hnum in H'. inversion H'; subst. reflexivity.
    + intros t H. inversion H; subst. cbn [side record_of_fields].
      eapply located_side; eassumption.
    + left. eauto.
Qed.

Lemma regex_extractor_record_iff_witness :
  exists t : Trade,
    _parse_regex true a_moment plain_mail = Ok (Some t)
    /\ symbol t = lit "ABC" /\ side t = lit "SELL"
    /\ quantity t = 1000%float /\ price t = 12.5%float
    /\ order_id t = Some (lit "a-1").
Proof.
  exists (record_of_fields a_moment plain_mail (lit "abc") (lit "sell")
            1000%float 12.5%float).
  split.
  - apply (proj1 (regex_extractor_record_iff true a_moment plain_mail)).
    exists (lit "abc"), (lit "sell"), (lit "1,000"), (lit "12.50"), 1000%float, 12.5%float.
    split; [vm_compute; reflexivity|].
    split; [vm_compute; reflexivity|].
    split; [intros _; split; vm_compute; reflexivity | reflexivity].
  - split; [vm_compute; reflexivity|].
    split; [vm_compute; reflexivity|].
    split; [reflexivity|].
    split; [reflexivity | vm_compute; reflexivity].
Defined.

(** The claim without the validation fails: in the mail below the four
    fields are located and the numbers parse, and pydantic rejects the
    quantity 0, so that no record is returned. *)
Lemma regex_extractor_zero_quantity :
  located zero_quantity_mail = Some (lit "ABC", lit "BUY", lit "0", lit "5")
  /\ parsed_numbers (lit "0") (lit "5") = Some (0%float, 5%float)
  /\ _parse_regex true a_moment zero_quantity_mail = Ok None.
Proof. split; [|split]; vm_compute; reflexivity. Qed.

(** ** C6 *)

(** C6, as the program has it.  Every record the extraction engine returns
    has side BUY or SELL and a total amount equal to its quantity times its
    price rounded to two decimals (neither extractor supplies the amount);
    its quantity and price are greater than zero where pydantic validates
    the model. *)
Theorem extracted_trade_invariants :
  forall (pydantic : bool) (now : datetime)
         (find_all_tr : str -> result (list (list str)))
         (subject body : str) (trades : list Trade) (t : Trade),
    parse pydantic now find_all_tr subject body = Ok trades ->
    In t trades ->
    (side t = lit "BUY" \/ side t = lit "SELL")
    /\ total_amount t = Some (round2 (PrimFloat.mul (quantity t) (price t)))
    /\ (pydantic = true -> gt0 (quantity t) = true /\ gt0 (price t) = true).
Proof.
  intros pydantic now find_all_tr subject body trades t Hp Hin.
  unfold parse in Hp.
  destruct (contains (lit "富邦證券") subject).
  - unfold _parse_fubon_report in Hp.
    destruct (search pattern_date subject) as [m|].
    2:{ cbn [try_except] in Hp. inversion Hp; subst. destruct Hin. }
    destruct (find_all_tr body) as [rows|e].
    2:{ cbn [bind try_except is_Exception] in Hp. inversion Hp; subst. destruct Hin. }
    cbn [bind] in Hp. rewrite for_each_fubon_row in Hp.
    cbn [try_except app] in Hp. inversion Hp; subst; clear Hp.
    apply in_map_iff in Hin. destruct Hin as (cols & <- & Hin).
    apply filter_In in Hin. destruct Hin as [_ Hv].
    split; [|split].
    + unfold record_of; cbn [side].
      destruct (contains (lit "賣") (cell cols 1)); auto.
    + reflexivity.
    + unfold valid_row in Hv. intros ->. cbn [negb orb] in Hv.
      repeat (apply andb_prop in Hv; destruct Hv as [Hv ?]).
      unfold record_of; cbn [quantity price].
      match goal with Hq : (_ && _) = true |- _ => apply andb_prop in Hq; exact Hq end.
  - rewrite _parse_regex_spec in Hp. cbn [bind] in Hp.
    destruct (located body) as [[[[sy sd] q0] p0]|] eqn:Hloc.
    2:{ inversion Hp; subst. destruct Hin. }
    destruct (parsed_numbers q0 p0) as [[q p]|].
    2:{ inversion Hp; subst. destruct Hin. }
    destruct (pydantic && negb (gt0 q && gt0 p)) eqn:Hval.
    { inversion Hp; subst. destruct Hin. }
    inversion Hp; subst; clear Hp.
    destruct Hin as [<- | []].
    split; [|split].
    + cbn [side record_of_fields]. eapply located_side; eassumption.
    + reflexivity.
    + intros ->. cbn [quantity price record_of_fields andb] in Hval |- *.
      destruct (gt0 q); [|discriminate]. destruct (gt0 p); [auto | discriminate].
Qed.

Lemma extracted_trade_invariants_witness :
  (side report_trade = lit "BUY" \/ side report_trade = lit "SELL")
  /\ total_amount report_trade
     = Some (round2 (PrimFloat.mul (quantity report_trade) (price report_trade)))
  /\ (true = true -> gt0 (quantity report_trade) = true /\ gt0 (price report_trade) = true).
Proof.
  apply (extracted_trade_invariants true a_moment (fun _ => Ok [report_row])
           report_subject (lit "<table>") (trades := [report_trade])).
  - vm_compute; reflexivity.
  - left; reflexivity.
Defined.

(** Without pydantic the fallback model takes any quantity: the mail below
    gives a record whose quantity is 0. *)
Lemma fallback_model_zero_quantity :
  exists t : Trade,
    parse false a_moment (fun _ => Ok []) (lit "Trade confirmation") zero_quantity_mail
    = Ok [t]
    /\ quantity t = 0%float
    /\ gt0 (quantity t) = false.
Proof.
  eexists. split; [vm_compute; reflexivity|].
  split; vm_compute; reflexivity.
Qed.

(** ** Floats *)

Lemma Prim2SF_zero : Prim2SF PrimFloat.zero = S754_zero false.
Proof. reflexivity. Qed.

(** A float equal to zero is not greater than zero. *)
Lemma eq0_not_gt0 (x : float) : eq0 x = true -> gt0 x = false.
Proof.
  unfold eq0, gt0. rewrite FloatAxioms.eqb_spec, FloatAxioms.ltb_spec, Prim2SF_zero.
  destruct (Prim2SF x) as [s|s| |s m e]; simpl; try discriminate; try reflexivity.
  - destruct s; discriminate.
  - destruct s; discriminate.
Qed.

(** A float greater than zero differs from zero. *)
Lemma gt0_ne0 (x : float) : gt0 x = true -> ne0 x = true.
Proof.
  unfold ne0. intros H. destruct (PrimFloat.eqb x PrimFloat.zero) eqn:E; [|reflexivity].
  apply eq0_not_gt0 in E. congruence.
Qed.

(** ** The portfolio *)

Lemma str_eqb_eq (a b : str) : str_eqb a b = true <-> a = b.
Proof.
  revert b; induction a as [|x a IH]; intros [|y b]; simpl; split; intros H;
    try reflexivity; try discriminate.
  - apply andb_prop in H. destruct H as [Hx Ha].
    apply N.eqb_eq in Hx. apply IH in Ha. congruence.
  - inversion H; subst. unfold char_eqb. rewrite N.eqb_refl. simpl. apply IH. reflexivity.
Qed.

Lemma str_eqb_refl (a : str) : str_eqb a a = true.
Proof. apply str_eqb_eq. reflexivity. Qed.

Lemma get_set_same (pf : portfolio) (code : str) (d : position) :
  get (set pf code d) code = Some d.
Proof.
  induction pf as [|[c d0] pf IH]; simpl.
  - rewrite str_eqb_refl. reflexivity.
  - destruct (str_eqb c code) eqn:E; simpl; rewrite E; [reflexivity | exact IH].
Qed.

Lemma get_set_other (pf : portfolio) (code c' : str) (d : position) :
  code <> c' -> get (set pf code d) c' = get pf c'.
Proof.
  intros Hne. induction pf as [|[c d0] pf IH]; simpl.
  - destruct (str_eqb code c') eqn:E; [apply str_eqb_eq in E; contradiction | reflexivity].
  - destruct (str_eqb c code) eqn:E; simpl.
    + apply str_eqb_eq in E. subst c.
      destruct (str_eqb code c') eqn:E'; [apply str_eqb_eq in E'; contradiction | reflexivity].
    + destruct (str_eqb c c'); [reflexivity | exact IH].
Qed.

Lemma index_field (row : list str) (k : nat) :
  k < List.length row -> index row k = Ok (field row k).
Proof. apply index_cell. Qed.

Lemma accumulators_with_name (nm : str) (d : position) :
  accumulators (with_name nm d) = accumulators d.
Proof. destruct nm; reflexivity. Qed.

(** ** The body of the aggregation loop *)

Lemma read_numbers_spec (ix : columns) (row : list str) :
  idx_qty ix < List.length row -> idx_amt ix < List.length row ->
  read_numbers ix row = Ok (numbers_of ix row).
Proof.
  intros Hq Ha. unfold read_numbers, numbers_of.
  rewrite !index_field by assumption. cbn [bind].
  destruct (float_of_str (remove_commas (field row (idx_qty ix)))) as [qty|e1];
    [|reflexivity].
  cbn [bind].
  destruct (float_of_str (remove_commas (field row (idx_amt ix)))) as [amt|e2];
    reflexivity.
Qed.

(** A row with all its columns whose numbers can be read updates the
    position of its code. *)
Lemma ledger_row_accounted (ix : columns) (pf : portfolio) (total : float)
    (row : list str) (qty amt : float) :
  long_enough ix row = true ->
  numbers_of ix row = Some (qty, amt) ->
  ledger_row ix (pf, total) row
  = Ok (let d0 := match get pf (code_of ix row) with
                  | Some d => d
                  | None => fresh (name_of ix row)
                  end in
        let '(d, profit) :=
          apply_action (action_of ix row) qty amt (with_name (name_of ix row) d0) in
        (set pf (code_of ix row) d,
         match profit with
         | Some p => PrimFloat.add total p
         | None => total
         end)).
Proof.
  intros Hlong Hnum. unfold long_enough in Hlong.
  apply andb_prop in Hlong. destruct Hlong as [Hmax Hname].
  apply Nat.ltb_lt in Hmax. apply Nat.ltb_lt in Hname.
  unfold ledger_row.
  destruct (Nat.leb (List.length row)
              (Nat.max (idx_code ix)
                 (Nat.max (idx_action ix) (Nat.max (idx_qty ix) (idx_amt ix))))) eqn:Hle.
  { apply Nat.leb_le in Hle. lia. }
  rewrite !index_field by lia. cbn [bind].
  rewrite read_numbers_spec by lia. cbn [bind]. rewrite Hnum.
  fold (code_of ix row). fold (name_of ix row). fold (action_of ix row).
  destruct (apply_action (action_of ix row) qty amt
              (with_name (name_of ix row)
                 match get pf (code_of ix row) with
                 | Some d => d
                 | None => fresh (name_of ix row)
                 end)) as [d profit].
  reflexivity.
Qed.

(** A row leaves the state as it is, raises [IndexError] for want of the
    name column, or is accounted. *)
Lemma ledger_row_cases (ix : columns) (st : state) (row : list str) :
  ledger_row ix st row = Ok st
  \/ (ledger_row ix st row = Raise IndexError /\ long_enough ix row = false)
  \/ (exists qty amt, long_enough ix row = true /\ numbers_of ix row = Some (qty, amt)).
Proof.
  destruct st as [pf total].
  destruct (long_enough ix row) eqn:Hlong.
  - destruct (numbers_of ix row) as [[qty amt]|] eqn:Hnum.
    + right. right. eauto.
    + left. unfold long_enough in Hlong.
      apply andb_prop in Hlong. destruct Hlong as [Hmax Hname].
      apply Nat.ltb_lt in Hmax. apply Nat.ltb_lt in Hname.
      unfold ledger_row.
      destruct (Nat.leb _ _); [reflexivity|].
      rewrite !index_field by lia. cbn [bind].
      rewrite read_numbers_spec by lia. cbn [bind]. rewrite Hnum. reflexivity.
  - unfold ledger_row.
    destruct (Nat.leb (List.length row)
                (Nat.max (idx_code ix)
                   (Nat.max (idx_action ix) (Nat.max (idx_qty ix) (idx_amt ix))))) eqn:Hle.
    + left. reflexivity.
    + right. left. split; [|reflexivity].
      apply Nat.leb_gt in Hle. unfold long_enough in Hlong.
      apply andb_false_iff in Hlong. destruct Hlong as [Hm | Hn].
      * apply Nat.ltb_ge in Hm. lia.
      * apply Nat.ltb_ge in Hn.
        rewrite index_field by lia. cbn [bind].
        unfold index at 1.
        destruct (nth_error row (idx_name ix)) eqn:E; [|reflexivity].
        assert (Hsome : nth_error row (idx_name ix) <> None) by congruence.
        apply nth_error_Some in Hsome. lia.
Qed.

(** ** C10 *)

Lemma apply_action_other (action : str) (qty amt : float) (d : position) :
  is_buy action = false -> is_sell action = false ->
  apply_action action qty amt d = (d, None).
Proof. intros Hb Hs. unfold apply_action. rewrite Hb, Hs. reflexivity. Qed.

(** C10. A row whose upper-cased action label holds none of BUY, 買, SELL
    and 賣 leaves the total of realized profit and, for every code, the five
    accumulators as they were (a code met for the first time gets a position
    whose accumulators are zero, as they are for a code not yet met). *)
Theorem other_action_leaves_accumulators :
  forall (ix : columns) (pf : portfolio) (total : float) (row : list str)
         (pf' : portfolio) (total' : float),
    is_buy (action_of ix row) = false ->
    is_sell (action_of ix row) = false ->
    ledger_row ix (pf, total) row = Ok (pf', total') ->
    total' = total
    /\ forall code : str,
         accumulators (position_at pf' code) = accumulators (position_at pf code).
Proof.
  intros ix pf total row pf' total' Hb Hs Hrow.
  destruct (ledger_row_cases ix (pf, total) row)
    as [Hsame | [[Hraise _] | (qty & amt & Hlong & Hnum)]].
  - rewrite Hsame in Hrow. inversion Hrow; subst. auto.
  - rewrite Hraise in Hrow. discriminate.
  - rewrite (ledger_row_accounted ix pf total row Hlong Hnum) in Hrow.
    cbv zeta in Hrow.
    rewrite (apply_action_other _ qty amt _ Hb Hs) in Hrow. inversion Hrow; subst; clear Hrow.
    split; [reflexivity|]. intros code. unfold position_at.
    destruct (str_eqb (code_of ix row) code) eqn:E.
    + apply str_eqb_eq in E. subst code. rewrite get_set_same.
      rewrite accumulators_with_name.
      destruct (get pf (code_of ix row)); reflexivity.
    + rewrite get_set_other; [reflexivity|].
      intros Heq. rewrite Heq, str_eqb_refl in E. discriminate.
Qed.

Lemma other_action_leaves_accumulators_witness :
  exists pf, aggregate default_columns buy_then_sell = Ok (pf, 200%float)
  /\ exists pf', ledger_row default_columns (pf, 200%float) dividend_row = Ok (pf', 200%float)
     /\ accumulators (position_at pf' (lit "2344"))
        = accumulators (position_at pf (lit "2344")).
Proof.
  eexists. split; [vm_compute; reflexivity|].
  eexists. split; [vm_compute; reflexivity|].
  eapply (other_action_leaves_accumulators default_columns _ 200%float dividend_row).
  - vm_compute; reflexivity.
  - vm_compute; reflexivity.
  - vm_compute; reflexivity.
Defined.

(** ** C1 *)

Lemma avg_buy_of_accumulators (d1 d2 : position) :
  accumulators d1 = accumulators d2 -> avg_buy_of d1 = avg_buy_of d2.
Proof.
  unfold accumulators, avg_buy_of. intros H. inversion H.
  repeat match goal with E : _ = _ |- _ => rewrite E; clear E end. reflexivity.
Qed.

Lemma accumulators_position_at (pf : portfolio) (code nm : str) :
  accumulators (with_name nm match get pf code with
                             | Some d => d
                             | None => fresh nm
                             end)
  = accumulators (position_at pf code).
Proof.
  rewrite accumulators_with_name. unfold position_at.
  destruct (get pf code); reflexivity.
Qed.

(** The lines of the holdings table carry the figures of the positions. *)
Lemma summary_row_of_position (price : str -> float) (pf : portfolio) (r : summary_row) :
  In r (summary_rows price pf) ->
  exists d, get pf (row_code r) = Some d
            /\ net_qty r = net_of d
            /\ avg_buy r = avg_buy_of d
            /\ row_realized_pl r = realized_pl d
            /\ (gt0 (net_of d) || ne0 (realized_pl d)) = true.
Proof.
  unfold summary_rows. intros H. apply in_flat_map in H.
  destruct H as (code & _ & H).
  destruct (get pf code) as [d|] eqn:Hg; [|destruct H].
  destruct (gt0 (net_of d) || ne0 (realized_pl d)) eqn:Hshow; [|destruct H].
  destruct H as [<- | []]. cbn [row_code net_qty avg_buy row_realized_pl].
  exists d. auto.
Qed.

(** A sale adds its profit to the position of its code and to the total. *)
Lemma sale_adds_profit (ix : columns) (pf : portfolio) (total : float)
    (row : list str) (qty amt : float) :
  long_enough ix row = true ->
  numbers_of ix row = Some (qty, amt) ->
  is_sell_row ix row = true ->
  let before := position_at pf (code_of ix row) in
  let profit :=
    PrimFloat.mul (PrimFloat.sub (sale_price qty amt) (avg_buy_of before)) qty in
  exists pf' : portfolio,
    ledger_row ix (pf, total) row = Ok (pf', PrimFloat.add total profit)
    /\ realized_pl (position_at pf' (code_of ix row))
       = PrimFloat.add (realized_pl before) profit.
Proof.
  intros Hlong Hnum Hsell before profit.
  rewrite (ledger_row_accounted ix pf total row Hlong Hnum). cbv zeta.
  unfold is_sell_row in Hsell. apply andb_prop in Hsell. destruct Hsell as [Hb Hs].
  apply negb_true_iff in Hb.
  unfold apply_action. rewrite Hb, Hs.
  pose proof (accumulators_position_at pf (code_of ix row) (name_of ix row)) as Hacc.
  fold before in Hacc.
  assert (Hp : sale_profit
                 (with_name (name_of ix row)
                    match get pf (code_of ix row) with
                    | Some d => d
                    | None => fresh (name_of ix row)
                    end) qty amt = profit).
  { unfold sale_profit, profit. rewrite (avg_buy_of_accumulators Hacc). reflexivity. }
  rewrite Hp.
  eexists. split; [reflexivity|].
  unfold position_at at 1. rewrite get_set_same. cbn [realized_pl].
  unfold accumulators in Hacc. inversion Hacc as [[H1 H2 H3 H4 H5]].
  rewrite H5. reflexivity.
Qed.

(** ** The figures of a code are cumulative *)

Lemma for_each_snoc {A S : Type} (body : S -> A -> result S) (l : list A) (a : A) :
  forall s : S,
    for_each body (l ++ [a]) s = (s' <- for_each body l s ;; body s' a)%py.
Proof.
  induction l as [|x l IH]; intros s; cbn [app for_each].
  - cbn [bind]. destruct (body s a); reflexivity.
  - destruct (body s x) as [s1|e]; cbn [bind]; [apply IH | reflexivity].
Qed.

Lemma for_each_prefix {A S : Type} (body : S -> A -> result S) (l1 l2 : list A) :
  forall s s2 : S,
    for_each body (l1 ++ l2) s = Ok s2 ->
    exists s1, for_each body l1 s = Ok s1 /\ for_each body l2 s1 = Ok s2.
Proof.
  induction l1 as [|x l1 IH]; intros s s2 H; cbn [app for_each] in *.
  - eauto.
  - destruct (body s x) as [s1|e]; cbn [bind] in *; [apply IH; exact H | discriminate].
Qed.

Lemma cumulative_bought_snoc (ix : columns) (code : str) (rows : list (list str))
    (row : list str) :
  cumulative_bought ix code (rows ++ [row])
  = bought_step ix code (cumulative_bought ix code rows) row.
Proof. unfold cumulative_bought. rewrite fold_left_app. reflexivity. Qed.

Lemma realized_profit_from_snoc (ix : columns) (code : str) (rest : list (list str)) :
  forall (seen : list (list str)) (acc : float) (row : list str),
    realized_profit_from ix code seen (rest ++ [row]) acc
    = realized_step ix code (seen ++ rest)
        (realized_profit_from ix code seen rest acc) row.
Proof.
  induction rest as [|r rest IH]; intros seen acc row; cbn [app realized_profit_from].
  - rewrite app_nil_r. reflexivity.
  - rewrite IH, <- app_assoc. reflexivity.
Qed.

Lemma realized_profit_snoc (ix : columns) (code : str) (rows : list (list str))
    (row : list str) :
  realized_profit ix code (rows ++ [row])
  = realized_step ix code rows (realized_profit ix code rows) row.
Proof. unfold realized_profit. rewrite realized_profit_from_snoc. reflexivity. Qed.

(** A row that does not reach the accounting adds nothing to the figures of
    any code. *)
Lemma entry_of_skipped (ix : columns) (code : str) (row : list str) :
  long_enough ix row = false \/ numbers_of ix row = None ->
  entry_of ix code row = None.
Proof.
  unfold entry_of. intros [H | H]; [rewrite H; reflexivity|].
  rewrite H. destruct (long_enough ix row && str_eqb (code_of ix row) code); reflexivity.
Qed.

Lemma entry_of_other_code (ix : columns) (code : str) (row : list str) :
  str_eqb (code_of ix row) code = false -> entry_of ix code row = None.
Proof. unfold entry_of. intros H. rewrite H, andb_false_r. reflexivity. Qed.

Lemma entry_of_own_code (ix : columns) (row : list str) (qty amt : float) :
  long_enough ix row = true -> numbers_of ix row = Some (qty, amt) ->
  entry_of ix (code_of ix row) row = Some (qty, amt).
Proof. unfold entry_of. intros Hl Hn. rewrite Hl, str_eqb_refl, Hn. reflexivity. Qed.

(** What a row does to the figures of a code: a purchase of the code adds
    its quantity and its amount to the bought ones, a sale of the code adds
    its profit at the average buy cost of the position, and any other row
    leaves the three figures as they are. *)
Lemma ledger_row_figures (ix : columns) (pf0 pf : portfolio) (t0 total : float)
    (row : list str) (code : str) :
  ledger_row ix (pf0, t0) row = Ok (pf, total) ->
  (buy_qty (position_at pf code), buy_amt (position_at pf code))
  = match entry_of ix code row with
    | Some (qty, amt) =>
      if is_buy (action_of ix row)
      then (PrimFloat.add (buy_qty (position_at pf0 code)) qty,
            PrimFloat.add (buy_amt (position_at pf0 code)) amt)
      else (buy_qty (position_at pf0 code), buy_amt (position_at pf0 code))
    | None => (buy_qty (position_at pf0 code), buy_amt (position_at pf0 code))
    end
  /\ realized_pl (position_at pf code)
     = match entry_of ix code row with
       | Some (qty, amt) =>
         if is_sell_row ix row
         then PrimFloat.add (realized_pl (position_at pf0 code))
                (PrimFloat.mul
                   (PrimFloat.sub (sale_price qty amt)
                      (avg_buy_of (position_at pf0 code))) qty)
         else realized_pl (position_at pf0 code)
       | None => realized_pl (position_at pf0 code)
       end.
Proof.
  intros H.
  assert (Hskip : entry_of ix code row = None ->
                  position_at pf code = position_at pf0 code ->
                  (buy_qty (position_at pf code), buy_amt (position_at pf code))
                  = match entry_of ix code row with
                    | Some (qty, amt) =>
                      if is_buy (action_of ix row)
                      then (PrimFloat.add (buy_qty (position_at pf0 code)) qty,
                            PrimFloat.add (buy_amt (position_at pf0 code)) amt)
                      else (buy_qty (position_at pf0 code),
                            buy_amt (position_at pf0 code))
                    | None => (buy_qty (position_at pf0 code),
                               buy_amt (position_at pf0 code))
                    end
                  /\ realized_pl (position_at pf code)
                     = match entry_of ix code row with
                       | Some (qty, amt) =>
                         if is_sell_row ix row
                         then PrimFloat.add (realized_pl (position_at pf0 code))
                                (PrimFloat.mul
                                   (PrimFloat.sub (sale_price qty amt)
                                      (avg_buy_of (position_at pf0 code))) qty)
                         else realized_pl (position_at pf0 code)
                       | None => realized_pl (position_at pf0 code)
                       end).
  { intros Hnone Hp. rewrite Hnone, Hp. split; reflexivity. }
  assert (Hunread : long_enough ix row = false \/ numbers_of ix row = None ->
                    position_at pf code = position_at pf0 code).
  { intros Hno.
    destruct (ledger_row_cases ix (pf0, t0) row)
      as [Hsame | [[Hraise _] | (q & a & Hl' & Hn')]].
    - rewrite Hsame in H. inversion H. reflexivity.
    - rewrite Hraise in H. discriminate.
    - destruct Hno as [Hno | Hno]; [rewrite Hno in Hl' | rewrite Hno in Hn'];
        discriminate. }
  destruct (long_enough ix row) eqn:Hl;
    [destruct (numbers_of ix row) as [[qty amt]|] eqn:Hn|].
  - rewrite (ledger_row_accounted ix pf0 t0 row Hl Hn) in H. cbv zeta in H.
    pose proof (accumulators_position_at pf0 (code_of ix row) (name_of ix row)) as Hacc.
    set (d0 := with_name (name_of ix row)
                 match get pf0 (code_of ix row) with
                 | Some d => d
                 | None => fresh (name_of ix row)
                 end) in *.
    destruct (str_eqb (code_of ix row) code) eqn:Ec.
    + apply str_eqb_eq in Ec. subst code.
      rewrite (entry_of_own_code ix row Hl Hn).
      rewrite <- (avg_buy_of_accumulators Hacc).
      unfold accumulators in Hacc. inversion Hacc as [[A1 A2 A3 A4 A5]]. clear Hacc.
      unfold is_sell_row. unfold apply_action in H.
      destruct (is_buy (action_of ix row)); cbn [negb andb];
        [|destruct (is_sell (action_of ix row))];
        inversion H; subst; clear H;
        unfold position_at; rewrite get_set_same;
        cbn [buy_qty buy_amt realized_pl]; split; reflexivity.
    + apply Hskip; [apply entry_of_other_code; exact Ec|].
      assert (Hne : code_of ix row <> code).
      { intros Heq. rewrite Heq, str_eqb_refl in Ec. discriminate. }
      destruct (apply_action (action_of ix row) qty amt d0) as [d profit].
      inversion H; subst. unfold position_at.
      rewrite (get_set_other pf0 d Hne). reflexivity.
  - apply Hskip; [apply entry_of_skipped; right; exact Hn|].
    apply Hunread. right. reflexivity.
  - apply Hskip; [apply entry_of_skipped; left; exact Hl|].
    apply Hunread. left. reflexivity.
Qed.

(** After the loop over [rows], the bought quantity and the bought amount
    of every code are the cumulative ones, and its realized profit is the
    sum of what its sales added. *)
Lemma aggregate_figures (ix : columns) (rows : list (list str)) :
  forall (pf : portfolio) (total : float),
    aggregate ix rows = Ok (pf, total) ->
    forall code : str,
      buy_qty (position_at pf code) = cumulative_bought_quantity ix code rows
      /\ buy_amt (position_at pf code) = cumulative_bought_amount ix code rows
      /\ realized_pl (position_at pf code) = realized_profit ix code rows.
Proof.
  induction rows as [|row rows IH] using rev_ind; intros pf total H code.
  - cbn in H. inversion H; subst. repeat split; reflexivity.
  - unfold aggregate in H. rewrite for_each_snoc in H.
    destruct (for_each (ledger_row ix) rows ([], zero)) as [[pf0 t0]|e] eqn:E;
      cbn [bind] in H; [|discriminate].
    destruct (IH pf0 t0 E code) as (Hq & Ha & Hr).
    destruct (ledger_row_figures ix pf0 t0 row code H) as [Hb Hp].
    assert (Havg : avg_buy_of (position_at pf0 code) = average_buy_cost ix code rows).
    { unfold avg_buy_of, average_buy_cost. rewrite Hq, Ha. reflexivity. }
    unfold cumulative_bought_quantity, cumulative_bought_amount in *.
    rewrite cumulative_bought_snoc, realized_profit_snoc.
    unfold bought_step, realized_step.
    rewrite Hq, Ha in Hb. rewrite Hr, Havg in Hp.
    split; [|split; [|exact Hp]].
    + transitivity (fst (buy_qty (position_at pf code), buy_amt (position_at pf code)));
        [reflexivity|].
      rewrite Hb. destruct (entry_of ix code row) as [[qty amt]|];
        [destruct (is_buy (action_of ix row))|]; reflexivity.
    + transitivity (snd (buy_qty (position_at pf code), buy_amt (position_at pf code)));
        [reflexivity|].
      rewrite Hb. destruct (entry_of ix code row) as [[qty amt]|];
        [destruct (is_buy (action_of ix row))|]; reflexivity.
Qed.

(** C1. At any point of the aggregation, that is after any rows [seen] of
    the rows it is given, the bought quantity and the bought amount of a
    code are the cumulative ones (the sums over the purchases of the code
    among the rows seen), its average buy cost is the cumulative bought
    amount divided by the cumulative bought quantity when that quantity is
    greater than zero, and zero when it is zero, and its realized profit is
    what its sales have added, each sale adding (sale unit price - average
    buy cost at that point) * sale quantity; the holdings table shows these
    figures; a sale adds that profit to the position of its code and to the
    total; and BUY 100 at 10 followed by SELL 40 at 15 gives net quantity
    60, average buy cost 10 and realized profit 200. *)
Theorem average_cost_and_realized_profit :
  (forall (ix : columns) (seen rest : list (list str)) (final : state) (code : str),
      aggregate ix (seen ++ rest) = Ok final ->
      exists (pf : portfolio) (total : float),
        aggregate ix seen = Ok (pf, total)
        /\ buy_qty (position_at pf code) = cumulative_bought_quantity ix code seen
        /\ buy_amt (position_at pf code) = cumulative_bought_amount ix code seen
        /\ avg_buy_of (position_at pf code) = average_buy_cost ix code seen
        /\ (gt0 (cumulative_bought_quantity ix code seen) = true ->
            avg_buy_of (position_at pf code)
            = PrimFloat.div (cumulative_bought_amount ix code seen)
                            (cumulative_bought_quantity ix code seen))
        /\ (eq0 (cumulative_bought_quantity ix code seen) = true ->
            avg_buy_of (position_at pf code) = zero)
        /\ realized_pl (position_at pf code) = realized_profit ix code seen)
  /\ (forall (price : str -> float) (pf : portfolio) (r : summary_row),
         In r (summary_rows price pf) ->
         exists d, get pf (row_code r) = Some d
                   /\ net_qty r = PrimFloat.sub (buy_qty d) (sell_qty d)
                   /\ avg_buy r = avg_buy_of d
                   /\ row_realized_pl r = realized_pl d)
  /\ (forall (ix : columns) (pf : portfolio) (total : float)
             (row : list str) (qty amt : float),
         long_enough ix row = true ->
         numbers_of ix row = Some (qty, amt) ->
         is_sell_row ix row = true ->
         let before := position_at pf (code_of ix row) in
         let profit :=
           PrimFloat.mul (PrimFloat.sub (sale_price qty amt) (avg_buy_of before)) qty in
         exists pf' : portfolio,
           ledger_row ix (pf, total) row = Ok (pf', PrimFloat.add total profit)
           /\ realized_pl (position_at pf' (code_of ix row))
              = PrimFloat.add (realized_pl before) profit)
  /\ (forall price : str -> float,
         option_map
           (map (fun r => (row_code r, net_qty r, avg_buy r, row_realized_pl r)))
           (update_portfolio_summary price (sheet_headers :: buy_then_sell))
         = Some [(lit "2344", 60%float, 10%float, 200%float)]).
Proof.
  split; [|split; [|split]].
  - intros ix seen rest final code H. unfold aggregate in H.
    apply for_each_prefix in H. destruct H as ([pf total] & Hseen & _).
    exists pf, total. split; [exact Hseen|].
    destruct (aggregate_figures ix seen Hseen code) as (Hq & Ha & Hr).
    assert (Havg : avg_buy_of (position_at pf code) = average_buy_cost ix code seen).
    { unfold avg_buy_of, average_buy_cost. rewrite Hq, Ha. reflexivity. }
    split; [exact Hq|]. split; [exact Ha|]. split; [exact Havg|].
    split; [|split; [|exact Hr]].
    + intros Hg. rewrite Havg. unfold average_buy_cost. rewrite Hg. reflexivity.
    + intros Hz. rewrite Havg. unfold average_buy_cost.
      rewrite (eq0_not_gt0 Hz). reflexivity.
  - intros price pf r H. apply summary_row_of_position in H.
    destruct H as (d & Hg & Hn & Ha & Hr & _). exists d. auto.
  - exact sale_adds_profit.
  - intros price. vm_compute. reflexivity.
Qed.

Lemma average_cost_and_realized_profit_witness :
  exists (pf : portfolio) (total : float),
    aggregate default_columns (firstn 1 buy_then_sell) = Ok (pf, total)
    /\ buy_qty (position_at pf (lit "2344")) = 100%float
    /\ buy_amt (position_at pf (lit "2344")) = 1000%float
    /\ avg_buy_of (position_at pf (lit "2344")) = 10%float
    /\ realized_pl (position_at pf (lit "2344")) = 0%float.
Proof.
  destruct (proj1 average_cost_and_realized_profit default_columns
              (firstn 1 buy_then_sell) (skipn 1 buy_then_sell)
              ([(lit "2344",
                 {| name := lit "華邦電"; buy_qty := 100%float; buy_amt := 1000%float;
                    sell_qty := 40%float; sell_amt := 600%float;
                    realized_pl := 200%float |})], 200%float)
              (lit "2344"))
    as (pf & total & Hagg & Hq & Ha & _ & Havg & _ & Hr).
  - vm_compute. reflexivity.
  - exists pf, total. split; [exact Hagg|].
    split; [rewrite Hq; vm_compute; reflexivity|].
    split; [rewrite Ha; vm_compute; reflexivity|].
    split; [rewrite Havg by (vm_compute; reflexivity); vm_compute; reflexivity|].
    rewrite Hr. vm_compute. reflexivity.
Defined.

(** ** C3 *)

(** C3, at an input where the program departs from it.  After a purchase of
    10 and a sale of 20 at the same price the position of the code has net
    quantity -10, which is not zero, and realized profit 0; its price is
    fetched as that of a code to show, and the holdings table leaves it
    out. *)
Theorem oversold_position_is_left_out :
  forall price : str -> float,
    exists (pf : portfolio) (d : position),
      aggregate default_columns oversold = Ok (pf, 0%float)
      /\ get pf (lit "2344") = Some d
      /\ net_of d = (-10)%float
      /\ ne0 (net_of d) = true
      /\ realized_pl d = 0%float
      /\ codes_to_price pf = [lit "2344"]
      /\ update_portfolio_summary price (sheet_headers :: oversold) = Some [].
Proof.
  intros price. eexists. eexists.
  split; [vm_compute; reflexivity|].
  split; [vm_compute; reflexivity|].
  split; [vm_compute; reflexivity|].
  split; [vm_compute; reflexivity|].
  split; [vm_compute; reflexivity|].
  split; vm_compute; reflexivity.
Qed.

(** What does hold of the table: each of its lines has a net quantity or a
    realized profit that differs from zero. *)
Lemma shown_position_is_open_or_realized (price : str -> float) (pf : portfolio)
    (r : summary_row) :
  In r (summary_rows price pf) ->
  ne0 (net_qty r) = true \/ ne0 (row_realized_pl r) = true.
Proof.
  intros H. apply summary_row_of_position in H.
  destruct H as (d & _ & -> & _ & -> & Hshow).
  apply orb_prop in Hshow. destruct Hshow as [Hn | Hr]; [left | right; exact Hr].
  apply gt0_ne0. exact Hn.
Qed.

(** ** C9 *)

(** C9. The same three rows for one code, two purchases at 10 and at 20 and
    a sale at 15, give a realized profit of 500 when the sale comes between
    the purchases and of 0 when it comes last. *)
Theorem aggregation_is_order_sensitive :
  Permutation sale_between sale_last
  /\ exists (pf1 pf2 : portfolio) (d1 d2 : position),
       aggregate default_columns sale_between = Ok (pf1, 500%float)
       /\ aggregate default_columns sale_last = Ok (pf2, 0%float)
       /\ get pf1 (lit "2344") = Some d1
       /\ get pf2 (lit "2344") = Some d2
       /\ realized_pl d1 = 500%float
       /\ realized_pl d2 = 0%float
       /\ PrimFloat.eqb (realized_pl d1) (realized_pl d2) = false.
Proof.
  split.
  - unfold sale_between, sale_last. apply perm_skip. apply perm_swap.
  - do 4 eexists.
    split; [vm_compute; reflexivity|].
    split; [vm_compute; reflexivity|].
    split; [vm_compute; reflexivity|].
    split; [vm_compute; reflexivity|].
    split; [vm_compute; reflexivity|].
    split; vm_compute; reflexivity.
Qed.

(* ================================================================== *)
(** * Further properties of the extraction engine *)
(* ================================================================== *)

(** X1. The records of a report are the records of its rows, row by row: a
    table made of two tables one after the other gives the records of the
    first followed by the records of the second, whatever the subject. *)
Theorem report_of_appended_tables :
  forall (pydantic : bool) (now : datetime)
         (find_all_tr : str -> result (list (list str)))
         (subject body1 body2 body : str) (rows1 rows2 : list (list str)),
    find_all_tr body1 = Ok rows1 ->
    find_all_tr body2 = Ok rows2 ->
    find_all_tr body = Ok (rows1 ++ rows2) ->
    exists trades1 trades2 : list Trade,
      _parse_fubon_report pydantic now find_all_tr subject body1 = Ok trades1
      /\ _parse_fubon_report pydantic now find_all_tr subject body2 = Ok trades2
      /\ _parse_fubon_report pydantic now find_all_tr subject body
         = Ok (trades1 ++ trades2).
Proof.
  intros pydantic now find_all_tr subject body1 body2 body rows1 rows2 H1 H2 H.
  destruct (search pattern_date subject) as [m|] eqn:Hd.
  - rewrite (fubon_report_rows pydantic now find_all_tr subject body1 Hd H1).
    rewrite (fubon_report_rows pydantic now find_all_tr subject body2 Hd H2).
    rewrite (fubon_report_rows pydantic now find_all_tr subject body Hd H).
    do 2 eexists. split; [reflexivity|]. split; [reflexivity|].
    rewrite filter_app, map_app. reflexivity.
  - exists [], []. unfold _parse_fubon_report. rewrite Hd. simpl. auto.
Qed.

Lemma report_of_appended_tables_witness :
  exists trades1 trades2 : list Trade,
    _parse_fubon_report true a_moment
      (fun b => Ok (match b with [] => firstn 2 report_table
                               | [_] => skipn 2 report_table
                               | _ => report_table end))
      report_subject [] = Ok trades1
    /\ _parse_fubon_report true a_moment
      (fun b => Ok (match b with [] => firstn 2 report_table
                               | [_] => skipn 2 report_table
                               | _ => report_table end))
      report_subject [0%N] = Ok trades2
    /\ _parse_fubon_report true a_moment
      (fun b => Ok (match b with [] => firstn 2 report_table
                               | [_] => skipn 2 report_table
                               | _ => report_table end))
      report_subject [0%N; 0%N] = Ok (trades1 ++ trades2).
Proof.
  apply (@report_of_appended_tables true a_moment
           (fun b => Ok (match b with [] => firstn 2 report_table
                                    | [_] => skipn 2 report_table
                                    | _ => report_table end))
           report_subject [] [0%N] [0%N; 0%N]
           (firstn 2 report_table) (skipn 2 report_table));
    reflexivity.
Defined.

(** X2. A message whose subject does not name the broker gives at most one
    record, and that record is stamped with the time of processing and the
    broker "Unknown", and has no stock name. *)
Theorem plain_mail_at_most_one_record :
  forall (pydantic : bool) (now : datetime)
         (find_all_tr : str -> result (list (list str)))
         (subject body : str),
    contains (lit "富邦證券") subject = false ->
    exists trades : list Trade,
      parse pydantic now find_all_tr subject body = Ok trades
      /\ List.length trades <= 1
      /\ forall t, In t trades ->
           date t = now /\ broker t = Some (lit "Unknown") /\ stock_name t = None.
Proof.
  intros pydantic now find_all_tr subject body Hm.
  unfold parse. rewrite Hm. rewrite _parse_regex_spec. cbn [bind].
  eexists. split; [reflexivity|].
  destruct (located body) as [[[[sy sd] q0] p0]|]; [|split; [simpl; lia | intros t []]].
  destruct (parsed_numbers q0 p0) as [[q p]|]; [|split; [simpl; lia | intros t []]].
  destruct (pydantic && negb (gt0 q && gt0 p)); [split; [simpl; lia | intros t []]|].
  split; [simpl; lia|].
  intros t [<- | []]. cbn [date broker stock_name record_of_fields]. auto.
Qed.

Lemma plain_mail_at_most_one_record_witness :
  exists trades : list Trade,
    parse true a_moment (fun _ => Ok report_table) (lit "Trade Confirmation") plain_mail
    = Ok trades
    /\ List.length trades <= 1
    /\ forall t, In t trades ->
         date t = a_moment /\ broker t = Some (lit "Unknown") /\ stock_name t = None.
Proof.
  apply (@plain_mail_at_most_one_record true a_moment (fun _ => Ok report_table)
           (lit "Trade Confirmation") plain_mail).
  vm_compute; reflexivity.
Defined.

(** X3. A report whose body the HTML parser cannot read, or whose rows all
    have fewer than seven cells, gives no record, even with a dated
    subject. *)
Theorem unreadable_or_narrow_table_gives_nothing :
  forall (pydantic : bool) (now : datetime)
         (find_all_tr : str -> result (list (list str)))
         (subject body : str),
    (exists e, find_all_tr body = Raise e)
    \/ (exists rows, find_all_tr body = Ok rows
                     /\ Forall (fun cols => List.length cols < 7) rows) ->
    _parse_fubon_report pydantic now find_all_tr subject body = Ok [].
Proof.
  intros pydantic now find_all_tr subject body H.
  destruct (search pattern_date subject) as [m|] eqn:Hd.
  2:{ unfold _parse_fubon_report. rewrite Hd. reflexivity. }
  destruct H as [[e He] | (rows & Hr & Hall)].
  - unfold _parse_fubon_report. rewrite Hd, He. reflexivity.
  - rewrite (fubon_report_rows pydantic now find_all_tr subject body Hd Hr).
    f_equal. clear Hr.
    induction Hall as [|cols rows Hc _ IH]; [reflexivity|].
    simpl. unfold valid_row at 1, invalid_row, too_short.
    apply Nat.ltb_lt in Hc. rewrite Hc. simpl. exact IH.
Qed.

Lemma unreadable_or_narrow_table_gives_nothing_witness :
  _parse_fubon_report true a_moment (fun _ => Ok [[lit "小計"; lit "50"]])
    report_subject (lit "<table>") = Ok [].
Proof.
  apply (@unreadable_or_narrow_table_gives_nothing true a_moment
           (fun _ => Ok [[lit "小計"; lit "50"]]) report_subject (lit "<table>")).
  right. exists [[lit "小計"; lit "50"]]. split; [reflexivity|].
  repeat constructor.
Defined.

(** ** Greedy repetition before a continuation that cannot fail *)

Lemma take_drop_while (p : char -> bool) (s : str) :
  take_while p s ++ drop_while p s = s.
Proof.
  induction s as [|c s IH]; simpl; [reflexivity|].
  destruct (p c); simpl; [rewrite IH|]; reflexivity.
Qed.

Lemma firstn_take_while (p : char -> bool) (s : str) :
  firstn (List.length (take_while p s)) s = take_while p s.
Proof.
  induction s as [|c s IH]; simpl; [reflexivity|].
  destruct (p c); simpl; [rewrite IH|]; reflexivity.
Qed.

Lemma rep_star_total {R} (p : char -> bool) (k : nat -> str -> option R) :
  (forall i s, k i s <> None) ->
  forall (s : str) (i : nat),
    rep p 0 None i s k = k (i + List.length (take_while p s)) (drop_while p s).
Proof.
  intros Hk. induction s as [|c s IH]; intros i.
  - simpl. rewrite Nat.add_0_r. reflexivity.
  - cbn [rep take_while drop_while pred option_map].
    destruct (p c).
    + rewrite IH. cbn [List.length].
      replace (S i + List.length (take_while p s))
        with (i + S (List.length (take_while p s))) by lia.
      destruct (k (i + S (List.length (take_while p s))) (drop_while p s)) eqn:E;
        [reflexivity|]. exfalso. exact (Hk _ _ E).
    + simpl. rewrite Nat.add_0_r. reflexivity.
Qed.

Lemma rep_plus_total {R} (p : char -> bool) (k : nat -> str -> option R) :
  (forall i s, k i s <> None) ->
  forall (c : char) (s : str) (i : nat),
    p c = true ->
    rep p 1 None i (c :: s) k
    = k (i + List.length (take_while p (c :: s))) (drop_while p (c :: s)).
Proof.
  intros Hk c s i Hp.
  cbn [rep take_while drop_while pred option_map]. rewrite Hp.
  rewrite (rep_star_total p k Hk). cbn [List.length].
  replace (S i + List.length (take_while p s))
    with (i + S (List.length (take_while p s))) by lia.
  destruct (k (i + S (List.length (take_while p s))) (drop_while p s)) eqn:E;
    [reflexivity|]. exfalso. exact (Hk _ _ E).
Qed.

(** X4. The first cell of a row is split as follows: when it begins with a
    decimal digit, the symbol is its longest prefix of digits and the name is
    the rest of its first line, trimmed; otherwise the symbol is the whole
    cell and the name is empty. *)
Theorem code_and_name_is_leading_digits :
  forall first : str,
    code_and_name first
    = if starts_with_digit first
      then (take_while isdecimal first,
            strip (first_line (drop_while isdecimal first)))
      else (first, []).
Proof.
  intros first. unfold code_and_name, match_.
  change pattern_code_name
    with (Seq (Grp (Rep 1 None digit)) (Grp (Rep 0 None anychar))).
  cbn [run].
  destruct first as [|c s]; [reflexivity|].
  cbn [starts_with_digit].
  destruct (isdecimal c) eqn:Hc.
  - match goal with
    | |- context [rep digit 1 None 0 _ ?k] => set (k2 := k)
    end.
    assert (Hk2 : forall i t, k2 i t <> None).
    { intros i t. unfold k2. rewrite rep_star_total; [discriminate|].
      intros; discriminate. }
    rewrite (rep_plus_total digit k2 Hk2 c s 0 Hc).
    unfold k2. rewrite rep_star_total by (intros; discriminate).
    unfold accept, group. cbn [snd fst app nth pred].
    rewrite Nat.sub_0_r, Nat.add_0_l.
    rewrite (firstn_take_while digit (c :: s)).
    replace (List.length (take_while digit (c :: s))
             + List.length (take_while anychar (drop_while digit (c :: s)))
             - List.length (take_while digit (c :: s)))
      with (List.length (take_while anychar (drop_while digit (c :: s)))) by lia.
    rewrite firstn_take_while. reflexivity.
  - cbn [rep]. change (digit c) with (isdecimal c). rewrite Hc. reflexivity.
Qed.

(* ================================================================== *)
(** * Further properties of the aggregation *)
(* ================================================================== *)

(** ** The columns *)

Lemma position_of_absent (headers : list str) (nm : str) :
  ~ In nm headers -> position_of headers nm = None.
Proof.
  induction headers as [|h hs IH]; simpl; intros Hn; [reflexivity|].
  destruct (str_eqb h nm) eqn:E.
  - apply str_eqb_eq in E. exfalso. apply Hn. auto.
  - rewrite IH; [reflexivity|]. intros Hin. apply Hn. auto.
Qed.

Lemma position_of_first (before after : list str) (nm : str) :
  ~ In nm before ->
  position_of (before ++ nm :: after) nm = Some (List.length before).
Proof.
  induction before as [|h hs IH]; simpl; intros Hn.
  - rewrite str_eqb_refl. reflexivity.
  - destruct (str_eqb h nm) eqn:E.
    + apply str_eqb_eq in E. exfalso. apply Hn. auto.
    + rewrite IH; [reflexivity|]. intros Hin. apply Hn. auto.
Qed.

(** X5. [find_col] gives the column of the first of the possible names that
    is a header, at the first place where that header stands, and the
    default column when none of the names is a header. *)
Theorem find_col_first_known_name :
  forall (headers : list str) (default_idx : nat),
    (forall names : list str,
        Forall (fun nm => ~ In nm headers) names ->
        find_col headers names default_idx = default_idx)
    /\ (forall (unknown later : list str) (nm : str) (before after : list str),
           Forall (fun n => ~ In n headers) unknown ->
           headers = before ++ nm :: after ->
           ~ In nm before ->
           find_col headers (unknown ++ nm :: later) default_idx = List.length before
           /\ nth_error headers (List.length before) = Some nm).
Proof.
  intros headers default_idx. split.
  - induction 1 as [|n names Hn _ IH]; simpl; [reflexivity|].
    rewrite (position_of_absent _ _ Hn). exact IH.
  - intros unknown later nm before after Hun -> Hb. split.
    + induction Hun as [|n unknown Hn _ IH]; simpl.
      * rewrite (position_of_first _ _ _ Hb). reflexivity.
      * rewrite (position_of_absent _ _ Hn). exact IH.
    + rewrite nth_error_app2 by lia. rewrite Nat.sub_diag. reflexivity.
Qed.

Lemma find_col_first_known_name_witness :
  find_col (map lit ["Date"; "Symbol"; "Name"; "Side"; "Quantity"; "Price"; "Amount"]%string)
    [lit "Stock Code"; lit "Stock Symbol"; lit "Symbol"] 1 = 1
  /\ find_col (map lit ["Note"; "Side"; "Symbol"]%string)
       [lit "Stock Code"; lit "Stock Symbol"; lit "Symbol"] 1 = 2.
Proof.
  split.
  - apply (proj2 (find_col_first_known_name
                    (map lit ["Date"; "Symbol"; "Name"; "Side"; "Quantity"; "Price"; "Amount"]%string) 1)
             [lit "Stock Code"; lit "Stock Symbol"] [] (lit "Symbol")
             [lit "Date"] (map lit ["Name"; "Side"; "Quantity"; "Price"; "Amount"]%string)).
    + repeat constructor; vm_compute; intuition discriminate.
    + reflexivity.
    + vm_compute; intuition discriminate.
  - apply (proj2 (find_col_first_known_name (map lit ["Note"; "Side"; "Symbol"]%string) 1)
             [lit "Stock Code"; lit "Stock Symbol"] [] (lit "Symbol")
             (map lit ["Note"; "Side"]%string) []).
    + repeat constructor; vm_compute; intuition discriminate.
    + reflexivity.
    + vm_compute; intuition discriminate.
Defined.

(** ** Rows that are not accounted *)

(** X6. A row that lacks one of the code, action, quantity and amount
    columns, or whose quantity or amount is not a number, changes nothing:
    no position is made for its code, and the name of a position it names is
    not updated. *)
Theorem unreadable_row_changes_nothing :
  forall (ix : columns) (st : state) (row : list str),
    List.length row
      <= Nat.max (idx_code ix) (Nat.max (idx_action ix) (Nat.max (idx_qty ix) (idx_amt ix)))
    \/ (long_enough ix row = true /\ numbers_of ix row = None) ->
    ledger_row ix st row = Ok st.
Proof.
  intros ix [pf total] row [Hshort | [Hlong Hnum]].
  - unfold ledger_row. apply Nat.leb_le in Hshort. rewrite Hshort. reflexivity.
  - destruct (ledger_row_cases ix (pf, total) row)
      as [H | [[_ H] | (qty & amt & _ & H)]]; [exact H | congruence | congruence].
Qed.

Lemma unreadable_row_changes_nothing_witness :
  ledger_row default_columns ([], 0%float) (sheet_row "2344" "BUY" "n/a" "10" "1000")
  = Ok ([], 0%float).
Proof.
  apply (unreadable_row_changes_nothing default_columns ([], 0%float)
           (sheet_row "2344" "BUY" "n/a" "10" "1000")).
  right. split; vm_compute; reflexivity.
Defined.

Lemma ledger_row_without_name (ix : columns) (st : state) (row : list str) :
  Nat.max (idx_code ix) (Nat.max (idx_action ix) (Nat.max (idx_qty ix) (idx_amt ix)))
    < List.length row ->
  List.length row <= idx_name ix ->
  ledger_row ix st row = Raise IndexError.
Proof.
  intros Hmax Hname. destruct st as [pf total]. unfold ledger_row.
  destruct (Nat.leb (List.length row)
              (Nat.max (idx_code ix)
                 (Nat.max (idx_action ix) (Nat.max (idx_qty ix) (idx_amt ix))))) eqn:Hle.
  { apply Nat.leb_le in Hle. lia. }
  rewrite index_field by lia. cbn [bind].
  unfold index at 1.
  destruct (nth_error row (idx_name ix)) eqn:E; [|reflexivity].
  assert (Hsome : nth_error row (idx_name ix) <> None) by congruence.
  apply nth_error_Some in Hsome. lia.
Qed.

Lemma ledger_row_Ok_or_IndexError (ix : columns) (st : state) (row : list str) :
  (exists st', ledger_row ix st row = Ok st') \/ ledger_row ix st row = Raise IndexError.
Proof.
  destruct (ledger_row_cases ix st row) as [H | [[H _] | (qty & amt & Hl & Hn)]].
  - left. eauto.
  - right. exact H.
  - left. destruct st as [pf total].
    rewrite (ledger_row_accounted ix pf total row Hl Hn). eauto.
Qed.

Lemma for_each_ledger_Ok_or_IndexError (ix : columns) (rows : list (list str)) :
  forall st, (exists st', for_each (ledger_row ix) rows st = Ok st')
             \/ for_each (ledger_row ix) rows st = Raise IndexError.
Proof.
  induction rows as [|row rows IH]; intros st; simpl; [left; eauto|].
  destruct (ledger_row_Ok_or_IndexError ix st row) as [[st' H] | H]; rewrite H; simpl; auto.
Qed.

Lemma for_each_row_without_name (ix : columns) (before after : list (list str))
    (row : list str) :
  Nat.max (idx_code ix) (Nat.max (idx_action ix) (Nat.max (idx_qty ix) (idx_amt ix)))
    < List.length row ->
  List.length row <= idx_name ix ->
  forall st, for_each (ledger_row ix) (before ++ row :: after) st = Raise IndexError.
Proof.
  intros Hmax Hname.
  induction before as [|b before IH]; intros st; simpl.
  - rewrite (ledger_row_without_name ix st row Hmax Hname). reflexivity.
  - destruct (ledger_row_Ok_or_IndexError ix st b) as [[st' H] | H];
      rewrite H; simpl; auto.
Qed.

(** X7. The guard of the loop leaves the name column out: one row that
    reaches the code, action, quantity and amount columns and stops short of
    the name column raises [IndexError], and no holdings table is drawn,
    whatever the other rows hold. *)
Theorem row_without_name_column_aborts :
  forall (price : str -> float) (headers : list str)
         (before after : list (list str)) (row : list str),
    let ix := resolve_columns headers in
    Nat.max (idx_code ix) (Nat.max (idx_action ix) (Nat.max (idx_qty ix) (idx_amt ix)))
      < List.length row ->
    List.length row <= idx_name ix ->
    update_portfolio_summary price (headers :: before ++ row :: after) = None.
Proof.
  intros price headers before after row ix Hmax Hname.
  unfold update_portfolio_summary.
  destruct (before ++ row :: after) as [|r rs] eqn:E.
  { destruct before; discriminate. }
  rewrite <- E. unfold aggregate.
  rewrite (for_each_row_without_name (resolve_columns headers) before after row
             Hmax Hname).
  reflexivity.
Qed.

Lemma row_without_name_column_aborts_witness :
  update_portfolio_summary (fun _ => 0%float)
    (map lit ["Stock Code"; "Action"; "Shares"; "Total Amount"; "Stock Name"]%string
     :: [] ++ map lit ["2344"; "BUY"; "100"; "1000"]%string :: []) = None.
Proof.
  apply (row_without_name_column_aborts (fun _ => 0%float)
           (map lit ["Stock Code"; "Action"; "Shares"; "Total Amount"; "Stock Name"]%string)
           [] [] (map lit ["2344"; "BUY"; "100"; "1000"]%string)).
  - vm_compute. lia.
  - vm_compute. lia.
Defined.

(** ** Purchases *)

(** X8. A row accounted as a purchase adds its quantity and amount to the
    bought quantity and amount of its code, and leaves the sold quantity and
    amount, the realized profit of that code and the total of realized
    profit as they were. *)
Theorem purchase_adds_to_bought :
  forall (ix : columns) (pf : portfolio) (total : float)
         (row : list str) (qty amt : float),
    long_enough ix row = true ->
    numbers_of ix row = Some (qty, amt) ->
    is_buy (action_of ix row) = true ->
    let before := position_at pf (code_of ix row) in
    exists pf' : portfolio,
      ledger_row ix (pf, total) row = Ok (pf', total)
      /\ accumulators (position_at pf' (code_of ix row))
         = (PrimFloat.add (buy_qty before) qty, PrimFloat.add (buy_amt before) amt,
            sell_qty before, sell_amt before, realized_pl before).
Proof.
  intros ix pf total row qty amt Hlong Hnum Hbuy before.
  rewrite (ledger_row_accounted ix pf total row Hlong Hnum). cbv zeta.
  unfold apply_action. rewrite Hbuy.
  eexists. split; [reflexivity|].
  unfold position_at at 1. rewrite get_set_same.
  pose proof (accumulators_position_at pf (code_of ix row) (name_of ix row)) as Hacc.
  fold before in Hacc. unfold accumulators in Hacc |- *.
  cbn [buy_qty buy_amt sell_qty sell_amt realized_pl].
  inversion Hacc as [[H1 H2 H3 H4 H5]]. reflexivity.
Qed.

Lemma purchase_adds_to_bought_witness :
  exists pf' : portfolio,
    ledger_row default_columns ([], 0%float) buy_low = Ok (pf', 0%float)
    /\ accumulators (position_at pf' (lit "2344"))
       = (100%float, 1000%float, 0%float, 0%float, 0%float).
Proof.
  destruct (@purchase_adds_to_bought default_columns [] 0%float buy_low
              100%float 1000%float) as (pf' & H1 & H2).
  - vm_compute; reflexivity.
  - vm_compute; reflexivity.
  - vm_compute; reflexivity.
  - exists pf'. split; [exact H1|]. exact H2.
Defined.

(** ** The holdings table *)

Lemma In_insert_sorted (k x : str) (l : list str) :
  In x (insert_sorted k l) <-> x = k \/ In x l.
Proof.
  induction l as [|y l IH]; simpl.
  - intuition.
  - destruct (str_ltb y k); simpl; [rewrite IH|]; intuition.
Qed.

Lemma In_sorted (x : str) (l : list str) : In x (sorted l) <-> In x l.
Proof.
  induction l as [|y l IH]; simpl; [reflexivity|].
  rewrite In_insert_sorted, IH. intuition.
Qed.

Lemma get_Some_In_keys (pf : portfolio) (code : str) (d : position) :
  get pf code = Some d -> In code (keys pf).
Proof.
  induction pf as [|[c d0] pf IH]; simpl; [discriminate|].
  destruct (str_eqb c code) eqn:E.
  - apply str_eqb_eq in E. auto.
  - intros H. right. apply IH. exact H.
Qed.

(** X9. Every line of the holdings table shows the price fetched for its
    code: a code that is shown is among the codes whose price was asked
    for, so that the default price 0 never stands in for a missing
    request. *)
Theorem shown_rows_carry_fetched_price :
  forall (price : str -> float) (pf : portfolio) (r : summary_row),
    In r (summary_rows price pf) ->
    live_price r = price (row_code r)
    /\ In (row_code r) (codes_to_price pf).
Proof.
  intros price pf r H. unfold summary_rows in H. apply in_flat_map in H.
  destruct H as (code & Hcode & H).
  destruct (get pf code) as [d|] eqn:Hg; [|destruct H].
  destruct (gt0 (net_of d) || ne0 (realized_pl d)) eqn:Hshow; [|destruct H].
  destruct H as [<- | []]. cbn [row_code live_price].
  assert (Hin : In code (codes_to_price pf)).
  { unfold codes_to_price. apply filter_In. split.
    - eapply get_Some_In_keys. exact Hg.
    - rewrite Hg. apply orb_prop in Hshow. destruct Hshow as [Hn | Hr].
      + rewrite (gt0_ne0 Hn). reflexivity.
      + rewrite Hr. apply orb_true_r. }
  split; [|exact Hin].
  unfold price_of.
  replace (existsb (str_eqb code) (codes_to_price pf)) with true; [reflexivity|].
  symmetry. apply existsb_exists. exists code. split; [exact Hin | apply str_eqb_refl].
Qed.

Lemma shown_rows_carry_fetched_price_witness :
  exists pf r,
    aggregate default_columns buy_then_sell = Ok (pf, 200%float)
    /\ In r (summary_rows (fun _ => 123%float) pf)
    /\ live_price r = 123%float.
Proof.
  eexists. eexists.
  split; [vm_compute; reflexivity|].
  assert (Hin : In {| row_code := lit "2344"; row_name := lit "華邦電";
                      net_qty := 60%float; avg_buy := 10%float;
                      live_price := 123%float; row_realized_pl := 200%float |}
                   (summary_rows (fun _ => 123%float)
                      [(lit "2344",
                        {| name := lit "華邦電"; buy_qty := 100%float;
                           buy_amt := 1000%float; sell_qty := 40%float;
                           sell_amt := 600%float; realized_pl := 200%float |})])).
  { vm_compute. left. reflexivity. }
  split; [exact Hin|].
  exact (proj1 (shown_rows_carry_fetched_price _ _ _ Hin)).
Defined.

(** ** Codes do not interfere *)

(** How a row is treated depends on the row alone. *)
Lemma ledger_row_shape (ix : columns) (row : list str) :
  (forall st, ledger_row ix st row = Ok st)
  \/ (forall st, ledger_row ix st row = Raise IndexError)
  \/ (exists qty amt, long_enough ix row = true /\ numbers_of ix row = Some (qty, amt)).
Proof.
  destruct (Nat.leb (List.length row)
              (Nat.max (idx_code ix)
                 (Nat.max (idx_action ix) (Nat.max (idx_qty ix) (idx_amt ix))))) eqn:Hle.
  - left. intros st. apply unreadable_row_changes_nothing. left.
    apply Nat.leb_le. exact Hle.
  - apply Nat.leb_gt in Hle.
    destruct (Nat.ltb (idx_name ix) (List.length row)) eqn:Hn.
    + assert (Hlong : long_enough ix row = true).
      { unfold long_enough. rewrite Hn.
        apply andb_true_intro. split; [apply Nat.ltb_lt; exact Hle | reflexivity]. }
      destruct (numbers_of ix row) as [[qty amt]|] eqn:Hnum.
      * right. right. eauto.
      * left. intros st. apply unreadable_row_changes_nothing. right. auto.
    + right. left. intros st. apply ledger_row_without_name; [exact Hle|].
      apply Nat.ltb_ge. exact Hn.
Qed.

Lemma ledger_row_other_code (ix : columns) (pf pf' : portfolio) (t t' : float)
    (row : list str) (c : str) :
  ledger_row ix (pf, t) row = Ok (pf', t') ->
  code_of ix row <> c ->
  get pf' c = get pf c.
Proof.
  intros H Hne.
  destruct (ledger_row_shape ix row) as [Hs | [Hs | (qty & amt & Hl & Hn)]].
  - rewrite Hs in H. inversion H; subst. reflexivity.
  - rewrite Hs in H. discriminate.
  - rewrite (ledger_row_accounted ix pf t row Hl Hn) in H. cbv zeta in H.
    destruct (apply_action (action_of ix row) qty amt
                (with_name (name_of ix row)
                   match get pf (code_of ix row) with
                   | Some d => d
                   | None => fresh (name_of ix row)
                   end)) as [d profit].
    inversion H; subst. apply get_set_other. exact Hne.
Qed.

Lemma ledger_row_same_code (ix : columns) (pf1 pf2 pf1' : portfolio)
    (t1 t2 t1' : float) (row : list str) :
  get pf1 (code_of ix row) = get pf2 (code_of ix row) ->
  ledger_row ix (pf1, t1) row = Ok (pf1', t1') ->
  exists pf2' t2',
    ledger_row ix (pf2, t2) row = Ok (pf2', t2')
    /\ get pf1' (code_of ix row) = get pf2' (code_of ix row).
Proof.
  intros Hg H.
  destruct (ledger_row_shape ix row) as [Hs | [Hs | (qty & amt & Hl & Hn)]].
  - rewrite Hs in H. inversion H; subst. exists pf2, t2. rewrite Hs. auto.
  - rewrite Hs in H. discriminate.
  - rewrite (ledger_row_accounted ix pf1 t1 row Hl Hn) in H.
    rewrite (ledger_row_accounted ix pf2 t2 row Hl Hn).
    cbv zeta in H |- *. rewrite <- Hg.
    destruct (apply_action (action_of ix row) qty amt
                (with_name (name_of ix row)
                   match get pf1 (code_of ix row) with
                   | Some d => d
                   | None => fresh (name_of ix row)
                   end)) as [d profit].
    inversion H; subst. do 2 eexists. split; [reflexivity|].
    rewrite !get_set_same. reflexivity.
Qed.

Lemma for_each_ledger_per_code (ix : columns) (c : str) (rows : list (list str)) :
  forall (pf1 pf2 pf1' : portfolio) (t1 t2 t1' : float),
    get pf1 c = get pf2 c ->
    for_each (ledger_row ix) rows (pf1, t1) = Ok (pf1', t1') ->
    exists pf2' t2',
      for_each (ledger_row ix)
        (filter (fun row => str_eqb (code_of ix row) c) rows) (pf2, t2)
      = Ok (pf2', t2')
      /\ get pf1' c = get pf2' c.
Proof.
  induction rows as [|row rows IH]; intros pf1 pf2 pf1' t1 t2 t1' Hg H;
    cbn [for_each filter] in H |- *.
  - inversion H; subst. eauto.
  - destruct (ledger_row ix (pf1, t1) row) as [[pfa ta]|e] eqn:Hrow;
      cbn [bind] in H; [|discriminate].
    destruct (str_eqb (code_of ix row) c) eqn:E.
    + apply str_eqb_eq in E. subst c.
      destruct (ledger_row_same_code ix pf1 pf2 t1 t2 row Hg Hrow)
        as (pfb & tb & Hrow2 & Hg').
      cbn [for_each]. rewrite Hrow2. cbn [bind].
      eapply IH; eassumption.
    + assert (Hne : code_of ix row <> c).
      { intros Heq. rewrite Heq, str_eqb_refl in E. discriminate. }
      pose proof (ledger_row_other_code ix pf1 t1 row Hrow Hne) as Hsame.
      eapply IH; [|eassumption]. congruence.
Qed.

(** X10. The position of a code at the end of the aggregation is the one
    the rows of that code alone would give: rows of other codes, wherever
    they stand, do not change it. *)
Theorem position_depends_on_own_rows :
  forall (ix : columns) (rows : list (list str)) (pf : portfolio) (total : float)
         (c : str),
    aggregate ix rows = Ok (pf, total) ->
    exists (pf' : portfolio) (total' : float),
      aggregate ix (filter (fun row => str_eqb (code_of ix row) c) rows)
      = Ok (pf', total')
      /\ get pf' c = get pf c.
Proof.
  intros ix rows pf total c H. unfold aggregate in *.
  destruct (for_each_ledger_per_code ix c rows [] [] zero zero eq_refl H)
    as (pf' & t' & H' & Hg).
  exists pf', t'. split; [exact H' | symmetry; exact Hg].
Qed.

Lemma position_depends_on_own_rows_witness :
  exists (pf' : portfolio) (total' : float),
    aggregate default_columns
      (filter (fun row => str_eqb (code_of default_columns row) (lit "2344"))
         (sheet_row "1101" "BUY" "5" "40" "200" :: buy_then_sell))
    = Ok (pf', total')
    /\ get pf' (lit "2344")
       = Some {| name := lit "華邦電"; buy_qty := 100%float; buy_amt := 1000%float;
                 sell_qty := 40%float; sell_amt := 600%float;
                 realized_pl := 200%float |}.
Proof.
  destruct (@position_depends_on_own_rows default_columns
              (sheet_row "1101" "BUY" "5" "40" "200" :: buy_then_sell)
              [(lit "1101", {| name := lit "華邦電"; buy_qty := 5%float;
                               buy_amt := 200%float; sell_qty := 0%float;
                               sell_amt := 0%float; realized_pl := 0%float |});
               (lit "2344", {| name := lit "華邦電"; buy_qty := 100%float;
                               buy_amt := 1000%float; sell_qty := 40%float;
                               sell_amt := 600%float; realized_pl := 200%float |})]
              200%float (lit "2344"))
    as (pf' & total' & H & Hg).
  - vm_compute; reflexivity.
  - exists pf', total'. split; [exact H|]. rewrite Hg. vm_compute. reflexivity.
Defined.

(** ** The order of the holdings table *)

Lemma str_ltb_trans (a : str) :
  forall b c, str_ltb a b = true -> str_ltb b c = true -> str_ltb a c = true.
Proof.
  induction a as [|x a IH]; intros [|y b] [|z c]; simpl; intros H1 H2;
    try discriminate; try reflexivity.
  destruct (N.ltb_spec x y), (N.ltb_spec y z), (N.ltb_spec x z),
           (N.eqb_spec x y), (N.eqb_spec y z), (N.eqb_spec x z);
    simpl in *; try discriminate; try reflexivity; try lia.
  eapply IH; eassumption.
Qed.

Lemma str_ltb_connex (a : str) :
  forall b, str_ltb a b = false -> a <> b -> str_ltb b a = true.
Proof.
  induction a as [|x a IH]; intros [|y b]; simpl; intros H Hne;
    try discriminate; try reflexivity; try congruence.
  destruct (N.ltb_spec x y), (N.ltb_spec y x), (N.eqb_spec x y), (N.eqb_spec y x);
    simpl in *; try discriminate; try reflexivity; try lia.
  apply IH; [exact H|]. intros ->. apply Hne. subst. reflexivity.
Qed.

Lemma insert_sorted_sorted (k : str) (l : list str) :
  StronglySorted code_lt l -> ~ In k l -> StronglySorted code_lt (insert_sorted k l).
Proof.
  induction 1 as [|x l Hs IH Hall]; intros Hn; simpl.
  - constructor; constructor.
  - destruct (str_ltb x k) eqn:E.
    + constructor.
      * apply IH. intros Hin. apply Hn. right. exact Hin.
      * apply Forall_forall. intros y Hy. apply In_insert_sorted in Hy.
        destruct Hy as [-> | Hy]; [exact E|].
        rewrite Forall_forall in Hall. apply Hall. exact Hy.
    + assert (Hkx : code_lt k x).
      { apply str_ltb_connex; [exact E|]. intros ->. apply Hn. left. reflexivity. }
      constructor; [constructor; assumption|].
      constructor; [exact Hkx|].
      apply Forall_forall. intros y Hy. rewrite Forall_forall in Hall.
      eapply str_ltb_trans; [exact Hkx | apply Hall; exact Hy].
Qed.

Lemma sorted_sorted (l : list str) : NoDup l -> StronglySorted code_lt (sorted l).
Proof.
  induction 1 as [|x l Hn _ IH]; simpl; [constructor|].
  apply insert_sorted_sorted; [exact IH|].
  rewrite In_sorted. exact Hn.
Qed.

Lemma keys_set (pf : portfolio) (code : str) (d : position) :
  keys (set pf code d) = if existsb (str_eqb code) (keys pf)
                         then keys pf else keys pf ++ [code].
Proof.
  unfold keys.
  induction pf as [|[c d0] pf IH]; simpl; [reflexivity|].
  destruct (str_eqb c code) eqn:E.
  - apply str_eqb_eq in E. subst c. rewrite str_eqb_refl. reflexivity.
  - assert (E' : str_eqb code c = false).
    { destruct (str_eqb code c) eqn:E'; [|reflexivity].
      apply str_eqb_eq in E'. subst. rewrite str_eqb_refl in E. discriminate. }
    rewrite E'. simpl. rewrite IH.
    destruct (existsb (str_eqb code) (map fst pf)); reflexivity.
Qed.

Lemma NoDup_keys_set (pf : portfolio) (code : str) (d : position) :
  NoDup (keys pf) -> NoDup (keys (set pf code d)).
Proof.
  intros H. rewrite keys_set.
  destruct (existsb (str_eqb code) (keys pf)) eqn:E; [exact H|].
  apply NoDup_app; [exact H | constructor; [intros [] | constructor] |].
  intros x Hx [Heq | []]. subst x.
  assert (existsb (str_eqb code) (keys pf) = true).
  { apply existsb_exists. exists code. split; [exact Hx | apply str_eqb_refl]. }
  congruence.
Qed.

Lemma ledger_row_NoDup (ix : columns) (pf pf' : portfolio) (t t' : float)
    (row : list str) :
  ledger_row ix (pf, t) row = Ok (pf', t') -> NoDup (keys pf) -> NoDup (keys pf').
Proof.
  intros H Hnd.
  destruct (ledger_row_shape ix row) as [Hs | [Hs | (qty & amt & Hl & Hn)]].
  - rewrite Hs in H. inversion H; subst. exact Hnd.
  - rewrite Hs in H. discriminate.
  - rewrite (ledger_row_accounted ix pf t row Hl Hn) in H. cbv zeta in H.
    destruct (apply_action (action_of ix row) qty amt
                (with_name (name_of ix row)
                   match get pf (code_of ix row) with
                   | Some d => d
                   | None => fresh (name_of ix row)
                   end)) as [d profit].
    inversion H; subst. apply NoDup_keys_set. exact Hnd.
Qed.

Lemma for_each_ledger_NoDup (ix : columns) (rows : list (list str)) :
  forall pf t pf' t',
    for_each (ledger_row ix) rows (pf, t) = Ok (pf', t') ->
    NoDup (keys pf) -> NoDup (keys pf').
Proof.
  induction rows as [|row rows IH]; intros pf t pf' t' H Hnd; cbn [for_each] in H.
  - inversion H; subst. exact Hnd.
  - destruct (ledger_row ix (pf, t) row) as [[pfa ta]|e] eqn:Hrow;
      cbn [bind] in H; [|discriminate].
    eapply IH; [exact H|]. eapply ledger_row_NoDup; eassumption.
Qed.

Lemma StronglySorted_filter (f : str -> bool) (l : list str) :
  StronglySorted code_lt l -> StronglySorted code_lt (filter f l).
Proof.
  induction 1 as [|x l Hs IH Hall]; simpl; [constructor|].
  destruct (f x); [|exact IH].
  constructor; [exact IH|].
  apply Forall_forall. intros y Hy. apply filter_In in Hy.
  rewrite Forall_forall in Hall. apply Hall. apply Hy.
Qed.

Lemma summary_codes (price : str -> float) (pf : portfolio) (ks : list str) :
  map row_code
    (flat_map
       (fun code =>
          match get pf code with
          | None => []
          | Some d =>
            if gt0 (net_of d) || ne0 (realized_pl d)
            then [ {| row_code := code; row_name := name d; net_qty := net_of d;
                      avg_buy := avg_buy_of d;
                      live_price := price_of price (codes_to_price pf) code;
                      row_realized_pl := realized_pl d |} ]
            else []
          end) ks)
  = filter (fun code => match get pf code with
                        | Some d => gt0 (net_of d) || ne0 (realized_pl d)
                        | None => false
                        end) ks.
Proof.
  induction ks as [|k ks IH]; simpl; [reflexivity|].
  rewrite map_app, IH.
  destruct (get pf k) as [d|]; [|reflexivity].
  destruct (gt0 (net_of d) || ne0 (realized_pl d)); reflexivity.
Qed.

(** X11. The holdings table lists its codes in strictly increasing order of
    their characters: no code stands twice in it. *)
Theorem holdings_table_in_code_order :
  forall (price : str -> float) (ix : columns) (rows : list (list str))
         (pf : portfolio) (total : float),
    aggregate ix rows = Ok (pf, total) ->
    StronglySorted (fun a b => str_ltb a b = true)
      (map row_code (summary_rows price pf)).
Proof.
  intros price ix rows pf total H. unfold aggregate in H.
  assert (Hnd : NoDup (keys pf)).
  { eapply for_each_ledger_NoDup; [exact H | constructor]. }
  unfold summary_rows. rewrite summary_codes.
  apply StronglySorted_filter. apply sorted_sorted. exact Hnd.
Qed.

Lemma holdings_table_in_code_order_witness :
  StronglySorted (fun a b => str_ltb a b = true)
    (map row_code
       (summary_rows (fun _ => 0%float)
          [(lit "2344", {| name := lit "華邦電"; buy_qty := 100%float;
                           buy_amt := 1000%float; sell_qty := 0%float;
                           sell_amt := 0%float; realized_pl := 0%float |});
           (lit "1101", {| name := lit "華邦電"; buy_qty := 5%float;
                           buy_amt := 200%float; sell_qty := 0%float;
                           sell_amt := 0%float; realized_pl := 0%float |})])).
Proof.
  apply (@holdings_table_in_code_order (fun _ => 0%float) default_columns
           [buy_low; sheet_row "1101" "BUY" "5" "40" "200"] _ 0%float).
  vm_compute; reflexivity.
Defined.

(* ================================================================== *)
(** * Properties of the writes to the sheet *)
(* ================================================================== *)

Lemma mem_set_add_same (x : str) (s : list str) : mem x (set_add x s) = true.
Proof.
  unfold set_add. destruct (mem x s) eqn:E; [exact E|].
  unfold mem. rewrite existsb_app. simpl. rewrite str_eqb_refl.
  rewrite orb_true_r. reflexivity.
Qed.

Lemma mem_set_add_mono (x y : str) (s : list str) :
  mem x s = true -> mem x (set_add y s) = true.
Proof.
  intros H. unfold set_add. destruct (mem y s); [exact H|].
  unfold mem in *. rewrite existsb_app, H. reflexivity.
Qed.

Section SheetFacts.
Variable strftime : datetime -> str.
Variable shown : float -> str.

Lemma is_duplicate_remember (ids : list str) (t : Trade) :
  has_order_id t = true -> is_duplicate (remember ids t) t = true.
Proof.
  intros H. unfold is_duplicate, remember. rewrite H. simpl.
  apply mem_set_add_same.
Qed.

Lemma is_duplicate_mono (ids : list str) (t u : Trade) :
  is_duplicate ids t = true -> is_duplicate (remember ids u) t = true.
Proof.
  unfold is_duplicate, remember. intros H.
  apply andb_prop in H. destruct H as [H1 H2]. rewrite H1. simpl.
  destruct (has_order_id u); [apply mem_set_add_mono|]; exact H2.
Qed.

(** X12. Once [append_trade] has returned for a trade with an order
    identifier, whether it wrote the row or refused it, the same trade is
    refused from then on: the call returns [False], sends nothing to the
    service and leaves the ledger as it is. *)
Theorem append_trade_refuses_repeat :
  forall (st st1 : ledger) (t : Trade) (b : bool),
    has_order_id t = true ->
    append_trade strftime shown st t = (st1, Ok b) ->
    append_trade strftime shown st1 t = (st1, Ok false).
Proof.
  intros st st1 t b Hid H. unfold append_trade in H.
  destruct (is_duplicate (existing_order_ids st) t) eqn:Hd.
  - inversion H; subst. unfold append_trade. rewrite Hd. reflexivity.
  - unfold request in H.
    destruct (faults st) as [|[e|] rest]; cbn in H; inversion H; subst; clear H;
      unfold append_trade; cbn [existing_order_ids];
      rewrite (is_duplicate_remember _ t Hid); reflexivity.
Qed.

Lemma append_trade_without_id (st : ledger) (t : Trade) :
  has_order_id t = false ->
  faults st = [] ->
  append_trade strftime shown st t
  = ({| cells := cells st ++ [map (shown_value shown) (row_of strftime t)];
        faults := [];
        existing_order_ids := existing_order_ids st |}, Ok true).
Proof.
  intros Hid Hf. unfold append_trade, is_duplicate. rewrite Hid. cbn [andb].
  unfold request. rewrite Hf. unfold append_row.
  cbn [cells faults existing_order_ids tl]. unfold remember. rewrite Hid.
  reflexivity.
Qed.

(** X13. A trade without an order identifier is never taken for a
    duplicate: while the service answers, each call of [append_trade] writes
    its row again and returns [True], and the cache stays as it is. *)
Theorem trade_without_id_is_written_each_time :
  forall (st : ledger) (t : Trade),
    has_order_id t = false ->
    faults st = [] ->
    append_each strftime shown st [t; t]
    = ({| cells := cells st ++ [map (shown_value shown) (row_of strftime t);
                                map (shown_value shown) (row_of strftime t)];
          faults := [];
          existing_order_ids := existing_order_ids st |},
       Ok [true; true]).
Proof.
  intros st t Hid Hf. cbn [append_each].
  rewrite (@append_trade_without_id st t Hid Hf).
  rewrite append_trade_without_id by (exact Hid || reflexivity).
  cbn [cells existing_order_ids]. rewrite <- app_assoc. reflexivity.
Qed.

(** X14. When the service fails on the row of a trade, [append_trade] raises
    the exception of the service and has written and cached nothing, so that
    the next call for the same trade, if the service answers, writes the
    row. *)
Theorem failed_append_can_be_retried :
  forall (st : ledger) (t : Trade) (e : exn) (rest : list (option exn)),
    is_duplicate (existing_order_ids st) t = false ->
    faults st = Some e :: None :: rest ->
    exists st1,
      append_trade strftime shown st t = (st1, Raise e)
      /\ cells st1 = cells st
      /\ existing_order_ids st1 = existing_order_ids st
      /\ append_trade strftime shown st1 t
         = ({| cells := cells st ++ [map (shown_value shown) (row_of strftime t)];
               faults := rest;
               existing_order_ids := remember (existing_order_ids st) t |},
            Ok true).
Proof.
  intros st t e rest Hd Hf. unfold append_trade, request. rewrite Hd, Hf.
  eexists. split; [reflexivity|]. cbn. rewrite Hd. auto.
Qed.

(** The loop of [batch_append_trades] and calls of [append_trade] one after
    the other come to the same rows and the same cache. *)
Lemma append_each_batch (trades : list Trade) :
  forall (c : list (list str)) (rows : list (list value)) (ids : list str),
    exists bs,
      append_each strftime shown
        {| cells := c ++ map (map (shown_value shown)) rows; faults := [];
           existing_order_ids := ids |} trades
      = ({| cells := c ++ map (map (shown_value shown))
                           (fst (fold_left (batch_step strftime) trades (rows, ids)));
            faults := [];
            existing_order_ids :=
              snd (fold_left (batch_step strftime) trades (rows, ids)) |},
         Ok bs)
      /\ List.length (fst (fold_left (batch_step strftime) trades (rows, ids)))
         = List.length rows + List.length (filter (fun b => b) bs).
Proof.
  induction trades as [|t trades IH]; intros c rows ids.
  - exists []. simpl. split; [reflexivity | lia].
  - cbn [append_each fold_left]. unfold append_trade, batch_step at 2 4 6.
    cbn [existing_order_ids].
    destruct (is_duplicate ids t) eqn:Hd.
    + destruct (IH c rows ids) as (bs & Hbs & Hlen). rewrite Hbs.
      exists (false :: bs). split; [reflexivity | simpl; exact Hlen].
    + unfold request. cbn [faults cells existing_order_ids append_row tl].
      replace ((c ++ map (map (shown_value shown)) rows)
               ++ [map (shown_value shown) (row_of strftime t)])
        with (c ++ map (map (shown_value shown)) (rows ++ [row_of strftime t]))
        by (rewrite map_app, app_assoc; reflexivity).
      destruct (IH c (rows ++ [row_of strftime t]) (remember ids t))
        as (bs & Hbs & Hlen).
      rewrite Hbs. exists (true :: bs). split; [reflexivity|].
      rewrite Hlen, length_app. simpl. lia.
Qed.

(** X15. While the service answers, [batch_append_trades] leaves the sheet
    and the cache as calls of [append_trade] for the same trades, one after
    the other, leave them, and returns the number of those calls that
    return [True]. *)
Theorem batch_is_append_one_by_one :
  forall (st : ledger) (trades : list Trade),
    faults st = [] ->
    exists (st' : ledger) (bs : list bool),
      append_each strftime shown st trades = (st', Ok bs)
      /\ batch_append_trades strftime shown st trades
         = (st', Ok (List.length (filter (fun b => b) bs))).
Proof.
  intros [c f ids] trades Hf. simpl in Hf. subst f.
  destruct (append_each_batch trades c [] ids) as (bs & Hbs & Hlen).
  cbn [map] in Hbs. rewrite app_nil_r in Hbs.
  eexists. exists bs. split; [exact Hbs|].
  unfold batch_append_trades. cbn [cells faults existing_order_ids].
  destruct (fold_left (batch_step strftime) trades ([], ids)) as [rows ids'] eqn:Hfold.
  cbn [fst snd] in Hlen |- *.
  destruct rows as [|r rows].
  - simpl in Hlen. rewrite <- Hlen. cbn [map]. rewrite app_nil_r. reflexivity.
  - unfold request, append_rows. cbn [faults cells existing_order_ids tl].
    rewrite Hlen. reflexivity.
Qed.

Lemma batch_step_all_duplicates (trades : list Trade) :
  forall (rows : list (list value)) (ids : list str),
    Forall (fun t => is_duplicate ids t = true) trades ->
    fold_left (batch_step strftime) trades (rows, ids) = (rows, ids).
Proof.
  induction trades as [|t trades IH]; intros rows ids H; [reflexivity|].
  inversion H; subst. cbn [fold_left]. unfold batch_step at 2.
  rewrite H2. apply IH. assumption.
Qed.

Lemma batch_step_ids (trades : list Trade) :
  forall (rows : list (list value)) (ids : list str),
    Forall (fun t => has_order_id t = true) trades ->
    (forall u, is_duplicate ids u = true ->
               is_duplicate (snd (fold_left (batch_step strftime) trades (rows, ids))) u = true)
    /\ Forall (fun t => is_duplicate
                          (snd (fold_left (batch_step strftime) trades (rows, ids))) t = true)
              trades.
Proof.
  induction trades as [|t trades IH]; intros rows ids H.
  - split; [auto | constructor].
  - inversion H as [|? ? Hid Hrest]; subst. cbn [fold_left]. unfold batch_step at 2 4.
    destruct (is_duplicate ids t) eqn:Hd.
    + destruct (IH rows ids Hrest) as [Hmono Hall].
      split; [exact Hmono|]. constructor; [apply Hmono; exact Hd | exact Hall].
    + destruct (IH (rows ++ [row_of strftime t]) (remember ids t) Hrest)
        as [Hmono Hall].
      split.
      * intros u Hu. apply Hmono. apply is_duplicate_mono. exact Hu.
      * constructor; [|exact Hall]. apply Hmono. apply is_duplicate_remember. exact Hid.
Qed.

(** X16. [batch_append_trades] caches the order identifiers before it sends
    the rows: when the service fails, the exception is raised, the sheet is
    as it was, and the trades of the batch are duplicates from then on, so
    that the same batch sent again writes nothing and returns 0. *)
Theorem failed_batch_is_not_retried :
  forall (st st1 : ledger) (trades : list Trade) (e : exn),
    Forall (fun t => has_order_id t = true) trades ->
    batch_append_trades strftime shown st trades = (st1, Raise e) ->
    cells st1 = cells st
    /\ batch_append_trades strftime shown st1 trades = (st1, Ok 0).
Proof.
  intros st st1 trades e Hids H. unfold batch_append_trades in H.
  destruct (@batch_step_ids trades [] (existing_order_ids st) Hids) as [_ Hall].
  destruct (fold_left (batch_step strftime) trades ([], existing_order_ids st))
    as [rows ids'] eqn:Hfold.
  cbn [snd] in Hall.
  destruct rows as [|r rows]; [discriminate|].
  unfold request in H. cbn [faults cells existing_order_ids] in H.
  destruct (faults st) as [|[e'|] rest]; cbn in H; inversion H; subst; clear H.
  cbn [cells]. split; [reflexivity|].
  unfold batch_append_trades. cbn [existing_order_ids cells faults].
  rewrite (@batch_step_all_duplicates trades [] ids' Hall). reflexivity.
Qed.

End SheetFacts.

Lemma report_trade_has_id : has_order_id report_trade = true.
Proof. reflexivity. Qed.

Lemma append_trade_refuses_repeat_witness :
  exists st1,
    append_trade stamp plainly fresh_sheet report_trade = (st1, Ok true)
    /\ append_trade stamp plainly st1 report_trade = (st1, Ok false).
Proof.
  eexists. split; [vm_compute; reflexivity|].
  apply (@append_trade_refuses_repeat stamp plainly fresh_sheet _ report_trade true
           report_trade_has_id).
  vm_compute; reflexivity.
Defined.

Lemma trade_without_id_is_written_each_time_witness :
  exists st2,
    append_each stamp plainly fresh_sheet [anonymous_trade; anonymous_trade]
    = (st2, Ok [true; true])
    /\ List.length (cells st2) = 3.
Proof.
  eexists. split.
  - apply (@trade_without_id_is_written_each_time stamp plainly fresh_sheet
             anonymous_trade); reflexivity.
  - reflexivity.
Defined.

Lemma failed_append_can_be_retried_witness :
  exists st1,
    append_trade stamp plainly flaky_sheet report_trade = (st1, Raise OtherException)
    /\ cells st1 = cells flaky_sheet
    /\ existing_order_ids st1 = existing_order_ids flaky_sheet
    /\ append_trade stamp plainly st1 report_trade
       = ({| cells := cells flaky_sheet
                      ++ [map (shown_value plainly) (row_of stamp report_trade)];
             faults := [];
             existing_order_ids := remember (existing_order_ids flaky_sheet) report_trade |},
          Ok true).
Proof.
  apply (@failed_append_can_be_retried stamp plainly flaky_sheet report_trade
           OtherException []); reflexivity.
Defined.

Lemma batch_is_append_one_by_one_witness :
  exists (st' : ledger) (bs : list bool),
    append_each stamp plainly fresh_sheet [report_trade; other_trade; report_trade]
    = (st', Ok bs)
    /\ batch_append_trades stamp plainly fresh_sheet
         [report_trade; other_trade; report_trade]
       = (st', Ok (List.length (filter (fun b => b) bs))).
Proof.
  apply (@batch_is_append_one_by_one stamp plainly fresh_sheet
           [report_trade; other_trade; report_trade]).
  reflexivity.
Defined.

Lemma failed_batch_is_not_retried_witness :
  exists st1,
    batch_append_trades stamp plainly flaky_sheet [report_trade; other_trade]
    = (st1, Raise OtherException)
    /\ cells st1 = cells flaky_sheet
    /\ batch_append_trades stamp plainly st1 [report_trade; other_trade] = (st1, Ok 0).
Proof.
  eexists. split; [vm_compute; reflexivity|].
  apply (@failed_batch_is_not_retried stamp plainly flaky_sheet _
           [report_trade; other_trade] OtherException).
  - repeat constructor.
  - vm_compute; reflexivity.
Defined.

(** ** The cache read back from the sheet *)

Lemma trim_keeps (v : str) (l : list str) : v <> [] -> In v l -> In v (trim l).
Proof.
  intros Hv. induction l as [|x l IH]; intros Hin; [destruct Hin|].
  cbn [trim]. destruct Hin as [-> | Hin].
  - destruct (trim l); destruct v; try congruence; left; reflexivity.
  - specialize (IH Hin).
    destruct (trim l) as [|y t]; [destruct IH|].
    destruct x; right; exact IH.
Qed.

Lemma trim_tail_keeps (v : str) (l : list str) :
  v <> [] -> In v (tl l) -> In v (tl (trim l)).
Proof.
  intros Hv Hin. destruct l as [|x l]; [destruct Hin|].
  cbn [tl] in Hin. pose proof (trim_keeps l Hv Hin) as Hk.
  cbn [trim]. destruct (trim l) as [|y t]; [destruct Hk|].
  destruct x; exact Hk.
Qed.

Lemma fold_ids_mono (l : list str) :
  forall (x : str) (acc : list str),
    mem x acc = true ->
    mem x (fold_left (fun s v => match strip v with
                                 | [] => s
                                 | id => set_add id s
                                 end) l acc) = true.
Proof.
  induction l as [|v l IH]; intros x acc H; [exact H|].
  cbn [fold_left]. apply IH.
  destruct (strip v) as [|c r]; [exact H | apply mem_set_add_mono; exact H].
Qed.

Lemma fold_ids_In (l : list str) :
  forall (v : str) (acc : list str),
    In v l -> strip v <> [] ->
    mem (strip v) (fold_left (fun s v => match strip v with
                                         | [] => s
                                         | id => set_add id s
                                         end) l acc) = true.
Proof.
  induction l as [|w l IH]; intros v acc Hin Hs; [destruct Hin|].
  cbn [fold_left]. destruct Hin as [-> | Hin].
  - apply fold_ids_mono.
    destruct (strip v) as [|c r] eqn:E; [congruence|].
    apply mem_set_add_same.
  - apply IH; assumption.
Qed.

Lemma strip_nonempty (v : str) : strip v <> [] -> v <> [].
Proof. intros H ->. apply H. reflexivity. Qed.

(** The identifiers read from the eighth column hold, stripped, every
    identifier below the first row that is not blank. *)
Lemma stripped_ids_hold (column : list str) (v : str) :
  In v (tl column) -> strip v <> [] ->
  mem (strip v) (stripped_ids (trim column)) = true.
Proof.
  intros Hin Hs. unfold stripped_ids.
  apply fold_ids_In; [|exact Hs].
  apply trim_tail_keeps; [apply strip_nonempty; exact Hs | exact Hin].
Qed.

Section Reload.
Variable strftime : datetime -> str.
Variable shown : float -> str.

(** X17. What one run has written, a later run refuses: once [append_trade]
    has written, below the first row of the sheet, the row of a trade whose
    order identifier is not blank, a ledger that loads its cache from that
    sheet returns [False] for the same trade and writes nothing. *)
Theorem written_trade_is_refused_after_reload :
  forall (st st1 : ledger) (t : Trade),
    cells st <> [] ->
    stripped_order_id t <> [] ->
    append_trade strftime shown st t = (st1, Ok true) ->
    let reopened :=
      _load_existing_ids
        {| cells := cells st1; faults := []; existing_order_ids := [] |} in
    cells reopened = cells st1
    /\ append_trade strftime shown reopened t = (reopened, Ok false).
Proof.
  intros st st1 t Hc Hs H reopened.
  assert (Hid : exists id, order_id t = Some id /\ strip id <> []).
  { unfold stripped_order_id in Hs. destruct (order_id t) as [id|]; [eauto | congruence]. }
  destruct Hid as (id & Hoid & Hstrip).
  assert (Hhas : has_order_id t = true).
  { unfold has_order_id. rewrite Hoid.
    destruct id; [exfalso; apply Hstrip; reflexivity | reflexivity]. }
  assert (Hcells : cells st1 = cells st ++ [map (shown_value shown) (row_of strftime t)]).
  { unfold append_trade in H.
    destruct (is_duplicate (existing_order_ids st) t); [discriminate|].
    unfold request in H.
    destruct (faults st) as [|[e|] rest]; cbn in H; inversion H; reflexivity. }
  subst reopened. unfold _load_existing_ids, request.
  cbn [faults cells existing_order_ids col_values_8 tl].
  split; [reflexivity|].
  unfold append_trade. cbn [existing_order_ids].
  unfold is_duplicate. rewrite Hhas. cbn [andb].
  replace (mem (stripped_order_id t)
             (stripped_ids (trim (map (fun row => nth 7 row []) (cells st1)))))
    with true; [reflexivity|].
  symmetry. unfold stripped_order_id. rewrite Hoid.
  apply stripped_ids_hold; [|exact Hstrip].
  rewrite Hcells, map_app.
  destruct (cells st) as [|r0 c0]; [congruence|].
  cbn [map app tl]. apply in_or_app. right. left.
  unfold row_of. cbn [map nth shown_value]. rewrite Hoid. reflexivity.
Qed.

(** X18. [_ensure_headers], while the service answers and the sheet is empty
    or has a first row that is not blank, leaves a sheet whose first cell is
    "Trade Time": it keeps the sheet when that is so already, and otherwise
    puts the row of headers above the rows there are, none of which is lost;
    the cache is not touched, and a second call changes nothing. *)
Theorem ensure_headers_once :
  forall st : ledger,
    faults st = [] ->
    cells st = [] \/ trim (hd [] (cells st)) <> [] ->
    let st' := _ensure_headers shown st in
    (cells st' = cells st \/ cells st' = expected_headers :: cells st)
    /\ hd [] (hd [] (cells st')) = lit "Trade Time"
    /\ existing_order_ids st' = existing_order_ids st
    /\ _ensure_headers shown st' = st'.
Proof.
  intros [c f ids] Hf Hc. cbn [faults cells] in Hf, Hc. subst f.
  unfold _ensure_headers, request.
  cbn [faults cells existing_order_ids row_values_1 tl].
  destruct Hc as [-> | Hc].
  - cbn. repeat split; auto.
  - destruct c as [|r0 c]; [exfalso; apply Hc; reflexivity|].
    cbn [hd] in Hc |- *.
    destruct (trim r0) as [|h t] eqn:Ht; [congruence|].
    assert (Hh : hd [] r0 = h).
    { destruct r0 as [|x r]; [discriminate|]. cbn [trim] in Ht.
      destruct (trim r); destruct x; inversion Ht; reflexivity. }
    destruct (str_eqb h (lit "Trade Time")) eqn:E; cbn [negb].
    + apply str_eqb_eq in E. cbn [cells existing_order_ids faults hd].
      rewrite Ht, Hh. repeat split; auto.
      replace (str_eqb h (lit "Trade Time")) with true
        by (symmetry; apply str_eqb_eq; exact E).
      reflexivity.
    + cbn. repeat split; auto.
Qed.

End Reload.

Lemma written_trade_is_refused_after_reload_witness :
  exists st1,
    append_trade stamp plainly fresh_sheet report_trade = (st1, Ok true)
    /\ append_trade stamp plainly
         (_load_existing_ids
            {| cells := cells st1; faults := []; existing_order_ids := [] |})
         report_trade
       = (_load_existing_ids
            {| cells := cells st1; faults := []; existing_order_ids := [] |}, Ok false).
Proof.
  eexists. split; [vm_compute; reflexivity|].
  refine (proj2 (@written_trade_is_refused_after_reload stamp plainly fresh_sheet _
                   report_trade _ _ _)).
  - discriminate.
  - vm_compute. discriminate.
  - vm_compute; reflexivity.
Defined.

Lemma ensure_headers_once_witness :
  cells (_ensure_headers plainly empty_sheet) = [expected_headers]
  /\ _ensure_headers plainly (_ensure_headers plainly empty_sheet)
     = _ensure_headers plainly empty_sheet.
Proof.
  destruct (@ensure_headers_once plainly empty_sheet eq_refl (or_introl eq_refl))
    as (_ & _ & _ & H).
  split; [reflexivity | exact H].
Defined.

(* ================================================================== *)
(** * Properties of the price lookup *)
(* ================================================================== *)

Import Quotes RunScenario.

Lemma bind_Ok_inv {A B} (m : result A) (k : A -> result B) (b : B) :
  bind m k = Ok b -> exists a, m = Ok a /\ k a = Ok b.
Proof. destruct m as [a|e]; simpl; [eauto | discriminate]. Qed.

(** What [float(price)] can be for a [price] that passed [price > 0]. *)
Lemma positive_to_float (price : json) (x : float) :
  positive price = Ok true ->
  to_float price = Ok x ->
  x = PrimFloat.one \/ gt0 x = true
  \/ exists n, (0 < n)%Z /\ float_of_int n = Ok x.
Proof.
  destruct price as [ |b|n|y|s|l|d]; simpl; intros Hp Hf; try discriminate.
  - inversion Hp; subst. inversion Hf. auto.
  - inversion Hp as [Hn]. apply Z.ltb_lt in Hn. right. right. eauto.
  - inversion Hp as [Hy]. inversion Hf; subst. auto.
Qed.

Section QuoteFacts.
Variable requests_get : str -> result response.

Lemma quote_positive (ticker : str) (x : float) :
  quote requests_get ticker = Ok (Some x) ->
  x = PrimFloat.one \/ gt0 x = true
  \/ exists n, (0 < n)%Z /\ float_of_int n = Ok x.
Proof.
  unfold quote. intros H.
  apply bind_Ok_inv in H. destruct H as (resp & _ & H).
  destruct (status_code resp =? 200)%Z; [|discriminate].
  apply bind_Ok_inv in H. destruct H as (data & _ & H).
  apply bind_Ok_inv in H. destruct H as (chart & _ & H).
  apply bind_Ok_inv in H. destruct H as (res & _ & H).
  destruct (truthy res); [|discriminate].
  apply bind_Ok_inv in H. destruct H as (chart' & _ & H).
  apply bind_Ok_inv in H. destruct H as (res' & _ & H).
  apply bind_Ok_inv in H. destruct H as (first & _ & H).
  apply bind_Ok_inv in H. destruct H as (meta & _ & H).
  apply bind_Ok_inv in H. destruct H as (price & _ & H).
  destruct (truthy price); [|discriminate].
  apply bind_Ok_inv in H. destruct H as (pos & Hpos & H).
  destruct pos; [|discriminate].
  apply bind_Ok_inv in H. destruct H as (y & Hy & H).
  inversion H; subst. eapply positive_to_float; eassumption.
Qed.

(** X19. Whatever the service answers for the two tickers of a code (an
    exception, a status other than 200, a body of any shape),
    [_get_yahoo_price] gives 0.0 or the float of a price that is greater than
    zero: 1.0 for [True], the double of a positive integer, or a float
    greater than zero; it gives no negative number and no NaN read from a
    float. *)
Theorem yahoo_price_is_zero_or_positive :
  forall code : str,
    let x := _get_yahoo_price requests_get code in
    x = PrimFloat.zero \/ x = PrimFloat.one \/ gt0 x = true
    \/ exists n, (0 < n)%Z /\ float_of_int n = Ok x.
Proof.
  intros code x. subst x. unfold _get_yahoo_price, first_quote.
  destruct (quote requests_get (code ++ lit ".TW")) as [[y|]|e] eqn:H1.
  - right. eapply quote_positive. exact H1.
  - destruct (quote requests_get (code ++ lit ".TWO")) as [[y|]|e] eqn:H2;
      [right; eapply quote_positive; exact H2 | auto | auto].
  - destruct (quote requests_get (code ++ lit ".TWO")) as [[y|]|e'] eqn:H2;
      [right; eapply quote_positive; exact H2 | auto | auto].
Qed.

(** X20. A failure of the first listing is not final: when the request for
    [code.TW] raises or is answered with a status other than 200, and the
    answer for [code.TWO] has status 200 and a chart whose
    [regularMarketPrice] is a float greater than zero, that float is the
    price. *)
Theorem second_listing_is_tried :
  forall (code : str) (meta : list (str * json)) (x : float),
    (forall r, requests_get (code ++ lit ".TW") = Ok r -> status_code r <> 200%Z) ->
    requests_get (code ++ lit ".TWO")
    = Ok {| status_code := 200%Z; json_body := Ok (chart_body meta) |} ->
    lookup meta (lit "regularMarketPrice") = Some (JFloat x) ->
    gt0 x = true ->
    _get_yahoo_price requests_get code = x.
Proof.
  intros code meta x H1 H2 Hp Hx. unfold _get_yahoo_price, first_quote.
  assert (Q1 : forall y, quote requests_get (code ++ lit ".TW") <> Ok (Some y)).
  { intros y. unfold quote.
    destruct (requests_get (code ++ lit ".TW")) as [r|e] eqn:E; [|discriminate].
    cbn [bind]. destruct (status_code r =? 200)%Z eqn:Es; [|discriminate].
    apply Z.eqb_eq in Es. exfalso. exact (H1 r eq_refl Es). }
  assert (Q2 : quote requests_get (code ++ lit ".TWO") = Ok (Some x)).
  { unfold quote. rewrite H2. cbn [bind status_code json_body Z.eqb Pos.eqb].
    unfold chart_body.
    cbn [dict_get item item0 lookup bind truthy].
    repeat (rewrite !str_eqb_refl; cbn [bind truthy item item0 lookup dict_get]).
    rewrite Hp. cbn [truthy positive to_float bind].
    rewrite (gt0_ne0 Hx), Hx. reflexivity. }
  destruct (quote requests_get (code ++ lit ".TW")) as [[y|]|e] eqn:E.
  - exfalso. exact (Q1 y eq_refl).
  - rewrite Q2. reflexivity.
  - rewrite Q2. reflexivity.
Qed.

(** X21. A code the service has no readable answer for is priced 0.0: when,
    for both tickers of the code, the request raises, or is answered with a
    status other than 200, or with a body that is not JSON, the price is
    0.0. *)
Theorem unanswered_code_is_priced_zero :
  forall code : str,
    (forall suffix r,
        In suffix [lit ".TW"; lit ".TWO"] ->
        requests_get (code ++ suffix) = Ok r ->
        status_code r = 200%Z ->
        exists e, json_body r = Raise e) ->
    _get_yahoo_price requests_get code = PrimFloat.zero.
Proof.
  intros code H.
  assert (Q : forall suffix y,
             In suffix [lit ".TW"; lit ".TWO"] ->
             quote requests_get (code ++ suffix) <> Ok (Some y)).
  { intros suffix y Hin. unfold quote.
    destruct (requests_get (code ++ suffix)) as [r|e] eqn:E; [|discriminate].
    cbn [bind]. destruct (status_code r =? 200)%Z eqn:Es; [|discriminate].
    apply Z.eqb_eq in Es. destruct (H suffix r Hin E Es) as [e He].
    rewrite He. discriminate. }
  unfold _get_yahoo_price, first_quote.
  destruct (quote requests_get (code ++ lit ".TW")) as [[y|]|e] eqn:E1.
  - exfalso. apply (Q (lit ".TW") y); [left; reflexivity | exact E1].
  - destruct (quote requests_get (code ++ lit ".TWO")) as [[y|]|e] eqn:E2; auto.
    exfalso. apply (Q (lit ".TWO") y); [right; left; reflexivity | exact E2].
  - destruct (quote requests_get (code ++ lit ".TWO")) as [[y|]|e'] eqn:E2; auto.
    exfalso. apply (Q (lit ".TWO") y); [right; left; reflexivity | exact E2].
Qed.

End QuoteFacts.

Lemma second_listing_is_tried_witness :
  _get_yahoo_price otc_only (lit "6488") = 512.5%float.
Proof.
  apply (@second_listing_is_tried otc_only (lit "6488")
           [(lit "currency", JStr (lit "TWD"));
            (lit "regularMarketPrice", JFloat 512.5%float)] 512.5%float).
  - intros r Hr. vm_compute in Hr. inversion Hr. discriminate.
  - vm_compute; reflexivity.
  - vm_compute; reflexivity.
  - vm_compute; reflexivity.
Defined.

Lemma unanswered_code_is_priced_zero_witness :
  _get_yahoo_price otc_only (lit "2344") = PrimFloat.zero.
Proof.
  apply (@unanswered_code_is_priced_zero otc_only (lit "2344")).
  intros suffix r [<- | [<- | []]] Hr Hs;
    vm_compute in Hr; inversion Hr; subst; discriminate.
Defined.

(* ================================================================== *)
(** * Properties of the connection *)
(* ================================================================== *)

Lemma trim_hd (r : list str) (h : str) (t : list str) :
  trim r = h :: t -> hd [] r = h.
Proof.
  destruct r as [|x r]; [discriminate|]. cbn [trim].
  destruct (trim r); destruct x; intros H; inversion H; reflexivity.
Qed.

(** X27. After [connect], while the service answers, and for a sheet that
    is empty or has a first row that is not blank, the cache holds the order
    identifier of every row of trades of the sheet that has one: of every
    row below the first when the sheet begins with "Trade Time", and of
    every row of the sheet when it does not, since the headers are then put
    above the rows before the cache is loaded, which skips one row. *)
Theorem connect_caches_every_written_id :
  forall (shown : float -> str) (st : ledger) (row : list str),
    faults st = [] ->
    cells st = [] \/ trim (hd [] (cells st)) <> [] ->
    In row (if str_eqb (hd [] (hd [] (cells st))) (lit "Trade Time")
            then tl (cells st) else cells st) ->
    strip (nth 7 row []) <> [] ->
    mem (strip (nth 7 row [])) (existing_order_ids (connect shown st)) = true.
Proof.
  intros shown [c f ids] row Hf Hc Hin Hs. cbn [faults cells] in Hf, Hc, Hin. subst f.
  assert (Hload : forall c',
             In row (tl c') ->
             mem (strip (nth 7 row []))
               (existing_order_ids
                  (_load_existing_ids
                     {| cells := c'; faults := []; existing_order_ids := ids |})) = true).
  { intros c' Hc'. unfold _load_existing_ids, request.
    cbn [faults cells existing_order_ids col_values_8 tl].
    apply stripped_ids_hold; [|exact Hs].
    destruct c' as [|r0 c0]; [destruct Hc'|].
    cbn [map tl] in *. apply in_map with (f := fun row => nth 7 row []). exact Hc'. }
  unfold connect, _ensure_headers, request.
  cbn [faults cells existing_order_ids row_values_1 tl].
  destruct c as [|r0 c0].
  - cbn [hd tl] in Hin. destruct (str_eqb [] (lit "Trade Time")); destruct Hin.
  - cbn [hd tl] in Hin, Hc |- *.
    destruct Hc as [Hc | Hc]; [discriminate|].
    destruct (trim r0) as [|h t] eqn:Ht; [congruence|].
    rewrite (trim_hd r0 Ht) in Hin.
    destruct (str_eqb h (lit "Trade Time")); cbn [negb].
    + apply Hload. exact Hin.
    + cbn [fst insert_row_1 cells faults existing_order_ids tl].
      apply Hload. exact Hin.
Qed.

Lemma connect_caches_every_written_id_witness :
  mem (lit "ABC123") (existing_order_ids (connect plainly headless_sheet)) = true.
Proof.
  refine (@connect_caches_every_written_id plainly headless_sheet
            (sheet_row "2344" "BUY" "100" "10" "1000") _ _ _ _).
  - reflexivity.
  - right. vm_compute. discriminate.
  - vm_compute. left. reflexivity.
  - vm_compute. discriminate.
Defined.

(* ================================================================== *)
(** * Properties of the run over the mails *)
(* ================================================================== *)

Import Main.

Lemma mem_set_add_inv (x y : str) (s : list str) :
  mem x (set_add y s) = true -> x = y \/ mem x s = true.
Proof.
  unfold set_add. destruct (mem y s); [auto|].
  unfold mem. rewrite existsb_app. cbn [existsb]. rewrite orb_false_r.
  intros H. apply orb_prop in H. destruct H as [H | H]; [auto|].
  left. apply str_eqb_eq. exact H.
Qed.

Lemma fold_ids_inv (l : list str) :
  forall (x : str) (acc : list str),
    mem x (fold_left (fun s v => match strip v with
                                 | [] => s
                                 | id => set_add id s
                                 end) l acc) = true ->
    mem x acc = true \/ exists v, In v l /\ strip v = x /\ x <> [].
Proof.
  induction l as [|w l IH]; intros x acc H; [left; exact H|].
  cbn [fold_left] in H. apply IH in H. destruct H as [H | (v & Hin & Hv)].
  - destruct (strip w) as [|c r] eqn:E; [left; exact H|].
    apply mem_set_add_inv in H. destruct H as [-> | H]; [|left; exact H].
    right. exists w. split; [left; reflexivity|]. split; [exact E | discriminate].
  - right. exists v. split; [right; exact Hin | exact Hv].
Qed.

Lemma trim_incl (v : str) (l : list str) : In v (trim l) -> In v l.
Proof.
  induction l as [|x l IH]; [auto|]. cbn [trim].
  destruct (trim l) as [|y t].
  - destruct x; [intros [] | intros [<- | []]; left; reflexivity].
  - intros [<- | H]; [left; reflexivity | right; apply IH; exact H].
Qed.

Lemma trim_tail_incl (v : str) (l : list str) : In v (tl (trim l)) -> In v (tl l).
Proof.
  destruct l as [|x l]; [auto|]. cbn [trim tl].
  pose proof (trim_incl v l) as Hi.
  destruct (trim l) as [|y t]; [destruct x; intros [] | exact Hi].
Qed.

Lemma stripped_ids_inv (column : list str) (x : str) :
  mem x (stripped_ids (trim column)) = true ->
  exists v, In v (tl column) /\ strip v = x /\ x <> [].
Proof.
  unfold stripped_ids. intros H. apply fold_ids_inv in H.
  destruct H as [H | (v & Hin & Hv)]; [discriminate|].
  exists v. split; [apply trim_tail_incl; exact Hin | exact Hv].
Qed.

(** The identifiers a ledger would load from a sheet are loaded from the
    sheet with more rows below. *)
Lemma loaded_ids_grow (c rows : list (list str)) (x : str) :
  mem x (stripped_ids (trim (map (fun row => nth 7 row []) c))) = true ->
  mem x (stripped_ids (trim (map (fun row => nth 7 row []) (c ++ rows)))) = true.
Proof.
  intros H. apply stripped_ids_inv in H. destruct H as (v & Hin & <- & Hx).
  apply stripped_ids_hold; [|exact Hx].
  destruct c as [|r0 c]; [destruct Hin|].
  cbn [map app tl] in *. rewrite map_app. apply in_or_app. left. exact Hin.
Qed.

Lemma stripped_has_id (t : Trade) :
  stripped_order_id t <> [] ->
  exists id, order_id t = Some id /\ strip id = stripped_order_id t
             /\ has_order_id t = true.
Proof.
  unfold stripped_order_id, has_order_id.
  destruct (order_id t) as [id|]; [|congruence].
  intros H. exists id. split; [reflexivity|]. split; [reflexivity|].
  destruct id; [exfalso; apply H; reflexivity | reflexivity].
Qed.

Lemma trim_headed (r : list str) :
  hd [] r <> [] -> exists t, trim r = hd [] r :: t.
Proof.
  destruct r as [|x r]; cbn [hd]; [congruence|]. intros Hx. cbn [trim].
  destruct (trim r) as [|y t]; destruct x; try congruence; eauto.
Qed.

Lemma trade_time_not_blank : lit "Trade Time" <> [].
Proof. vm_compute. discriminate. Qed.

Section RunFacts.
Variable pydantic : bool.
Variable find_all_tr : str -> result (list (list str)).
Variable strftime : datetime -> str.
Variable shown : float -> str.

Local Abbreviation loaded c :=
  (stripped_ids (trim (map (fun row : list str => nth 7 row []) c))).

Lemma parse_gives_list (now : datetime) (subject body : str) :
  exists trades : list Trade,
    parse pydantic now find_all_tr subject body = Ok trades.
Proof.
  unfold parse. destruct (contains (lit "富邦證券") subject).
  - unfold _parse_fubon_report. apply try_except_Exception.
  - unfold _parse_regex.
    match goal with
    | |- context [try_except ?m is_Exception ?h] =>
      destruct (try_except_Exception m None) as [o Ho]; rewrite Ho
    end.
    simpl. eauto.
Qed.

Lemma scan_dry_run (mails : list mail) :
  forall (st : ledger) (e n : nat),
    scan pydantic find_all_tr strftime shown true mails st e n
    = (st, Ok (e + List.length mails, n)).
Proof.
  induction mails as [|m mails IH]; intros st e n.
  - cbn. rewrite Nat.add_0_r. reflexivity.
  - cbn [scan].
    destruct (parse_gives_list (parsed_at m) (subject m) (body m)) as [trades ->].
    rewrite IH. cbn [List.length]. rewrite Nat.add_succ_r. reflexivity.
Qed.

(** X22. A dry run leaves the sheet and the ledger as they are, whatever the
    mails hold and whatever the start meets: the ledger is not connected, no
    request goes to the sheet, no order identifier is cached and no holdings
    table is computed.  When the scout and the ledger are configured and the
    connection test of the scout passes, the run ends with every mail
    counted and zero trades recorded; otherwise it fails. *)
Theorem dry_run_writes_nothing :
  forall (price : str -> float) (env : environment) (mails : list mail)
         (sheet : list (list str)) (service : list (option exn)),
    main pydantic find_all_tr strftime shown price env true mails sheet service
    = (new_ledger sheet service,
       if scout_configured env && ledger_configured env && test_connection env
       then Finished (List.length mails) 0 None
       else Failed).
Proof.
  intros price env mails sheet service. unfold main, run_diagnostics, single_run.
  destruct (scout_configured env), (ledger_configured env), (test_connection env);
    cbn [andb negb]; try reflexivity.
  rewrite scan_dry_run. reflexivity.
Qed.

(** The loop over the trades of a mail is [append_trade] called for each,
    and counts the calls that return. *)
Lemma record_trades_append_each (trades : list Trade) :
  forall (st : ledger) (n : nat),
    record_trades strftime shown st trades n
    = (fst (append_each strftime shown st trades),
       match snd (append_each strftime shown st trades) with
       | Ok bs => Ok (n + List.length bs)
       | Raise e => Raise e
       end).
Proof.
  induction trades as [|t trades IH]; intros st n.
  - cbn. rewrite Nat.add_0_r. reflexivity.
  - cbn [record_trades append_each].
    destruct (append_trade strftime shown st t) as [st1 [b|e]]; [|reflexivity].
    rewrite IH.
    destruct (append_each strftime shown st1 trades) as [st2 [bs|e]];
      cbn [fst snd List.length]; [|reflexivity].
    rewrite Nat.add_succ_r. reflexivity.
Qed.

Lemma append_each_app (a : list Trade) :
  forall (st : ledger) (b : list Trade),
    append_each strftime shown st (a ++ b)
    = match append_each strftime shown st a with
      | (st1, Ok bs1) =>
        (fst (append_each strftime shown st1 b),
         match snd (append_each strftime shown st1 b) with
         | Ok bs2 => Ok (bs1 ++ bs2)
         | Raise e => Raise e
         end)
      | (st1, Raise e) => (st1, Raise e)
      end.
Proof.
  induction a as [|t a IH]; intros st b.
  - cbn. destruct (append_each strftime shown st b) as [st2 [bs|e]]; reflexivity.
  - cbn [app append_each].
    destruct (append_trade strftime shown st t) as [st1 [x|e]]; [|reflexivity].
    rewrite IH.
    destruct (append_each strftime shown st1 a) as [st2 [bs1|e]]; [|reflexivity].
    destruct (append_each strftime shown st2 b) as [st3 [bs2|e]]; reflexivity.
Qed.

(** The scan of the mails, when it is no dry run, is [append_trade] called
    for each trade of each mail, in order, until a call raises. *)
Lemma scan_append_each (mails : list mail) :
  forall (st : ledger) (e n : nat),
    scan pydantic find_all_tr strftime shown false mails st e n
    = (fst (append_each strftime shown st (all_trades pydantic find_all_tr mails)),
       match snd (append_each strftime shown st (all_trades pydantic find_all_tr mails)) with
       | Ok bs => Ok (e + List.length mails, n + List.length bs)
       | Raise x => Raise x
       end).
Proof.
  induction mails as [|m mails IH]; intros st e n.
  - cbn. rewrite !Nat.add_0_r. reflexivity.
  - cbn [scan all_trades flat_map].
    destruct (parse_gives_list (parsed_at m) (subject m) (body m)) as [trades ->].
    rewrite record_trades_append_each, append_each_app.
    fold (all_trades pydantic find_all_tr mails).
    destruct (append_each strftime shown st trades) as [st1 [bs1|x]];
      cbn [fst snd]; [|reflexivity].
    rewrite IH.
    destruct (append_each strftime shown st1 (all_trades pydantic find_all_tr mails))
      as [st2 [bs2|x]]; cbn [fst snd]; [|reflexivity].
    rewrite length_app. cbn [List.length].
    rewrite Nat.add_succ_r, Nat.add_assoc. reflexivity.
Qed.

Lemma append_each_results (trades : list Trade) :
  forall (st st' : ledger) (bs : list bool),
    append_each strftime shown st trades = (st', Ok bs) ->
    List.length bs = List.length trades.
Proof.
  induction trades as [|t trades IH]; intros st st' bs H.
  - cbn in H. inversion H. reflexivity.
  - cbn [append_each] in H.
    destruct (append_trade strftime shown st t) as [st1 [b|e]]; [|discriminate].
    destruct (append_each strftime shown st1 trades) as [st2 [bs'|e]] eqn:E;
      [|discriminate].
    inversion H; subst. cbn [List.length]. f_equal. exact (IH _ _ _ E).
Qed.

(** When every check of the start passes, a run that is no dry run is the
    single run of the connected ledger. *)
Lemma main_green (price : str -> float) (env : environment) (mails : list mail)
    (sheet : list (list str)) (service : list (option exn)) :
  all_green env = true ->
  main pydantic find_all_tr strftime shown price env false mails sheet service
  = single_run pydantic find_all_tr strftime shown price false mails
      (connect shown (new_ledger sheet service)).
Proof.
  unfold all_green, main, run_diagnostics.
  destruct (scout_configured env), (ledger_configured env), (test_connection env),
    (opening env); cbn [andb negb]; intros H; try discriminate. reflexivity.
Qed.

Lemma single_run_finished (price : str -> float) (mails : list mail)
    (st st1 : ledger) (bs : list bool) :
  append_each strftime shown st (all_trades pydantic find_all_tr mails) = (st1, Ok bs) ->
  single_run pydantic find_all_tr strftime shown price false mails st
  = (fst (draw price st1),
     Finished (List.length mails)
       (List.length (all_trades pydantic find_all_tr mails)) (snd (draw price st1))).
Proof.
  intros H. unfold single_run. rewrite scan_append_each, H.
  cbn [fst snd negb andb Nat.leb Nat.add].
  rewrite (@append_each_results _ _ _ _ H).
  destruct (draw price st1) as [st2 d]. reflexivity.
Qed.

Lemma single_run_failed (price : str -> float) (mails : list mail)
    (st st1 : ledger) (e : exn) :
  append_each strftime shown st (all_trades pydantic find_all_tr mails) = (st1, Raise e) ->
  single_run pydantic find_all_tr strftime shown price false mails st = (st1, Failed).
Proof. intros H. unfold single_run. rewrite scan_append_each, H. reflexivity. Qed.

(** ** What the writes keep *)

Lemma append_trade_keeps_rows (st st' : ledger) (t : Trade) (r : result bool) :
  append_trade strftime shown st t = (st', r) ->
  exists rows, cells st' = cells st ++ rows.
Proof.
  unfold append_trade. destruct (is_duplicate (existing_order_ids st) t).
  - intros H. inversion H; subst. exists []. rewrite app_nil_r. reflexivity.
  - unfold request, append_row.
    destruct (faults st) as [|[e|] rest]; cbn; intros H; inversion H; subst;
      cbn [cells]; eauto.
    exists []. rewrite app_nil_r. reflexivity.
Qed.

Lemma append_each_keeps_rows (trades : list Trade) :
  forall (st st' : ledger) (r : result (list bool)),
    append_each strftime shown st trades = (st', r) ->
    exists rows, cells st' = cells st ++ rows.
Proof.
  induction trades as [|t trades IH]; intros st st' r H.
  - cbn in H. inversion H; subst. exists []. rewrite app_nil_r. reflexivity.
  - cbn [append_each] in H.
    destruct (append_trade strftime shown st t) as [st1 [b|e]] eqn:E1.
    + destruct (append_each strftime shown st1 trades) as [st2 rs] eqn:E2.
      inversion H; subst.
      destruct (@append_trade_keeps_rows _ _ _ _ E1) as [r1 H1].
      destruct (IH _ _ _ E2) as [r2 H2].
      exists (r1 ++ r2). rewrite H2, H1, app_assoc. reflexivity.
    + inversion H; subst. exact (@append_trade_keeps_rows _ _ _ _ E1).
Qed.

Lemma append_each_all_duplicates (trades : list Trade) :
  forall st : ledger,
    Forall (fun t => is_duplicate (existing_order_ids st) t = true) trades ->
    append_each strftime shown st trades = (st, Ok (map (fun _ => false) trades)).
Proof.
  induction trades as [|t trades IH]; intros st H; [reflexivity|].
  inversion H as [|? ? Hd Hrest]; subst.
  cbn [append_each map]. unfold append_trade. rewrite Hd.
  rewrite (IH st Hrest). reflexivity.
Qed.

Lemma draw_answered (price : str -> float) (c : list (list str)) (ids : list str) :
  draw price {| cells := c; faults := []; existing_order_ids := ids |}
  = ({| cells := c; faults := []; existing_order_ids := ids |},
     update_portfolio_summary price c).
Proof. reflexivity. Qed.


(** ** The connection at the start of a run *)

(** [connect] while the service answers, on a sheet that is empty or has a
    first row that is not blank. *)
Lemma connect_answered (sheet : list (list str)) :
  sheet = [] \/ trim (hd [] sheet) <> [] ->
  connect shown (new_ledger sheet [])
  = (let c := if str_eqb (hd [] (hd [] sheet)) (lit "Trade Time")
              then sheet else expected_headers :: sheet in
     {| cells := c; faults := []; existing_order_ids := loaded c |}).
Proof.
  intros Hc. unfold connect, new_ledger, _ensure_headers, request.
  cbn [faults cells existing_order_ids row_values_1 tl].
  destruct sheet as [|r0 c0].
  - cbn [hd trim]. replace (str_eqb [] (lit "Trade Time")) with false
      by (vm_compute; reflexivity).
    reflexivity.
  - cbn [hd] in Hc |- *. destruct Hc as [Hc | Hc]; [discriminate|].
    destruct (trim r0) as [|h t] eqn:Ht; [congruence|].
    rewrite (@trim_hd r0 _ _ Ht).
    destruct (str_eqb h (lit "Trade Time")); reflexivity.
Qed.

Lemma connected_sheet_is_headed (sheet : list (list str)) :
  let c := if str_eqb (hd [] (hd [] sheet)) (lit "Trade Time")
           then sheet else expected_headers :: sheet in
  c <> [] /\ hd [] (hd [] c) = lit "Trade Time".
Proof.
  cbv zeta. destruct (str_eqb (hd [] (hd [] sheet)) (lit "Trade Time")) eqn:E.
  - apply str_eqb_eq in E. split; [|exact E].
    intros ->. cbn in E. symmetry in E. exact (trade_time_not_blank E).
  - split; [discriminate | reflexivity].
Qed.



(** ** The cache and the sheet *)

(** Every identifier of the cache that is not blank can be read from the
    sheet, below its first row: so it is after [connect], and the writes
    keep it so. *)
Lemma append_trade_cache_in_sheet (st st' : ledger) (t : Trade) (r : result bool) :
  append_trade strftime shown st t = (st', r) ->
  cells st <> [] ->
  (forall x, x <> [] -> mem x (existing_order_ids st) = true ->
             mem x (loaded (cells st)) = true) ->
  forall x, x <> [] -> mem x (existing_order_ids st') = true ->
            mem x (loaded (cells st')) = true.
Proof.
  intros H Hc Hinv. unfold append_trade in H.
  destruct (is_duplicate (existing_order_ids st) t).
  { inversion H; subst. exact Hinv. }
  unfold request, append_row in H.
  assert (Hw : forall x, x <> [] ->
             mem x (remember (existing_order_ids st) t) = true ->
             mem x (loaded (cells st ++ [map (shown_value shown) (row_of strftime t)]))
             = true).
  { intros x Hx Hm. unfold remember in Hm.
    assert (Hold : mem x (existing_order_ids st) = true ->
                   mem x (loaded (cells st
                                  ++ [map (shown_value shown) (row_of strftime t)])) = true).
    { intros Hm'. apply loaded_ids_grow. apply Hinv; assumption. }
    destruct (has_order_id t) eqn:Hid; [|exact (Hold Hm)].
    apply mem_set_add_inv in Hm. destruct Hm as [-> | Hm]; [|exact (Hold Hm)].
    destruct (@stripped_has_id t Hx) as (id & Hoid & Hstrip & _).
    rewrite <- Hstrip. apply stripped_ids_hold; [|rewrite Hstrip; exact Hx].
    rewrite map_app. destruct (cells st) as [|r0 c0]; [congruence|].
    cbn [map app tl]. apply in_or_app. right. left.
    unfold row_of. cbn [map nth shown_value]. rewrite Hoid. reflexivity. }
  destruct (faults st) as [|[e|] rest]; cbn in H; inversion H; subst; clear H;
    cbn [cells existing_order_ids]; auto.
Qed.

Lemma append_each_cache_in_sheet (trades : list Trade) :
  forall (st st' : ledger) (r : result (list bool)),
    append_each strftime shown st trades = (st', r) ->
    cells st <> [] ->
    (forall x, x <> [] -> mem x (existing_order_ids st) = true ->
               mem x (loaded (cells st)) = true) ->
    forall x, x <> [] -> mem x (existing_order_ids st') = true ->
              mem x (loaded (cells st')) = true.
Proof.
  induction trades as [|t trades IH]; intros st st' r H Hc Hinv.
  - cbn in H. inversion H; subst. exact Hinv.
  - cbn [append_each] in H.
    destruct (append_trade strftime shown st t) as [st1 [b|e]] eqn:E1.
    + destruct (append_each strftime shown st1 trades) as [st2 rs] eqn:E2.
      inversion H; subst.
      apply (IH _ _ _ E2).
      * destruct (@append_trade_keeps_rows _ _ _ _ E1) as [rows Hrows].
        rewrite Hrows. destruct (cells st); [congruence | discriminate].
      * exact (@append_trade_cache_in_sheet _ _ _ _ E1 Hc Hinv).
    + inversion H; subst. exact (@append_trade_cache_in_sheet _ _ _ _ E1 Hc Hinv).
Qed.

(** A trade with an order identifier is a duplicate once [append_trade] has
    returned for it, and stays one. *)
Lemma append_trade_mono (st st' : ledger) (t u : Trade) (r : result bool) :
  append_trade strftime shown st t = (st', r) ->
  is_duplicate (existing_order_ids st) u = true ->
  is_duplicate (existing_order_ids st') u = true.
Proof.
  intros H Hu. unfold append_trade in H.
  destruct (is_duplicate (existing_order_ids st) t).
  { inversion H; subst. exact Hu. }
  unfold request in H.
  destruct (faults st) as [|[e|] rest]; cbn in H; inversion H; subst; clear H;
    cbn [existing_order_ids]; try exact Hu; apply is_duplicate_mono; exact Hu.
Qed.

Lemma append_trade_returned (st st' : ledger) (t : Trade) (b : bool) :
  has_order_id t = true ->
  append_trade strftime shown st t = (st', Ok b) ->
  is_duplicate (existing_order_ids st') t = true.
Proof.
  intros Hid H. unfold append_trade in H.
  destruct (is_duplicate (existing_order_ids st) t) eqn:Hd.
  { inversion H; subst. exact Hd. }
  unfold request in H.
  destruct (faults st) as [|[e|] rest]; cbn in H; inversion H; subst; clear H;
    cbn [existing_order_ids]; apply is_duplicate_remember; exact Hid.
Qed.

Lemma append_each_mono (trades : list Trade) :
  forall (st st' : ledger) (r : result (list bool)) (u : Trade),
    append_each strftime shown st trades = (st', r) ->
    is_duplicate (existing_order_ids st) u = true ->
    is_duplicate (existing_order_ids st') u = true.
Proof.
  induction trades as [|t trades IH]; intros st st' r u H Hu.
  - cbn in H. inversion H; subst. exact Hu.
  - cbn [append_each] in H.
    destruct (append_trade strftime shown st t) as [st1 [b|e]] eqn:E1.
    + destruct (append_each strftime shown st1 trades) as [st2 rs] eqn:E2.
      inversion H; subst.
      apply (IH _ _ _ _ E2). exact (@append_trade_mono _ _ _ _ _ E1 Hu).
    + inversion H; subst. exact (@append_trade_mono _ _ _ _ _ E1 Hu).
Qed.

Lemma append_each_returned (trades : list Trade) :
  forall (st st' : ledger) (bs : list bool) (u : Trade),
    append_each strftime shown st trades = (st', Ok bs) ->
    In u trades -> has_order_id u = true ->
    is_duplicate (existing_order_ids st') u = true.
Proof.
  induction trades as [|t trades IH]; intros st st' bs u H Hin Hid; [destruct Hin|].
  cbn [append_each] in H.
  destruct (append_trade strftime shown st t) as [st1 [b|e]] eqn:E1; [|discriminate].
  destruct (append_each strftime shown st1 trades) as [st2 [bs'|e]] eqn:E2;
    [|discriminate].
  inversion H; subst. destruct Hin as [<- | Hin].
  - apply (@append_each_mono _ _ _ _ _ E2). exact (@append_trade_returned _ _ _ _ Hid E1).
  - exact (IH _ _ _ _ E2 Hin Hid).
Qed.

(** ** The runs *)

(** X23. When every check of the start passes and the service answers, a
    run that is no dry run, on a sheet that is empty or has a first row that
    is not blank, connects the ledger, calls [append_trade] for every trade
    of every mail, in order, and computes the holdings table from the sheet
    so left.  The count of trades it reports is the number of trades
    extracted, also when calls were refused as duplicates: the sheet the run
    found grows by the row of headers, when it did not begin with "Trade
    Time", and by one row for each call that returned [True]. *)
Theorem run_counts_every_extracted_trade :
  forall (price : str -> float) (env : environment) (mails : list mail)
         (sheet : list (list str)),
    all_green env = true ->
    sheet = [] \/ trim (hd [] sheet) <> [] ->
    exists (st' : ledger) (bs : list bool),
      append_each strftime shown (connect shown (new_ledger sheet []))
        (all_trades pydantic find_all_tr mails)
      = (st', Ok bs)
      /\ main pydantic find_all_tr strftime shown price env false mails sheet []
         = (st', Finished (List.length mails)
                   (List.length (all_trades pydantic find_all_tr mails))
                   (update_portfolio_summary price (cells st')))
      /\ List.length (cells st')
         = List.length sheet
           + (if str_eqb (hd [] (hd [] sheet)) (lit "Trade Time") then 0 else 1)
           + List.length (filter (fun b => b) bs).
Proof.
  intros price env mails sheet Hg Hc.
  rewrite (@main_green price env mails sheet [] Hg), (@connect_answered sheet Hc). cbv zeta.
  set (c := if str_eqb (hd [] (hd [] sheet)) (lit "Trade Time")
            then sheet else expected_headers :: sheet).
  destruct (append_each_batch strftime shown
              (all_trades pydantic find_all_tr mails) c [] (loaded c))
    as (bs & Hbs & Hlen).
  cbn [map] in Hbs. rewrite app_nil_r in Hbs.
  eexists. exists bs. split; [exact Hbs|].
  split.
  - rewrite (@single_run_finished price _ _ _ _ Hbs), draw_answered. reflexivity.
  - cbn [cells]. rewrite length_app, length_map, Hlen. subst c.
    destruct (str_eqb (hd [] (hd [] sheet)) (lit "Trade Time"));
      cbn [List.length]; lia.
Qed.

(** X24. When every check of the start passes and a call of [append_trade]
    raises, the run ends there as a failure: the trades that follow are not
    written, no holdings table is computed, and the ledger is left as the
    calls made so far left it, the rows of the connected sheet still there
    and in place. *)
Theorem failed_write_ends_the_run :
  forall (price : str -> float) (env : environment) (mails : list mail)
         (sheet : list (list str)) (service : list (option exn))
         (st' : ledger) (e : exn),
    all_green env = true ->
    append_each strftime shown (connect shown (new_ledger sheet service))
      (all_trades pydantic find_all_tr mails)
    = (st', Raise e) ->
    main pydantic find_all_tr strftime shown price env false mails sheet service
    = (st', Failed)
    /\ exists rows,
         cells st' = cells (connect shown (new_ledger sheet service)) ++ rows.
Proof.
  intros price env mails sheet service st' e Hg H. split.
  - rewrite (@main_green price env mails sheet service Hg). exact (@single_run_failed price _ _ _ _ H).
  - exact (@append_each_keeps_rows _ _ _ _ H).
Qed.

(** X25. What one run has written, a later run does not write again.  After
    a run that is no dry run, on a sheet that is empty or has a first row
    that is not blank, a second run, which makes a new ledger and connects
    it to the sheet the first run left, writes nothing for mails whose
    trades each carry the order identifier, not blank, of a trade of the
    first run: the sheet stays as the first run left it, and the second run
    still reports each of these trades as recorded.  The service answers in
    both runs; the prices of the second run may differ. *)
Theorem second_run_writes_nothing :
  forall (price price' : str -> float) (env env' : environment)
         (mails mails' : list mail) (sheet : list (list str)),
    all_green env = true ->
    all_green env' = true ->
    sheet = [] \/ trim (hd [] sheet) <> [] ->
    Forall (fun t => stripped_order_id t <> []
                     /\ exists u, In u (all_trades pydantic find_all_tr mails)
                                  /\ stripped_order_id u = stripped_order_id t)
           (all_trades pydantic find_all_tr mails') ->
    exists (st1 : ledger) (dashboard : option (list summary_row)),
      main pydantic find_all_tr strftime shown price env false mails sheet []
      = (st1, Finished (List.length mails)
                (List.length (all_trades pydantic find_all_tr mails)) dashboard)
      /\ exists st2 : ledger,
           main pydantic find_all_tr strftime shown price' env' false mails'
             (cells st1) []
           = (st2, Finished (List.length mails')
                     (List.length (all_trades pydantic find_all_tr mails'))
                     (update_portfolio_summary price' (cells st1)))
           /\ cells st2 = cells st1.
Proof.
  intros price price' env env' mails mails' sheet Hg Hg' Hc Hids.
  rewrite (@main_green price env mails sheet [] Hg), (@connect_answered sheet Hc). cbv zeta.
  destruct (connected_sheet_is_headed sheet) as [Hne Hhd]. cbv zeta in Hne, Hhd.
  set (c := if str_eqb (hd [] (hd [] sheet)) (lit "Trade Time")
            then sheet else expected_headers :: sheet) in *.
  set (st0 := {| cells := c; faults := []; existing_order_ids := loaded c |}).
  destruct (append_each_batch strftime shown
              (all_trades pydantic find_all_tr mails) c [] (loaded c))
    as (bs & Hbs & _).
  cbn [map] in Hbs. rewrite app_nil_r in Hbs. fold st0 in Hbs.
  match type of Hbs with _ = (?s, _) => set (st1 := s) in * end.
  (* the sheet the first run leaves *)
  destruct (@append_each_keeps_rows _ _ _ _ Hbs) as [rows Hrows]. cbn [cells st0] in Hrows.
  assert (Hne1 : cells st1 <> []).
  { rewrite Hrows. destruct c; [congruence | discriminate]. }
  assert (Hhd1 : hd [] (hd [] (cells st1)) = lit "Trade Time").
  { rewrite Hrows. destruct c; [congruence | exact Hhd]. }
  assert (Hinv : forall x, x <> [] -> mem x (existing_order_ids st1) = true ->
                           mem x (loaded (cells st1)) = true).
  { apply (@append_each_cache_in_sheet _ _ _ _ Hbs); [exact Hne|]. intros x _ Hm. exact Hm. }
  exists st1. eexists. split.
  { rewrite (@single_run_finished price _ _ _ _ Hbs).
    unfold st1 at 1 2. rewrite draw_answered. reflexivity. }
  (* the second run *)
  assert (Hc1 : cells st1 = [] \/ trim (hd [] (cells st1)) <> []).
  { right. destruct (trim_headed (hd [] (cells st1))) as [t Ht].
    - rewrite Hhd1. exact trade_time_not_blank.
    - rewrite Ht. discriminate. }
  rewrite (@main_green price' env' mails' (cells st1) [] Hg'), (@connect_answered (cells st1) Hc1). cbv zeta.
  rewrite Hhd1, str_eqb_refl.
  assert (Hdup : Forall (fun t => is_duplicate (loaded (cells st1)) t = true)
                   (all_trades pydantic find_all_tr mails')).
  { eapply Forall_impl; [|exact Hids]. intros t [Ht (u & Hu & Heq)].
    destruct (@stripped_has_id t Ht) as (_ & _ & _ & Hid).
    unfold is_duplicate. rewrite Hid. cbn [andb].
    apply Hinv; [exact Ht|]. rewrite <- Heq.
    assert (Hidu : has_order_id u = true).
    { rewrite <- Heq in Ht. destruct (@stripped_has_id u Ht) as (_ & _ & _ & H). exact H. }
    pose proof (@append_each_returned _ _ _ _ _ Hbs Hu Hidu) as Hd.
    unfold is_duplicate in Hd. rewrite Hidu in Hd. exact Hd. }
  eexists. split.
  - assert (Hrun := @append_each_all_duplicates
                      (all_trades pydantic find_all_tr mails')
                      {| cells := cells st1; faults := [];
                         existing_order_ids := loaded (cells st1) |} Hdup).
    unfold single_run. rewrite scan_append_each, Hrun.
    cbn [fst snd negb andb Nat.leb Nat.add]. rewrite length_map.
    reflexivity.
  - reflexivity.
Qed.


End RunFacts.

Lemma report_mail_trades :
  all_trades true tables [report_mail] = [report_trade; other_trade].
Proof. vm_compute; reflexivity. Qed.

Lemma run_counts_every_extracted_trade_witness :
  exists (st' : ledger) (bs : list bool),
    append_each stamp plainly (connect plainly (new_ledger buy_then_sell []))
      (all_trades true tables [report_mail; report_mail])
    = (st', Ok bs)
    /\ main true tables stamp plainly flat_price green false
         [report_mail; report_mail] buy_then_sell []
       = (st', Finished (List.length [report_mail; report_mail])
                 (List.length (all_trades true tables [report_mail; report_mail]))
                 (update_portfolio_summary flat_price (cells st')))
    /\ List.length (cells st')
       = List.length buy_then_sell
         + (if str_eqb (hd [] (hd [] buy_then_sell)) (lit "Trade Time") then 0 else 1)
         + List.length (filter (fun b => b) bs).
Proof.
  apply (@run_counts_every_extracted_trade true tables stamp plainly flat_price green
           [report_mail; report_mail] buy_then_sell).
  - reflexivity.
  - right. vm_compute. discriminate.
Defined.

Lemma failed_write_ends_the_run_witness :
  exists st' : ledger,
    main true tables stamp plainly flat_price green false [report_mail]
      [expected_headers] [None; None; Some OtherException]
    = (st', Failed)
    /\ exists rows,
         cells st'
         = cells (connect plainly
                    (new_ledger [expected_headers] [None; None; Some OtherException]))
           ++ rows.
Proof.
  eexists.
  apply (@failed_write_ends_the_run true tables stamp plainly flat_price green
           [report_mail] [expected_headers] [None; None; Some OtherException]
           _ OtherException).
  - reflexivity.
  - vm_compute; reflexivity.
Defined.

Lemma second_run_writes_nothing_witness :
  exists (st1 : ledger) (dashboard : option (list summary_row)),
    main true tables stamp plainly flat_price green false [report_mail] [] []
    = (st1, Finished (List.length [report_mail])
              (List.length (all_trades true tables [report_mail])) dashboard)
    /\ exists st2 : ledger,
         main true tables stamp plainly (fun _ => 121%float) green false [report_mail]
           (cells st1) []
         = (st2, Finished (List.length [report_mail])
                   (List.length (all_trades true tables [report_mail]))
                   (update_portfolio_summary (fun _ => 121%float) (cells st1)))
         /\ cells st2 = cells st1.
Proof.
  apply (@second_run_writes_nothing true tables stamp plainly flat_price
           (fun _ => 121%float) green green [report_mail] [report_mail] []).
  - reflexivity.
  - reflexivity.
  - left. reflexivity.
  - rewrite report_mail_trades.
    constructor; [|constructor; [|constructor]].
    + split; [vm_compute; discriminate|].
      exists report_trade. split; [left; reflexivity | reflexivity].
    + split; [vm_compute; discriminate|].
      exists other_trade. split; [right; left; reflexivity | reflexivity].
Defined.
